(** * pdfread: document reader with chat, diagram studio and canvas editor

    A shallow embedding of the state handling of the application:

    - [src/types.ts]                      the data model,
    - [src/services/geminiService.ts]     the gateway to the hosted model,
    - [src/App.tsx]                       upload/convert and the session state,
    - [src/components/ImageGenerator.tsx] the canvas editor.

    Everything the program obtains from outside (the replies of the hosted
    model, [JSON.parse], [Date.now], [Math.random], [FileReader], the PDF
    library and the canvas) is an explicit input of the function that uses
    it.  Asynchronous functions return a [Promise] value: [Resolved] or
    [Rejected].  JavaScript numbers are only compared, copied and
    subtracted here, and are integers ([Z]). *)

From Stdlib Require Import String Ascii List ZArith Bool Lia.
From Stdlib Require Import Numbers.DecimalString Numbers.DecimalZ Numbers.DecimalPos.
Import ListNotations.
Open Scope string_scope.
Open Scope Z_scope.

(** ** JavaScript helpers *)

(** The settled state of a promise. *)
Inductive Promise (A : Type) : Type :=
| Resolved (a : A)
| Rejected (reason : string).
Arguments Resolved {A} a.
Arguments Rejected {A} reason.

(** Truthiness of a string: only the empty string is falsy. *)
Definition truthy (s : string) : bool := negb (s =? EmptyString)%string.

(** [v || d] for an optional string [v] ([None] is [undefined]). *)
Definition or_else (v : option string) (d : string) : string :=
  match v with
  | Some s => if truthy s then s else d
  | None => d
  end.

(** Template rendering of an integer, as in [`${Date.now()}`]. *)
Definition Z_to_string (z : Z) : string := NilZero.string_of_int (Z.to_int z).

(** [Array.prototype.map] with the index passed to the callback. *)
Fixpoint mapi_from {A B : Type} (i : nat) (f : nat -> A -> B) (l : list A) : list B :=
  match l with
  | [] => []
  | a :: l' => f i a :: mapi_from (S i) f l'
  end.

Definition mapi {A B : Type} (f : nat -> A -> B) (l : list A) : list B :=
  mapi_from 0 f l.

(** [s.split(sep)] for a one-character separator. *)
Fixpoint split (sep : ascii) (s : string) : list string :=
  match s with
  | EmptyString => [EmptyString]
  | String c s' =>
      if Ascii.eqb c sep then EmptyString :: split sep s'
      else
        match split sep s' with
        | piece :: rest => String c piece :: rest
        | [] => [String c EmptyString]
        end
  end.

(** [s.substring(n)]: what is left after the first [n] characters. *)
Fixpoint substring_from (n : nat) (s : string) : string :=
  match n, s with
  | O, _ => s
  | S _, EmptyString => EmptyString
  | S n', String _ s' => substring_from n' s'
  end.

(** [s.startsWith(p)] *)
Definition startsWith (p s : string) : bool := String.prefix p s.

(** ** Data model ([src/types.ts]) *)

Inductive Role : Type := user | model.

Module ChatMessage.
Record t : Type := {
  role : Role;
  text : string;
  isError : option bool;
  timestamp : Z
}.
End ChatMessage.

(** The part of a browser [File] the program reads. *)
Module File.
Record t : Type := {
  name : string;
  type : string
}.
End File.

(** [base64] is the second piece of a split, which is [undefined] when
    there is none. *)
Module DocumentPage.
Record t : Type := {
  id : string;
  url : string;
  file : File.t;
  base64 : option string;
  mimeType : string
}.
End DocumentPage.

Inductive AppState : Type := IDLE | ANALYZING | READY | IMAGE_GEN.

Module AgentDiagramData.
Record t : Type := {
  model_core : string;
  nervous_system : string;
  human_collaboration : string;
  tools_rag : string;
  deployment : string
}.
End AgentDiagramData.

Module DiagramNode.
Record t : Type := {
  id : string;
  title : string;
  content : string;
  x : Z;
  y : Z
}.
End DiagramNode.

Module DiagramConnection.
Record t : Type := {
  id : string;
  fromNodeId : string;
  toX : Z;
  toY : Z
}.
End DiagramConnection.

Module GeneratedAsset.
Record t : Type := {
  svg : option string;
  background : option string;
  nodes : option (list DiagramNode.t);
  connections : option (list DiagramConnection.t)
}.
End GeneratedAsset.

Inductive NodeType : Type :=
  nt_user | nt_orchestrator | nt_logic_agent | nt_creative_agent | nt_interface.

Module WorkflowNode.
Record t : Type := {
  id : string;
  type : NodeType;
  label : string;
  subLabel : string;
  description : string;
  theory_mapping : string;
  inputs : list string;
  outputs : list string
}.
End WorkflowNode.

Module WorkflowEdge.
Record t : Type := {
  from : NodeType;
  to : NodeType;
  label : string;
  data_object : string
}.
End WorkflowEdge.

Module HciAnalysisData.
Record t : Type := {
  summary : string;
  nodes : list WorkflowNode.t;
  edges : list WorkflowEdge.t
}.
End HciAnalysisData.

(** ** The gateway ([src/services/geminiService.ts]) *)

Module GeminiService.

(** What a request to the hosted model does: it throws, or it answers with
    a response whose [text] may be [undefined]. *)
Inductive Reply : Type :=
| Throws (err : string)
| Replies (response_text : option string).

(** The two private fields: whether [ai] is set (an API key was found) and
    whether [chatSession] is set. *)
Record t : Type := {
  ai : bool;
  chatSession : bool
}.

(** One reading of the clock and of the random generator; [random] is the
    rendering of [Math.random()] in a template string. *)
Record Entropy : Type := {
  now : Z;
  random : string
}.

(** [`node-${Date.now()}-${Math.random()}`] *)
Definition generatedNodeId (e : Entropy) : string :=
  "node-" ++ Z_to_string (now e) ++ "-" ++ random e.

(** A node of the refinement response, as the response schema declares it:
    no property is required, and the code provides for a missing [id]. *)
Record ResponseNode : Type := {
  r_id : option string;
  r_title : string;
  r_content : string
}.

(** The parsed refinement response: [nodes] may be missing. *)
Record RefineJson : Type := {
  json_nodes : option (list ResponseNode)
}.

Definition fallbackDiagramData : AgentDiagramData.t := {|
  AgentDiagramData.model_core := "Could not extract Model info";
  AgentDiagramData.nervous_system := "Could not extract System info";
  AgentDiagramData.human_collaboration := "Could not extract Human info";
  AgentDiagramData.tools_rag := "Could not extract Tools info";
  AgentDiagramData.deployment := "Could not extract Deployment info"
|}.

(** [initializeChat] (lines 33-68).  The session is created before the
    request is awaited; the [catch] rethrows. *)
Definition initializeChat (g : t) (pages : list DocumentPage.t) (reply : Reply)
  : Promise string * t :=
  if negb (ai g) then (Rejected "Gemini API not initialized", g)
  else
    let g' := {| ai := ai g; chatSession := true |} in
    match reply with
    | Throws err => (Rejected err, g')
    | Replies response_text =>
        (Resolved (or_else response_text
                     "I've analyzed the document. What would you like to know?"), g')
    end.

(** [sendMessage] (lines 70-82).  The [catch] rethrows. *)
Definition sendMessage (g : t) (message : string) (reply : Reply) : Promise string :=
  if negb (chatSession g) then Rejected "Chat session not started"
  else
    match reply with
    | Throws err => Rejected err
    | Replies response_text =>
        Resolved (or_else response_text "I couldn't generate a response.")
    end.

(** The callback of the merge (lines 438-447): the lookup is by the
    identifier of the response node; the identifier of the result is that
    identifier when truthy and a generated one otherwise. *)
Definition mergeNode (currentNodes : list DiagramNode.t) (entropy : nat -> Entropy)
    (i : nat) (n : ResponseNode) : DiagramNode.t :=
  let existing :=
    match r_id n with
    | Some nid => find (fun cn => (DiagramNode.id cn =? nid)%string) currentNodes
    | None => None
    end in
  {| DiagramNode.id := or_else (r_id n) (generatedNodeId (entropy i));
     DiagramNode.title := r_title n;
     DiagramNode.content := r_content n;
     DiagramNode.x := match existing with Some e => DiagramNode.x e | None => 50 end;
     DiagramNode.y := match existing with Some e => DiagramNode.y e | None => 50 end |}.

Section WithJSON.

(** [JSON.parse(text)] read at the type the code casts it to; [None] when
    the parser throws. *)
Variable JSON_parse_AgentDiagramData : string -> option AgentDiagramData.t.
Variable JSON_parse_RefineJson : string -> option RefineJson.

(** [analyzeForDiagram] (lines 84-145).  The guard on [ai] is outside the
    [try]; everything thrown inside it is caught. *)
Definition analyzeForDiagram (g : t) (pages : list DocumentPage.t) (reply : Reply)
  : Promise AgentDiagramData.t :=
  if negb (ai g) then Rejected "Gemini API not initialized"
  else
    match reply with
    | Throws _ => Resolved fallbackDiagramData
    | Replies response_text =>
        match response_text with
        | None => Resolved fallbackDiagramData
        | Some txt =>
            if negb (truthy txt) then Resolved fallbackDiagramData
            else
              match JSON_parse_AgentDiagramData txt with
              | Some data => Resolved data
              | None => Resolved fallbackDiagramData
              end
        end
    end.

(** [refineNodes] (lines 393-454).  [entropy i] is what the clock and the
    random generator give in the callback of the [i]-th response node. *)
Definition refineNodes (g : t) (currentNodes : list DiagramNode.t) (instruction : string)
    (reply : Reply) (entropy : nat -> Entropy) : Promise (list DiagramNode.t) :=
  if negb (ai g) then Rejected "Gemini API not initialized"
  else
    match reply with
    | Throws err => Rejected err
    | Replies response_text =>
        match JSON_parse_RefineJson (or_else response_text "{}") with
        | None => Rejected "SyntaxError"
        | Some json =>
            let response_nodes :=
              match json_nodes json with Some l => l | None => [] end in
            Resolved (mapi (mergeNode currentNodes entropy) response_nodes)
        end
    end.

End WithJSON.

End GeminiService.

(** ** Upload and convert ([src/App.tsx], lines 45-126) *)

Module Upload.

(** What the PDF library and the canvas do for one page of a document:
    [pdf.getPage(i)] or [page.render(...)] may reject, the canvas may give
    no 2D context, and otherwise [canvas.toDataURL('image/jpeg', 0.85)]
    gives a URL; [rnd] is [Math.random().toString(36)]. *)
Inductive PageRender : Type :=
| GetPageThrows (err : string)
| NoContext
| RenderThrows (err : string)
| Rendered (base64Url : string) (rnd : string).

(** [pdfjsLib.getDocument(...)]: it rejects, or the document has one
    entry per page, page 1 first ([numPages] is their number). *)
Inductive PdfDocument : Type :=
| GetDocumentThrows (err : string)
| Loaded (pdfPages : list PageRender).

(** [FileReader.readAsDataURL]: [onerror], or [onload] with [result]. *)
Inductive FileRead : Type :=
| ReaderError
| ReaderLoads (result : string) (rnd : string).

(** A file handed to [processFiles], with what the platform makes of it. *)
Record Input : Type := {
  in_file : File.t;
  in_pdf : PdfDocument;
  in_reader : FileRead
}.

(** [Math.random().toString(36).substring(7)] *)
Definition pageId (rnd : string) : string := substring_from 7 rnd.

(** [u.split(',')[1]] *)
Definition payload (u : string) : option string := nth_error (split "," u) 1.

(** The page pushed at lines 68-74. *)
Definition pdfPage (file : File.t) (base64Url rnd : string) : DocumentPage.t :=
  {| DocumentPage.id := pageId rnd;
     DocumentPage.url := base64Url;
     DocumentPage.file := file;
     DocumentPage.base64 := payload base64Url;
     DocumentPage.mimeType := "image/jpeg" |}.

(** The page pushed at lines 105-111. *)
Definition imagePage (file : File.t) (base64 rnd : string) : DocumentPage.t :=
  {| DocumentPage.id := pageId rnd;
     DocumentPage.url := base64;
     DocumentPage.file := file;
     DocumentPage.base64 := payload base64;
     DocumentPage.mimeType := File.type file |}.

(** The loop of [processPdf] (lines 50-76), from page [i] on. *)
Fixpoint processPdf_from (file : File.t) (renders : list PageRender)
    (newPages : list DocumentPage.t) : Promise (list DocumentPage.t) :=
  match renders with
  | [] => Resolved newPages
  | GetPageThrows err :: _ => Rejected err
  | NoContext :: rest => processPdf_from file rest newPages
  | RenderThrows err :: _ => Rejected err
  | Rendered base64Url rnd :: rest =>
      processPdf_from file rest (newPages ++ [pdfPage file base64Url rnd])
  end.

(** [processPdf] (lines 45-78). *)
Definition processPdf (file : File.t) (doc : PdfDocument) : Promise (list DocumentPage.t) :=
  match doc with
  | GetDocumentThrows err => Rejected err
  | Loaded renders => processPdf_from file renders []
  end.

(** The loop of [processFiles] (lines 89-116).  A rejection of
    [processPdf] leaves the loop; an error of the reader is caught inside
    it (lines 112-114). *)
Fixpoint convert_from (inputs : list Input) (newPages : list DocumentPage.t)
  : Promise (list DocumentPage.t) :=
  match inputs with
  | [] => Resolved newPages
  | i :: rest =>
      if (File.type (in_file i) =? "application/pdf")%string then
        match processPdf (in_file i) (in_pdf i) with
        | Rejected err => Rejected err
        | Resolved pdfPages => convert_from rest (newPages ++ pdfPages)
        end
      else if startsWith "image/" (File.type (in_file i)) then
        match in_reader i with
        | ReaderError => convert_from rest newPages
        | ReaderLoads base64 rnd =>
            convert_from rest (newPages ++ [imagePage (in_file i) base64 rnd])
        end
      else convert_from rest newPages
  end.

Definition convert (inputs : list Input) : Promise (list DocumentPage.t) :=
  convert_from inputs [].

End Upload.

(** ** The session state ([src/App.tsx]) *)

Module App.

(** The state hooks of the diagram, workflow and text-extraction tools
    (lines 24-36). *)
Record Tools : Type := {
  showDiagram : bool;
  diagramData : option AgentDiagramData.t;
  isGeneratingDiagram : bool;
  showWorkflow : bool;
  workflowData : option HciAnalysisData.t;
  isAnalyzingWorkflow : bool;
  isExtractingText : bool;
  extractedText : option string
}.

(** The state hooks of the component (lines 17-42). *)
Record State : Type := {
  pages : list DocumentPage.t;
  messages : list ChatMessage.t;
  appState : AppState;
  isProcessing : bool;
  isConvertingPdf : bool;
  error : option string;
  tools : Tools;
  activeReferencePageId : option string;
  generatedAsset : option GeneratedAsset.t;
  isGeneratingImage : bool
}.

(** The setters of the hooks. *)
Definition with_showDiagram v (s : Tools) : Tools :=
  {| showDiagram := v;
     diagramData := diagramData s;
     isGeneratingDiagram := isGeneratingDiagram s;
     showWorkflow := showWorkflow s;
     workflowData := workflowData s;
     isAnalyzingWorkflow := isAnalyzingWorkflow s;
     isExtractingText := isExtractingText s;
     extractedText := extractedText s |}.

Definition with_diagramData v (s : Tools) : Tools :=
  {| showDiagram := showDiagram s;
     diagramData := v;
     isGeneratingDiagram := isGeneratingDiagram s;
     showWorkflow := showWorkflow s;
     workflowData := workflowData s;
     isAnalyzingWorkflow := isAnalyzingWorkflow s;
     isExtractingText := isExtractingText s;
     extractedText := extractedText s |}.

Definition with_isGeneratingDiagram v (s : Tools) : Tools :=
  {| showDiagram := showDiagram s;
     diagramData := diagramData s;
     isGeneratingDiagram := v;
     showWorkflow := showWorkflow s;
     workflowData := workflowData s;
     isAnalyzingWorkflow := isAnalyzingWorkflow s;
     isExtractingText := isExtractingText s;
     extractedText := extractedText s |}.

Definition with_showWorkflow v (s : Tools) : Tools :=
  {| showDiagram := showDiagram s;
     diagramData := diagramData s;
     isGeneratingDiagram := isGeneratingDiagram s;
     showWorkflow := v;
     workflowData := workflowData s;
     isAnalyzingWorkflow := isAnalyzingWorkflow s;
     isExtractingText := isExtractingText s;
     extractedText := extractedText s |}.

Definition with_workflowData v (s : Tools) : Tools :=
  {| showDiagram := showDiagram s;
     diagramData := diagramData s;
     isGeneratingDiagram := isGeneratingDiagram s;
     showWorkflow := showWorkflow s;
     workflowData := v;
     isAnalyzingWorkflow := isAnalyzingWorkflow s;
     isExtractingText := isExtractingText s;
     extractedText := extractedText s |}.

Definition with_isAnalyzingWorkflow v (s : Tools) : Tools :=
  {| showDiagram := showDiagram s;
     diagramData := diagramData s;
     isGeneratingDiagram := isGeneratingDiagram s;
     showWorkflow := showWorkflow s;
     workflowData := workflowData s;
     isAnalyzingWorkflow := v;
     isExtractingText := isExtractingText s;
     extractedText := extractedText s |}.

Definition with_isExtractingText v (s : Tools) : Tools :=
  {| showDiagram := showDiagram s;
     diagramData := diagramData s;
     isGeneratingDiagram := isGeneratingDiagram s;
     showWorkflow := showWorkflow s;
     workflowData := workflowData s;
     isAnalyzingWorkflow := isAnalyzingWorkflow s;
     isExtractingText := v;
     extractedText := extractedText s |}.

Definition with_extractedText v (s : Tools) : Tools :=
  {| showDiagram := showDiagram s;
     diagramData := diagramData s;
     isGeneratingDiagram := isGeneratingDiagram s;
     showWorkflow := showWorkflow s;
     workflowData := workflowData s;
     isAnalyzingWorkflow := isAnalyzingWorkflow s;
     isExtractingText := isExtractingText s;
     extractedText := v |}.

Definition setPages v (s : State) : State :=
  {| pages := v;
     messages := messages s;
     appState := appState s;
     isProcessing := isProcessing s;
     isConvertingPdf := isConvertingPdf s;
     error := error s;
     tools := tools s;
     activeReferencePageId := activeReferencePageId s;
     generatedAsset := generatedAsset s;
     isGeneratingImage := isGeneratingImage s |}.

Definition setMessages v (s : State) : State :=
  {| pages := pages s;
     messages := v;
     appState := appState s;
     isProcessing := isProcessing s;
     isConvertingPdf := isConvertingPdf s;
     error := error s;
     tools := tools s;
     activeReferencePageId := activeReferencePageId s;
     generatedAsset := generatedAsset s;
     isGeneratingImage := isGeneratingImage s |}.

Definition setAppState v (s : State) : State :=
  {| pages := pages s;
     messages := messages s;
     appState := v;
     isProcessing := isProcessing s;
     isConvertingPdf := isConvertingPdf s;
     error := error s;
     tools := tools s;
     activeReferencePageId := activeReferencePageId s;
     generatedAsset := generatedAsset s;
     isGeneratingImage := isGeneratingImage s |}.

Definition setIsProcessing v (s : State) : State :=
  {| pages := pages s;
     messages := messages s;
     appState := appState s;
     isProcessing := v;
     isConvertingPdf := isConvertingPdf s;
     error := error s;
     tools := tools s;
     activeReferencePageId := activeReferencePageId s;
     generatedAsset := generatedAsset s;
     isGeneratingImage := isGeneratingImage s |}.

Definition setIsConvertingPdf v (s : State) : State :=
  {| pages := pages s;
     messages := messages s;
     appState := appState s;
     isProcessing := isProcessing s;
     isConvertingPdf := v;
     error := error s;
     tools := tools s;
     activeReferencePageId := activeReferencePageId s;
     generatedAsset := generatedAsset s;
     isGeneratingImage := isGeneratingImage s |}.

Definition setError v (s : State) : State :=
  {| pages := pages s;
     messages := messages s;
     appState := appState s;
     isProcessing := isProcessing s;
     isConvertingPdf := isConvertingPdf s;
     error := v;
     tools := tools s;
     activeReferencePageId := activeReferencePageId s;
     generatedAsset := generatedAsset s;
     isGeneratingImage := isGeneratingImage s |}.

Definition with_tools v (s : State) : State :=
  {| pages := pages s;
     messages := messages s;
     appState := appState s;
     isProcessing := isProcessing s;
     isConvertingPdf := isConvertingPdf s;
     error := error s;
     tools := v;
     activeReferencePageId := activeReferencePageId s;
     generatedAsset := generatedAsset s;
     isGeneratingImage := isGeneratingImage s |}.

Definition setActiveReferencePageId v (s : State) : State :=
  {| pages := pages s;
     messages := messages s;
     appState := appState s;
     isProcessing := isProcessing s;
     isConvertingPdf := isConvertingPdf s;
     error := error s;
     tools := tools s;
     activeReferencePageId := v;
     generatedAsset := generatedAsset s;
     isGeneratingImage := isGeneratingImage s |}.

Definition setGeneratedAsset v (s : State) : State :=
  {| pages := pages s;
     messages := messages s;
     appState := appState s;
     isProcessing := isProcessing s;
     isConvertingPdf := isConvertingPdf s;
     error := error s;
     tools := tools s;
     activeReferencePageId := activeReferencePageId s;
     generatedAsset := v;
     isGeneratingImage := isGeneratingImage s |}.

Definition setIsGeneratingImage v (s : State) : State :=
  {| pages := pages s;
     messages := messages s;
     appState := appState s;
     isProcessing := isProcessing s;
     isConvertingPdf := isConvertingPdf s;
     error := error s;
     tools := tools s;
     activeReferencePageId := activeReferencePageId s;
     generatedAsset := generatedAsset s;
     isGeneratingImage := v |}.

Definition setShowDiagram v (s : State) : State := with_tools (with_showDiagram v (tools s)) s.
Definition setDiagramData v (s : State) : State := with_tools (with_diagramData v (tools s)) s.
Definition setIsGeneratingDiagram v (s : State) : State := with_tools (with_isGeneratingDiagram v (tools s)) s.
Definition setShowWorkflow v (s : State) : State := with_tools (with_showWorkflow v (tools s)) s.
Definition setWorkflowData v (s : State) : State := with_tools (with_workflowData v (tools s)) s.
Definition setIsAnalyzingWorkflow v (s : State) : State := with_tools (with_isAnalyzingWorkflow v (tools s)) s.
Definition setIsExtractingText v (s : State) : State := with_tools (with_isExtractingText v (tools s)) s.
Definition setExtractedText v (s : State) : State := with_tools (with_extractedText v (tools s)) s.

Definition initialTools : Tools :=
  {| showDiagram := false;
     diagramData := None;
     isGeneratingDiagram := false;
     showWorkflow := false;
     workflowData := None;
     isAnalyzingWorkflow := false;
     isExtractingText := false;
     extractedText := None |}.

Definition initial : State :=
  {| pages := [];
     messages := [];
     appState := IDLE;
     isProcessing := false;
     isConvertingPdf := false;
     error := None;
     tools := initialTools;
     activeReferencePageId := None;
     generatedAsset := None;
     isGeneratingImage := false |}.

Definition AppState_eqb (a b : AppState) : bool :=
  match a, b with
  | IDLE, IDLE | ANALYZING, ANALYZING | READY, READY | IMAGE_GEN, IMAGE_GEN => true
  | _, _ => false
  end.

(** [a === id] for the nullable [activeReferencePageId]. *)
Definition is_id (a : option string) (id : string) : bool :=
  match a with
  | Some s => (s =? id)%string
  | None => false
  end.

(** Truthiness of a nullable string. *)
Definition truthy_opt (a : option string) : bool :=
  match a with
  | Some s => truthy s
  | None => false
  end.

Inductive RefineTarget : Type := target_svg | target_background.

(** A handler that awaits leaves a continuation behind.  The
    continuation holds what the handler captured when it was called. *)
Inductive Task : Type :=
| TProcessFiles (sketch : bool) (inputs : list Upload.Input)
| TStartAnalysis
| TSendMessage
| TGenerateDiagram
| TGenerateWorkflow
| TExtractText
| TImageGeneration
| TRefineNodes (captured : GeneratedAsset.t)
| TRefineBackground (captured : GeneratedAsset.t).

(** What a handler has done when it reaches its first [await] or its end. *)
Inductive Begun : Type :=
| Returned (s : State)
| Awaiting (s : State) (t : Task).

(** *** Upload (lines 82-139) *)

Definition processFiles_begin (s : State) : State :=
  setExtractedText None (setIsConvertingPdf true s).

(** Lines 117-125: the pages are appended after the loop; a rejection is
    caught and nothing is appended. *)
Definition processFiles_settle (converted : Promise (list DocumentPage.t)) (s : State)
  : State * list DocumentPage.t :=
  match converted with
  | Resolved newPages =>
      (setIsConvertingPdf false (setPages (pages s ++ newPages) s), newPages)
  | Rejected _ =>
      (setIsConvertingPdf false
         (setError (Some "Failed to process files. Please try again.") s), [])
  end.

(** [processFiles] run to its end. *)
Definition processFiles (inputs : list Upload.Input) (s : State)
  : State * list DocumentPage.t :=
  processFiles_settle (Upload.convert inputs) (processFiles_begin s).

(** [handleSketchUpload] after its [await] (lines 134-138). *)
Definition handleSketchUpload_settle (converted : Promise (list DocumentPage.t))
    (s : State) : State :=
  let (s', newPages) := processFiles_settle converted s in
  match newPages with
  | p :: _ => setActiveReferencePageId (Some (DocumentPage.id p)) s'
  | [] => s'
  end.

(** [handleRemovePage] (lines 141-147). *)
Definition handleRemovePage (id : string) (s : State) : State :=
  let s1 := setPages (filter (fun p => negb (DocumentPage.id p =? id)%string) (pages s)) s in
  let s2 := if is_id (activeReferencePageId s) id
            then setActiveReferencePageId None s1 else s1 in
  setExtractedText None s2.

(** *** Analysis and chat (lines 149-196) *)

Definition startAnalysis_begin (s : State) : Begun :=
  match pages s with
  | [] => Returned s
  | _ :: _ =>
      Awaiting (setError None (setIsProcessing true (setAppState ANALYZING s)))
               TStartAnalysis
  end.

Definition startAnalysis_settle (r : Promise string) (now : Z) (s : State) : State :=
  match r with
  | Resolved responseText =>
      setIsProcessing false
        (setAppState READY
           (setMessages [ {| ChatMessage.role := model;
                             ChatMessage.text := responseText;
                             ChatMessage.isError := None;
                             ChatMessage.timestamp := now |} ] s))
  | Rejected _ =>
      setIsProcessing false
        (setAppState IDLE
           (setError (Some "Failed to analyze documents. Please try again.") s))
  end.

Definition userMsg (text : string) (now : Z) : ChatMessage.t :=
  {| ChatMessage.role := user;
     ChatMessage.text := text;
     ChatMessage.isError := None;
     ChatMessage.timestamp := now |}.

Definition modelMsg (responseText : string) (now : Z) : ChatMessage.t :=
  {| ChatMessage.role := model;
     ChatMessage.text := responseText;
     ChatMessage.isError := None;
     ChatMessage.timestamp := now |}.

Definition errorMsg (now : Z) : ChatMessage.t :=
  {| ChatMessage.role := model;
     ChatMessage.text := "I encountered an error trying to respond. Please try again.";
     ChatMessage.isError := Some true;
     ChatMessage.timestamp := now |}.

Definition handleSendMessage_begin (text : string) (now : Z) (s : State) : State :=
  setIsProcessing true (setMessages (messages s ++ [userMsg text now]) s).

Definition handleSendMessage_settle (r : Promise string) (now : Z) (s : State) : State :=
  match r with
  | Resolved responseText =>
      setIsProcessing false (setMessages (messages s ++ [modelMsg responseText now]) s)
  | Rejected _ =>
      setIsProcessing false (setMessages (messages s ++ [errorMsg now]) s)
  end.

(** [handleSendMessage] run to its end against the gateway: [now0] and
    [now1] are the clock before and after the request. *)
Definition handleSendMessage (g : GeminiService.t) (text : string) (now0 : Z)
    (reply : GeminiService.Reply) (now1 : Z) (s : State) : State :=
  handleSendMessage_settle (GeminiService.sendMessage g text reply) now1
    (handleSendMessage_begin text now0 s).

(** *** Tools (lines 216-265) *)

Definition handleGenerateDiagram_begin (s : State) : Begun :=
  match pages s with
  | [] => Returned s
  | _ :: _ => Awaiting (setIsGeneratingDiagram true s) TGenerateDiagram
  end.

Definition handleGenerateDiagram_settle (r : Promise AgentDiagramData.t) (s : State)
  : State :=
  match r with
  | Resolved data =>
      setIsGeneratingDiagram false (setShowDiagram true (setDiagramData (Some data) s))
  | Rejected _ => setIsGeneratingDiagram false s
  end.

Definition handleGenerateWorkflow_begin (s : State) : Begun :=
  match pages s with
  | [] => Returned s
  | _ :: _ => Awaiting (setIsAnalyzingWorkflow true s) TGenerateWorkflow
  end.

Definition handleGenerateWorkflow_settle (r : Promise HciAnalysisData.t) (s : State)
  : State :=
  match r with
  | Resolved data =>
      setIsAnalyzingWorkflow false (setShowWorkflow true (setWorkflowData (Some data) s))
  | Rejected _ => setIsAnalyzingWorkflow false s
  end.

Definition handleExtractText_begin (s : State) : Begun :=
  match pages s with
  | [] => Returned s
  | _ :: _ => Awaiting (setIsExtractingText true s) TExtractText
  end.

Definition handleExtractText_settle (r : Promise string) (s : State) : State :=
  match r with
  | Resolved text => setIsExtractingText false (setExtractedText (Some text) s)
  | Rejected _ => setIsExtractingText false s
  end.

(** *** Creative studio (lines 267-333) *)

Definition referencePage (s : State) : option DocumentPage.t :=
  find (fun p => is_id (activeReferencePageId s) (DocumentPage.id p)) (pages s).

Definition handleImageGeneration_begin (s : State) : Begun :=
  match referencePage s with
  | None => Returned s
  | Some _ => Awaiting (setIsGeneratingImage true s) TImageGeneration
  end.

Definition handleImageGeneration_settle (r : Promise GeneratedAsset.t) (s : State)
  : State :=
  match r with
  | Resolved asset => setIsGeneratingImage false (setGeneratedAsset (Some asset) s)
  | Rejected _ => setIsGeneratingImage false s
  end.

(** Lines 284-314.  When the asset lacks what the target needs nothing is
    awaited and [finally] runs at once. *)
Definition handleImageRefinement_begin (target : RefineTarget) (s : State) : Begun :=
  match generatedAsset s with
  | None => Returned s
  | Some asset =>
      match target with
      | target_svg =>
          match GeneratedAsset.nodes asset with
          | Some _ => Awaiting (setIsGeneratingImage true s) (TRefineNodes asset)
          | None => Returned (setIsGeneratingImage false s)
          end
      | target_background =>
          if truthy_opt (GeneratedAsset.background asset)
          then Awaiting (setIsGeneratingImage true s) (TRefineBackground asset)
          else Returned (setIsGeneratingImage false s)
      end
  end.

(** The asset written back is the one captured when the handler was
    called, with the refined part replaced. *)
Definition refineNodes_settle (captured : GeneratedAsset.t)
    (r : Promise (list DiagramNode.t)) (s : State) : State :=
  match r with
  | Resolved refinedNodes =>
      setIsGeneratingImage false
        (setGeneratedAsset
           (Some {| GeneratedAsset.svg := GeneratedAsset.svg captured;
                    GeneratedAsset.background := GeneratedAsset.background captured;
                    GeneratedAsset.nodes := Some refinedNodes;
                    GeneratedAsset.connections := GeneratedAsset.connections captured |}) s)
  | Rejected _ => setIsGeneratingImage false s
  end.

Definition refineBackground_settle (captured : GeneratedAsset.t)
    (r : Promise string) (s : State) : State :=
  match r with
  | Resolved bgCode =>
      setIsGeneratingImage false
        (setGeneratedAsset
           (Some {| GeneratedAsset.svg := GeneratedAsset.svg captured;
                    GeneratedAsset.background := Some bgCode;
                    GeneratedAsset.nodes := GeneratedAsset.nodes captured;
                    GeneratedAsset.connections := GeneratedAsset.connections captured |}) s)
  | Rejected _ => setIsGeneratingImage false s
  end.

Definition handleAssetUpdate (updatedAsset : GeneratedAsset.t) (s : State) : State :=
  setGeneratedAsset (Some updatedAsset) s.

Definition handleResetImage (s : State) : State := setGeneratedAsset None s.

(** [toggleImageMode] (lines 324-333); [!activeReferencePageId] also holds
    for the empty identifier. *)
Definition toggleImageMode (s : State) : State :=
  if AppState_eqb (appState s) IMAGE_GEN then
    setAppState (match messages s with [] => IDLE | _ :: _ => READY end) s
  else
    let s1 := setAppState IMAGE_GEN s in
    if negb (truthy_opt (activeReferencePageId s)) then
      match pages s with
      | p :: _ => setActiveReferencePageId (Some (DocumentPage.id p)) s1
      | [] => s1
      end
    else s1.

(** [onSelectReference] (line 375). *)
Definition onSelectReference (page : DocumentPage.t) (s : State) : State :=
  setActiveReferencePageId (Some (DocumentPage.id page)) s.

(** *** The component as a transition system

    A user event runs its handler up to the first [await]; the rest of the
    handler runs when the awaited promise settles, possibly after other
    events.  Events are enabled as the rendered tree allows (lines
    336-581 and [DocumentSidebar.tsx]). *)

(** What an awaited promise settles to; [now] is the clock read by the
    continuation. *)
Inductive Outcome : Type :=
| OConverted
| OText (r : Promise string) (now : Z)
| ODiagram (r : Promise AgentDiagramData.t)
| OWorkflow (r : Promise HciAnalysisData.t)
| OAsset (r : Promise GeneratedAsset.t)
| ONodes (r : Promise (list DiagramNode.t)).

Inductive Event : Type :=
| FilesSelected (inputs : list Upload.Input)
| SketchUpload (inputs : list Upload.Input)
| RemovePage (id : string)
| StartAnalysis
| SendMessage (text : string) (now : Z)
| DownloadChat
| GenerateDiagram
| GenerateWorkflow
| ExtractText
| ImageGeneration (prompt : string)
| ImageRefinement (prompt : string) (target : RefineTarget)
| AssetUpdate (updatedAsset : GeneratedAsset.t)
| ResetImage
| ToggleImageMode
| SelectReference (k : nat)
| CloseDiagram
| CloseWorkflow
| CloseExtractedText
| Settle (k : nat) (o : Outcome).

Record System : Type := {
  app : State;
  pending : list Task
}.

Definition start : System := {| app := initial; pending := [] |}.

(** The first view (line 336) shows the upload zone only. *)
Definition initialView (s : State) : bool :=
  match pages s with
  | [] => AppState_eqb (appState s) IDLE
  | _ :: _ => false
  end.

(** The [isAnalyzing] property of the sidebar (line 373). *)
Definition isAnalyzing (s : State) : bool :=
  AppState_eqb (appState s) ANALYZING || isProcessing s || isConvertingPdf s
  || isGeneratingImage s.

(** The filter of the upload zone and of the sidebar. *)
Definition accepted (i : Upload.Input) : bool :=
  startsWith "image/" (File.type (Upload.in_file i))
  || (File.type (Upload.in_file i) =? "application/pdf")%string.

Definition is_some {A : Type} (o : option A) : bool :=
  match o with Some _ => true | None => false end.

Definition enabled (e : Event) (sys : System) : bool :=
  let s := app sys in
  match e with
  | FilesSelected _ => initialView s || negb (isAnalyzing s)
  | SketchUpload inputs =>
      AppState_eqb (appState s) IMAGE_GEN && negb (is_some (referencePage s))
      && negb (Nat.eqb (length inputs) 0)
  | RemovePage id =>
      negb (initialView s) && negb (isAnalyzing s)
      && existsb (fun p => (DocumentPage.id p =? id)%string) (pages s)
      && negb (AppState_eqb (appState s) IMAGE_GEN && is_id (activeReferencePageId s) id)
  | StartAnalysis =>
      negb (initialView s) && AppState_eqb (appState s) IDLE && negb (isConvertingPdf s)
  | SendMessage _ _ =>
      AppState_eqb (appState s) READY || AppState_eqb (appState s) ANALYZING
  | DownloadChat => negb (initialView s) && AppState_eqb (appState s) READY
  | GenerateDiagram =>
      negb (initialView s) && negb (isGeneratingDiagram (tools s))
      && negb (AppState_eqb (appState s) IMAGE_GEN)
  | GenerateWorkflow => negb (initialView s) && negb (isAnalyzingWorkflow (tools s))
  | ExtractText => negb (initialView s) && negb (isExtractingText (tools s))
  | ImageGeneration _ =>
      AppState_eqb (appState s) IMAGE_GEN && negb (is_some (generatedAsset s))
      && is_some (referencePage s) && negb (isGeneratingImage s)
  | ImageRefinement _ _ =>
      AppState_eqb (appState s) IMAGE_GEN && is_some (generatedAsset s)
      && negb (isGeneratingImage s)
  | AssetUpdate _ => AppState_eqb (appState s) IMAGE_GEN && is_some (generatedAsset s)
  | ResetImage => AppState_eqb (appState s) IMAGE_GEN && is_some (generatedAsset s)
  | ToggleImageMode => negb (initialView s)
  | SelectReference k =>
      negb (initialView s) && AppState_eqb (appState s) IMAGE_GEN
      && Nat.ltb k (length (pages s))
  | CloseDiagram =>
      negb (initialView s) && showDiagram (tools s) && is_some (diagramData (tools s))
  | CloseWorkflow =>
      negb (initialView s) && showWorkflow (tools s) && is_some (workflowData (tools s))
  | CloseExtractedText => negb (initialView s) && truthy_opt (extractedText (tools s))
  | Settle k _ => Nat.ltb k (length (pending sys))
  end.

(** The handler of a user event, up to its first [await]. *)
Definition handle (e : Event) (s : State) : Begun :=
  match e with
  | FilesSelected inputs =>
      Awaiting (processFiles_begin s) (TProcessFiles false (filter accepted inputs))
  | SketchUpload inputs => Awaiting (processFiles_begin s) (TProcessFiles true inputs)
  | RemovePage id => Returned (handleRemovePage id s)
  | StartAnalysis => startAnalysis_begin s
  | SendMessage text now => Awaiting (handleSendMessage_begin text now s) TSendMessage
  | DownloadChat => Returned s
  | GenerateDiagram => handleGenerateDiagram_begin s
  | GenerateWorkflow => handleGenerateWorkflow_begin s
  | ExtractText => handleExtractText_begin s
  | ImageGeneration _ => handleImageGeneration_begin s
  | ImageRefinement _ target => handleImageRefinement_begin target s
  | AssetUpdate updatedAsset => Returned (handleAssetUpdate updatedAsset s)
  | ResetImage => Returned (handleResetImage s)
  | ToggleImageMode => Returned (toggleImageMode s)
  | SelectReference k =>
      match nth_error (pages s) k with
      | Some page => Returned (onSelectReference page s)
      | None => Returned s
      end
  | CloseDiagram => Returned (setShowDiagram false s)
  | CloseWorkflow => Returned (setShowWorkflow false s)
  | CloseExtractedText => Returned (setExtractedText None s)
  | Settle _ _ => Returned s
  end.

(** The continuation of a handler, when what it awaited has settled. *)
Definition settle (t : Task) (o : Outcome) (s : State) : option State :=
  match t, o with
  | TProcessFiles false inputs, OConverted =>
      Some (fst (processFiles_settle (Upload.convert inputs) s))
  | TProcessFiles true inputs, OConverted =>
      Some (handleSketchUpload_settle (Upload.convert inputs) s)
  | TStartAnalysis, OText r now => Some (startAnalysis_settle r now s)
  | TSendMessage, OText r now => Some (handleSendMessage_settle r now s)
  | TGenerateDiagram, ODiagram r => Some (handleGenerateDiagram_settle r s)
  | TGenerateWorkflow, OWorkflow r => Some (handleGenerateWorkflow_settle r s)
  | TExtractText, OText r _ => Some (handleExtractText_settle r s)
  | TImageGeneration, OAsset r => Some (handleImageGeneration_settle r s)
  | TRefineNodes captured, ONodes r => Some (refineNodes_settle captured r s)
  | TRefineBackground captured, OText r _ => Some (refineBackground_settle captured r s)
  | _, _ => None
  end.

Definition remove_nth {A : Type} (k : nat) (l : list A) : list A :=
  firstn k l ++ skipn (S k) l.

Definition step (e : Event) (sys : System) : option System :=
  if enabled e sys then
    match e with
    | Settle k o =>
        match nth_error (pending sys) k with
        | Some t =>
            match settle t o (app sys) with
            | Some s' => Some {| app := s'; pending := remove_nth k (pending sys) |}
            | None => None
            end
        | None => None
        end
    | _ =>
        match handle e (app sys) with
        | Returned s' => Some {| app := s'; pending := pending sys |}
        | Awaiting s' t => Some {| app := s'; pending := pending sys ++ [t] |}
        end
    end
  else None.

(** Running a sequence of events from a state. *)
Fixpoint run (trace : list Event) (sys : System) : option System :=
  match trace with
  | [] => Some sys
  | e :: rest =>
      match step e sys with
      | Some sys' => run rest sys'
      | None => None
      end
  end.

Inductive reachable : System -> Prop :=
| reachable_start : reachable start
| reachable_step e sys sys' :
    reachable sys -> step e sys = Some sys' -> reachable sys'.

End App.

(** ** The canvas editor ([src/components/ImageGenerator.tsx]) *)

Module Editor.

(** [{ x, y }] *)
Record Point : Type := {
  px : Z;
  py : Z
}.

(** The part of a mouse event the handlers read. *)
Record MouseEvent : Type := {
  clientX : Z;
  clientY : Z
}.

(** The part of a bounding rectangle the handlers read. *)
Record Rect : Type := {
  left : Z;
  top : Z
}.

(** The state hooks and the [dragOffset] reference (lines 30-47). *)
Record State : Type := {
  prompt : string;
  refineTarget : App.RefineTarget;
  nodes : list DiagramNode.t;
  connections : list DiagramConnection.t;
  selectedNodeId : option string;
  isDragging : bool;
  dragOffset : Point;
  isDrawingLine : bool;
  lineStartNodeId : option string;
  mousePos : Point
}.

Definition setPrompt v (s : State) : State :=
  {| prompt := v;
     refineTarget := refineTarget s;
     nodes := nodes s;
     connections := connections s;
     selectedNodeId := selectedNodeId s;
     isDragging := isDragging s;
     dragOffset := dragOffset s;
     isDrawingLine := isDrawingLine s;
     lineStartNodeId := lineStartNodeId s;
     mousePos := mousePos s |}.

Definition setRefineTarget v (s : State) : State :=
  {| prompt := prompt s;
     refineTarget := v;
     nodes := nodes s;
     connections := connections s;
     selectedNodeId := selectedNodeId s;
     isDragging := isDragging s;
     dragOffset := dragOffset s;
     isDrawingLine := isDrawingLine s;
     lineStartNodeId := lineStartNodeId s;
     mousePos := mousePos s |}.

Definition setNodes v (s : State) : State :=
  {| prompt := prompt s;
     refineTarget := refineTarget s;
     nodes := v;
     connections := connections s;
     selectedNodeId := selectedNodeId s;
     isDragging := isDragging s;
     dragOffset := dragOffset s;
     isDrawingLine := isDrawingLine s;
     lineStartNodeId := lineStartNodeId s;
     mousePos := mousePos s |}.

Definition setConnections v (s : State) : State :=
  {| prompt := prompt s;
     refineTarget := refineTarget s;
     nodes := nodes s;
     connections := v;
     selectedNodeId := selectedNodeId s;
     isDragging := isDragging s;
     dragOffset := dragOffset s;
     isDrawingLine := isDrawingLine s;
     lineStartNodeId := lineStartNodeId s;
     mousePos := mousePos s |}.

Definition setSelectedNodeId v (s : State) : State :=
  {| prompt := prompt s;
     refineTarget := refineTarget s;
     nodes := nodes s;
     connections := connections s;
     selectedNodeId := v;
     isDragging := isDragging s;
     dragOffset := dragOffset s;
     isDrawingLine := isDrawingLine s;
     lineStartNodeId := lineStartNodeId s;
     mousePos := mousePos s |}.

Definition setIsDragging v (s : State) : State :=
  {| prompt := prompt s;
     refineTarget := refineTarget s;
     nodes := nodes s;
     connections := connections s;
     selectedNodeId := selectedNodeId s;
     isDragging := v;
     dragOffset := dragOffset s;
     isDrawingLine := isDrawingLine s;
     lineStartNodeId := lineStartNodeId s;
     mousePos := mousePos s |}.

Definition setDragOffset v (s : State) : State :=
  {| prompt := prompt s;
     refineTarget := refineTarget s;
     nodes := nodes s;
     connections := connections s;
     selectedNodeId := selectedNodeId s;
     isDragging := isDragging s;
     dragOffset := v;
     isDrawingLine := isDrawingLine s;
     lineStartNodeId := lineStartNodeId s;
     mousePos := mousePos s |}.

Definition setIsDrawingLine v (s : State) : State :=
  {| prompt := prompt s;
     refineTarget := refineTarget s;
     nodes := nodes s;
     connections := connections s;
     selectedNodeId := selectedNodeId s;
     isDragging := isDragging s;
     dragOffset := dragOffset s;
     isDrawingLine := v;
     lineStartNodeId := lineStartNodeId s;
     mousePos := mousePos s |}.

Definition setLineStartNodeId v (s : State) : State :=
  {| prompt := prompt s;
     refineTarget := refineTarget s;
     nodes := nodes s;
     connections := connections s;
     selectedNodeId := selectedNodeId s;
     isDragging := isDragging s;
     dragOffset := dragOffset s;
     isDrawingLine := isDrawingLine s;
     lineStartNodeId := v;
     mousePos := mousePos s |}.

Definition setMousePos v (s : State) : State :=
  {| prompt := prompt s;
     refineTarget := refineTarget s;
     nodes := nodes s;
     connections := connections s;
     selectedNodeId := selectedNodeId s;
     isDragging := isDragging s;
     dragOffset := dragOffset s;
     isDrawingLine := isDrawingLine s;
     lineStartNodeId := lineStartNodeId s;
     mousePos := v |}.

Definition initial : State :=
  {| prompt := EmptyString;
     refineTarget := App.target_svg;
     nodes := [];
     connections := [];
     selectedNodeId := None;
     isDragging := false;
     dragOffset := {| px := 0; py := 0 |};
     isDrawingLine := false;
     lineStartNodeId := None;
     mousePos := {| px := 0; py := 0 |} |}.

(** The properties the handlers read (lines 8-17). *)
Record Props : Type := {
  referencePage : option DocumentPage.t;
  isGenerating : bool;
  generatedAsset : option GeneratedAsset.t
}.

(** A call of one of the callbacks the parent passed. *)
Inductive Call : Type :=
| onGenerate (prompt : string)
| onRefine (prompt : string) (target : App.RefineTarget)
| onAssetUpdate (asset : GeneratedAsset.t)
| onUpload (files : list Upload.Input)
| onReset.

(** [Partial<DiagramNode>] *)
Record PartialNode : Type := {
  u_id : option string;
  u_title : option string;
  u_content : option string;
  u_x : option Z;
  u_y : option Z
}.

Definition opt_or {A : Type} (o : option A) (d : A) : A :=
  match o with Some a => a | None => d end.

(** [{ ...n, ...updates }] *)
Definition spread (n : DiagramNode.t) (updates : PartialNode) : DiagramNode.t :=
  {| DiagramNode.id := opt_or (u_id updates) (DiagramNode.id n);
     DiagramNode.title := opt_or (u_title updates) (DiagramNode.title n);
     DiagramNode.content := opt_or (u_content updates) (DiagramNode.content n);
     DiagramNode.x := opt_or (u_x updates) (DiagramNode.x n);
     DiagramNode.y := opt_or (u_y updates) (DiagramNode.y n) |}.

(** A handler is a closure of the render that created it: it reads the
    state of that render, [r], whatever it has set in the meantime.  It
    gives the state after its updates and the callbacks it called. *)

(** The effect of lines 55-60; an array is truthy even when empty. *)
Definition syncEffect (props : Props) (r : State) : State :=
  match generatedAsset props with
  | Some asset =>
      let s1 := match GeneratedAsset.nodes asset with
                | Some l => setNodes l r
                | None => r
                end in
      match GeneratedAsset.connections asset with
      | Some l => setConnections l s1
      | None => s1
      end
  | None => r
  end.

(** [saveState] (lines 62-70). *)
Definition saveState (props : Props) (r : State) : list Call :=
  match generatedAsset props with
  | Some asset =>
      [onAssetUpdate
         {| GeneratedAsset.svg := GeneratedAsset.svg asset;
            GeneratedAsset.background := GeneratedAsset.background asset;
            GeneratedAsset.nodes := Some (nodes r);
            GeneratedAsset.connections := Some (connections r) |}]
  | None => []
  end.

(** [handleCardMouseDown] (lines 73-91); [rect] is the rectangle of the
    card and [containerRect] that of the container, if it is mounted. *)
Definition handleCardMouseDown (e : MouseEvent) (rect : Rect)
    (containerRect : option Rect) (node : DiagramNode.t) (r : State) : State :=
  if isDrawingLine r then r
  else
    let s := setIsDragging true (setSelectedNodeId (Some (DiagramNode.id node)) r) in
    match containerRect with
    | Some _ =>
        setDragOffset {| px := clientX e - left rect; py := clientY e - top rect |} s
    | None => s
    end.

(** [handleContainerMouseMove] (lines 93-115). *)
Definition handleContainerMouseMove (e : MouseEvent) (containerRect : option Rect)
    (r : State) : State :=
  match containerRect with
  | None => r
  | Some rect =>
      let relativeX := clientX e - left rect in
      let relativeY := clientY e - top rect in
      let s := setMousePos {| px := relativeX; py := relativeY |} r in
      if isDragging r && App.truthy_opt (selectedNodeId r) then
        setNodes
          (map (fun n =>
                  if App.is_id (selectedNodeId r) (DiagramNode.id n) then
                    spread n {| u_id := None; u_title := None; u_content := None;
                                u_x := Some (relativeX - px (dragOffset r));
                                u_y := Some (relativeY - py (dragOffset r)) |}
                  else n)
               (nodes s)) s
      else s
  end.

(** The connection built at lines 126-131. *)
Definition newConnection (now : Z) (start : string) (r : State) : DiagramConnection.t :=
  {| DiagramConnection.id := "conn-" ++ Z_to_string now;
     DiagramConnection.fromNodeId := start;
     DiagramConnection.toX := px (mousePos r);
     DiagramConnection.toY := py (mousePos r) |}.

(** [handleContainerMouseUp] (lines 117-139), also bound to the mouse
    leaving the container. *)
Definition handleContainerMouseUp (now : Z) (props : Props) (r : State)
  : State * list Call :=
  let (s1, calls1) :=
    if isDragging r then (setIsDragging false r, saveState props r) else (r, []) in
  match lineStartNodeId r with
  | Some start =>
      if isDrawingLine r && truthy start then
        (setLineStartNodeId None
           (setIsDrawingLine false
              (setConnections (connections s1 ++ [newConnection now start r]) s1)),
         (calls1 ++ saveState props r)%list)
      else (s1, calls1)
  | None => (s1, calls1)
  end.

(** [updateSelectedNode] (lines 142-147). *)
Definition updateSelectedNode (updates : PartialNode) (r : State) : State :=
  if negb (App.truthy_opt (selectedNodeId r)) then r
  else
    setNodes
      (map (fun n =>
              if App.is_id (selectedNodeId r) (DiagramNode.id n)
              then spread n updates else n)
           (nodes r)) r.

(** [startConnection] (lines 150-160). *)
Definition startConnection (e : MouseEvent) (containerRect : option Rect)
    (nodeId : string) (r : State) : State :=
  let s := setIsDrawingLine true (setLineStartNodeId (Some nodeId) r) in
  match containerRect with
  | Some rect =>
      setMousePos {| px := clientX e - left rect; py := clientY e - top rect |} s
  | None => s
  end.

(** [removeConnection] (lines 162-165). *)
Definition removeConnection (id : string) (props : Props) (r : State)
  : State * list Call :=
  (setConnections
     (filter (fun c => negb (DiagramConnection.id c =? id)%string) (connections r)) r,
   saveState props r).

Definition is_space (c : ascii) : bool :=
  let n := nat_of_ascii c in
  (Nat.eqb n 32 || (Nat.leb 9 n && Nat.leb n 13))%bool.

(** [!prompt.trim()], for the white space of ASCII. *)
Fixpoint blank (s : string) : bool :=
  match s with
  | EmptyString => true
  | String c s' => is_space c && blank s'
  end.

(** [handleAction] (lines 168-176). *)
Definition handleAction (props : Props) (r : State) : list Call :=
  if blank (prompt r) then []
  else
    match generatedAsset props with
    | Some _ => [onRefine (prompt r) (refineTarget r)]
    | None =>
        match referencePage props with
        | Some _ => [onGenerate (prompt r)]
        | None => []
        end
    end.

(** [handleFileChange] (lines 206-211). *)
Definition handleFileChange (files : list Upload.Input) : list Call :=
  match files with
  | [] => []
  | _ :: _ => [onUpload files]
  end.

(** The operations of the editor: its handlers, the buttons that set
    state in place (lines 260, 294, 297, 310, 318) and the effect. *)
Inductive Op : Type :=
| CardMouseDown (e : MouseEvent) (rect : Rect) (containerRect : option Rect)
    (node : DiagramNode.t)
| ContainerMouseMove (e : MouseEvent) (containerRect : option Rect)
| ContainerMouseUp (now : Z)
| UpdateSelectedNode (updates : PartialNode)
| StartConnection (e : MouseEvent) (containerRect : option Rect) (nodeId : string)
| RemoveConnection (id : string)
| Action
| DownloadComposite
| FileChange (files : list Upload.Input)
| Done
| SetPrompt (value : string)
| SetRefineTarget (target : App.RefineTarget)
| Reset
| Sync.

Definition perform (op : Op) (props : Props) (r : State) : State * list Call :=
  match op with
  | CardMouseDown e rect containerRect node =>
      (handleCardMouseDown e rect containerRect node r, [])
  | ContainerMouseMove e containerRect => (handleContainerMouseMove e containerRect r, [])
  | ContainerMouseUp now => handleContainerMouseUp now props r
  | UpdateSelectedNode updates => (updateSelectedNode updates r, [])
  | StartConnection e containerRect nodeId => (startConnection e containerRect nodeId r, [])
  | RemoveConnection id => removeConnection id props r
  | Action => (r, handleAction props r)
  | DownloadComposite => (setSelectedNodeId None r, [])
  | FileChange files => (r, handleFileChange files)
  | Done => (setSelectedNodeId None r, saveState props r)
  | SetPrompt value => (setPrompt value r, [])
  | SetRefineTarget target => (setRefineTarget target r, [])
  | Reset => (r, [onReset])
  | Sync => (syncEffect props r, [])
  end.

(** A link-draw gesture is completed by a mouse-up in this state. *)
Definition completesLink (op : Op) (r : State) : bool :=
  match op with
  | ContainerMouseUp _ => isDrawingLine r && App.truthy_opt (lineStartNodeId r)
  | _ => false
  end.

(** The asset the parent holds after the calls of a handler
    ([handleAssetUpdate] stores what it is given). *)
Fixpoint parentAsset (calls : list Call) (asset : option GeneratedAsset.t)
  : option GeneratedAsset.t :=
  match calls with
  | [] => asset
  | onAssetUpdate a :: rest => parentAsset rest (Some a)
  | _ :: rest => parentAsset rest asset
  end.

(** A release of the mouse, seen from both sides: the editor after the
    handler, and the asset of the parent after the calls. *)
Definition release (now : Z) (props : Props) (r : State)
  : State * option GeneratedAsset.t :=
  let (s, calls) := handleContainerMouseUp now props r in
  (s, parentAsset calls (generatedAsset props)).

(** Whether a handler gave the parent a new asset. *)
Definition updatesAsset (calls : list Call) : bool :=
  existsb (fun call => match call with onAssetUpdate _ => true | _ => false end) calls.

(** The render that follows: when the parent was given a new asset, the
    effect runs against the asset the parent now passes. *)
Definition afterRelease (now : Z) (props : Props) (r : State) : State :=
  let (s, calls) := handleContainerMouseUp now props r in
  if updatesAsset calls then
    syncEffect {| referencePage := referencePage props;
                  isGenerating := isGenerating props;
                  generatedAsset := parentAsset calls (generatedAsset props) |} s
  else s.

End Editor.

(** ** Properties and sample inputs *)

Module GeminiServiceSpec.
Import GeminiService.

(** The claim on positions, in terms of the identifiers of the returned
    nodes. *)
Definition positions_kept (currentNodes out : list DiagramNode.t) : Prop :=
  forall r, In r out ->
    (forall c, In c currentNodes -> DiagramNode.id c = DiagramNode.id r ->
       DiagramNode.x r = DiagramNode.x c /\ DiagramNode.y r = DiagramNode.y c)
    /\ ((forall c, In c currentNodes -> DiagramNode.id c <> DiagramNode.id r) ->
        DiagramNode.x r = 50 /\ DiagramNode.y r = 50).

(** The identifiers of the current nodes are not empty. *)
Definition ids_nonempty (currentNodes : list DiagramNode.t) : Prop :=
  forall c, In c currentNodes -> DiagramNode.id c <> EmptyString.

(** Current nodes with one identifier are at one position. *)
Definition positions_agree (currentNodes : list DiagramNode.t) : Prop :=
  forall c1 c2, In c1 currentNodes -> In c2 currentNodes ->
    DiagramNode.id c1 = DiagramNode.id c2 ->
    DiagramNode.x c1 = DiagramNode.x c2 /\ DiagramNode.y c1 = DiagramNode.y c2.

(** No identifier the call generates is one of a current node. *)
Definition generated_fresh (currentNodes : list DiagramNode.t) (entropy : nat -> Entropy)
  : Prop :=
  forall i c, In c currentNodes -> DiagramNode.id c <> generatedNodeId (entropy i).

(** An instance that meets the three conditions: one current node, a
    response that keeps it and adds a node without identifier. *)
Definition sample_parse (_ : string) : option RefineJson :=
  Some {| json_nodes :=
            Some [ {| r_id := Some "a"; r_title := "kept"; r_content := EmptyString |};
                   {| r_id := None; r_title := "added"; r_content := EmptyString |} ] |}.

Definition sample_nodes : list DiagramNode.t :=
  [ {| DiagramNode.id := "a"; DiagramNode.title := "old"; DiagramNode.content := EmptyString;
       DiagramNode.x := 10; DiagramNode.y := 20 |} ].

Definition sample_entropy (_ : nat) : Entropy := {| now := 1700000000000; random := "0.5" |}.

Definition ready : t := {| ai := true; chatSession := false |}.

(** A current node with the empty identifier, and a response that names
    it. *)
Definition empty_id_nodes : list DiagramNode.t :=
  [ {| DiagramNode.id := EmptyString; DiagramNode.title := "old"; DiagramNode.content := EmptyString;
       DiagramNode.x := 10; DiagramNode.y := 20 |} ].

Definition empty_id_parse (_ : string) : option RefineJson :=
  Some {| json_nodes :=
            Some [ {| r_id := Some EmptyString; r_title := "new"; r_content := EmptyString |} ] |}.

(** Two current nodes with one identifier at two positions. *)
Definition duplicate_nodes : list DiagramNode.t :=
  [ {| DiagramNode.id := "a"; DiagramNode.title := "first"; DiagramNode.content := EmptyString;
       DiagramNode.x := 10; DiagramNode.y := 10 |};
    {| DiagramNode.id := "a"; DiagramNode.title := "second"; DiagramNode.content := EmptyString;
       DiagramNode.x := 20; DiagramNode.y := 20 |} ].

(** A current node whose identifier is the one the call generates. *)
Definition colliding_nodes : list DiagramNode.t :=
  [ {| DiagramNode.id := "node-1700000000000-0.5"; DiagramNode.title := "old";
       DiagramNode.content := EmptyString; DiagramNode.x := 10; DiagramNode.y := 10 |} ].

End GeminiServiceSpec.

Module UploadSpec.
Import Upload.

(** The text has no comma. *)
Fixpoint no_comma (s : string) : bool :=
  match s with
  | EmptyString => true
  | String c s' => negb (Ascii.eqb c ",") && no_comma s'
  end.

(** The characters of the base64 alphabet, with the padding. *)
Definition base64_char (c : ascii) : bool :=
  let n := nat_of_ascii c in
  ((Nat.leb 65 n && Nat.leb n 90) || (Nat.leb 97 n && Nat.leb n 122)
   || (Nat.leb 48 n && Nat.leb n 57) || Nat.eqb n 43 || Nat.eqb n 47
   || Nat.eqb n 61)%bool.

Fixpoint base64_text (s : string) : bool :=
  match s with
  | EmptyString => true
  | String c s' => base64_char c && base64_text s'
  end.

(** [data:<mime>;base64,<payload>] *)
Definition data_url (mime payload : string) : string :=
  "data:" ++ mime ++ ";base64," ++ payload.

(** The portion of a text after its first occurrence of [sep]. *)
Fixpoint after_first (sep : ascii) (s : string) : option string :=
  match s with
  | EmptyString => None
  | String c s' => if Ascii.eqb c sep then Some s' else after_first sep s'
  end.

(** The page carries a base64 data URL for display and, for transfer, that
    URL without its prefix, which is what follows its first comma. *)
Definition consistent_encodings (p : DocumentPage.t) : Prop :=
  exists mime payload,
    DocumentPage.url p = data_url mime payload
    /\ no_comma mime = true
    /\ base64_text payload = true
    /\ DocumentPage.base64 p = Some payload
    /\ DocumentPage.base64 p = after_first "," (DocumentPage.url p).

(** The URLs the platform hands out for an input. *)
Definition rendered_urls (renders : list PageRender) : list string :=
  flat_map (fun r => match r with Rendered u _ => [u] | _ => [] end) renders.

Definition platform_urls (i : Input) : list string :=
  (match in_reader i with ReaderLoads u _ => [u] | ReaderError => [] end
   ++ match in_pdf i with Loaded renders => rendered_urls renders
      | GetDocumentThrows _ => [] end)%list.

(** The canvas gave a 2D context for the page. *)
Definition has_context (r : PageRender) : bool :=
  match r with
  | NoContext => false
  | _ => true
  end.

(** Neither fetching nor rendering the page was rejected. *)
Definition completes (r : PageRender) : bool :=
  match r with
  | GetPageThrows _ | RenderThrows _ => false
  | _ => true
  end.

(** [p] is the page made from the render [r] of a page of [file]. *)
Definition page_of_render (file : File.t) (r : PageRender) (p : DocumentPage.t) : Prop :=
  exists base64Url rnd,
    r = Rendered base64Url rnd
    /\ DocumentPage.url p = base64Url
    /\ DocumentPage.mimeType p = "image/jpeg"
    /\ p = pdfPage file base64Url rnd.

(** An image file as the platform reads it. *)
Definition sample_image : Input :=
  {| in_file := {| File.name := "sketch.png"; File.type := "image/png" |};
     in_pdf := GetDocumentThrows "not a document";
     in_reader := ReaderLoads "data:image/png;base64,iVBORw0KGgo=" "0.4fzyo82mvyr" |}.

(** A document of two pages and a text file. *)
Definition sample_pdf : Input :=
  {| in_file := {| File.name := "paper.pdf"; File.type := "application/pdf" |};
     in_pdf := Loaded [ Rendered "data:image/jpeg;base64,/9j/4AAQ" "0.k3x9q2m7p1a";
                        Rendered "data:image/jpeg;base64,/9j/4BBR" "0.z8w4n6b5c2d" ];
     in_reader := ReaderError |}.

Definition sample_text : Input :=
  {| in_file := {| File.name := "notes.txt"; File.type := "text/plain" |};
     in_pdf := GetDocumentThrows "not a document";
     in_reader := ReaderLoads "data:text/plain;base64,aGk=" "0.5" |}.

(** A document whose only page gives a canvas without pixels:
    [toDataURL] then returns the text [data:,]. *)
Definition blank_pdf : Input :=
  {| in_file := {| File.name := "blank.pdf"; File.type := "application/pdf" |};
     in_pdf := Loaded [ Rendered "data:," "0.k3x9q2m7p1a" ];
     in_reader := ReaderError |}.

(** A document of two pages, both with a 2D context, whose second page
    the library fails to render. *)
Definition broken_pdf : Input :=
  {| in_file := {| File.name := "broken.pdf"; File.type := "application/pdf" |};
     in_pdf := Loaded [ Rendered "data:image/jpeg;base64,/9j/4AAQ" "0.k3x9q2m7p1a";
                        RenderThrows "render failed" ];
     in_reader := ReaderError |}.

(** Uploading the PDF [i] alone appends one page of media type
    image/jpeg for each page of the document, whenever every page gets a
    2D context. *)
Definition one_page_per_pdf_page (i : Input) (s : App.State) : Prop :=
  forall renders,
    File.type (in_file i) = "application/pdf" ->
    in_pdf i = Loaded renders ->
    forallb has_context renders = true ->
    exists ps,
      App.pages (fst (App.processFiles [i] s)) = (App.pages s ++ ps)%list
      /\ length ps = length renders
      /\ Forall (fun p => DocumentPage.mimeType p = "image/jpeg") ps.

End UploadSpec.

Module AppSpec.
Import App.

(** [l'] is [l] with something, possibly nothing, added at the end. *)
Definition extends {A : Type} (l l' : list A) : Prop := exists ext, l' = (l ++ ext)%list.

(** The transcript is append-only over the transitions of the component. *)
Definition transcript_append_only : Prop :=
  forall sys e sys',
    reachable sys -> step e sys = Some sys' ->
    extends (messages (app sys)) (messages (app sys')).

(** Transitions in which no handler is started while another one awaits. *)
Definition seq_step (e : Event) (sys : System) : option System :=
  match e, pending sys with
  | Settle _ _, _ => step e sys
  | _, [] => step e sys
  | _, _ :: _ => None
  end.

Inductive seq_reachable : System -> Prop :=
| seq_reachable_start : seq_reachable start
| seq_reachable_step e sys sys' :
    seq_reachable sys -> seq_step e sys = Some sys' -> seq_reachable sys'.

(** The reference selection is null or the identifier of a page of the
    list. *)
Definition valid_reference (s : State) : Prop :=
  match activeReferencePageId s with
  | None => True
  | Some a => exists p, In p (pages s) /\ DocumentPage.id p = a
  end.

(** One page is uploaded; the analysis is started, and started again from
    the staging area, which both toggles of the mode bring back while the
    first request is awaited; the first request then resolves. *)
Definition overlapping_analyses : list Event :=
  [ FilesSelected [UploadSpec.sample_image];
    Settle 0 OConverted;
    StartAnalysis;
    ToggleImageMode;
    ToggleImageMode;
    StartAnalysis;
    Settle 0 (OText (Resolved "first summary") 1) ].

(** One page is uploaded. *)
Definition one_page : list Event :=
  [ FilesSelected [UploadSpec.sample_image];
    Settle 0 OConverted ].

(** One page is uploaded and the studio is opened. *)
Definition open_studio : list Event :=
  [ FilesSelected [UploadSpec.sample_image];
    Settle 0 OConverted;
    ToggleImageMode ].

(** The state a sequence of events leads to from the start. *)
Definition after (trace : list Event) : System :=
  match run trace start with
  | Some sys => sys
  | None => start
  end.

(** Running a sequence of events sequentially. *)
Fixpoint seq_run (trace : list Event) (sys : System) : option System :=
  match trace with
  | [] => Some sys
  | e :: rest =>
      match seq_step e sys with
      | Some sys' => seq_run rest sys'
      | None => None
      end
  end.

Definition seq_after (trace : list Event) : System :=
  match seq_run trace start with
  | Some sys => sys
  | None => start
  end.

(** One page is uploaded and the analysis is started. *)
Definition analysis_started : list Event :=
  [ FilesSelected [UploadSpec.sample_image];
    Settle 0 OConverted;
    StartAnalysis ].

(** The transition replaces the transcript by the summary of a resolved
    analysis. *)
Definition replaced_by_summary (e : Event) (sys sys' : System) : Prop :=
  exists k responseText now,
    e = Settle k (OText (Resolved responseText) now)
    /\ nth_error (pending sys) k = Some TStartAnalysis
    /\ messages (app sys') = [modelMsg responseText now].

(** What holds of the states of sequential runs: at most one handler
    awaits; the transcript is empty in the idle mode and while an analysis
    is awaited; the mode is not idle while a chat turn is awaited. *)
Definition seq_inv (sys : System) : Prop :=
  (length (pending sys) <= 1)%nat
  /\ (appState (app sys) = IDLE -> messages (app sys) = [])
  /\ (In TStartAnalysis (pending sys) -> messages (app sys) = [])
  /\ (In TSendMessage (pending sys) -> appState (app sys) <> IDLE).

End AppSpec.

Module EditorSpec.
Import Editor.

(** After a release the asset of the parent holds the cards and the
    connections of the editor. *)
Definition saved (s : State) (asset : option GeneratedAsset.t) : Prop :=
  exists a,
    asset = Some a
    /\ GeneratedAsset.nodes a = Some (nodes s)
    /\ GeneratedAsset.connections a = Some (connections s).

Definition sample_node : DiagramNode.t :=
  {| DiagramNode.id := "node-1-0"; DiagramNode.title := "Model";
     DiagramNode.content := "Core"; DiagramNode.x := 50; DiagramNode.y := 50 |}.

Definition sample_props : Props :=
  {| referencePage := None;
     isGenerating := false;
     generatedAsset :=
       Some {| GeneratedAsset.svg := None;
               GeneratedAsset.background := None;
               GeneratedAsset.nodes := Some [sample_node];
               GeneratedAsset.connections := Some [] |} |}.

(** The editor showing the asset, untouched. *)
Definition at_rest : State := syncEffect sample_props initial.

(** A link is being drawn from the card, the mouse at (300, 200). *)
Definition drawing : State :=
  handleContainerMouseMove {| clientX := 310; clientY := 220 |}
    (Some {| left := 10; top := 20 |})
    (startConnection {| clientX := 200; clientY := 80 |}
       (Some {| left := 10; top := 20 |}) "node-1-0" at_rest).

(** The card is being dragged, and has been moved. *)
Definition dragging : State :=
  handleContainerMouseMove {| clientX := 310; clientY := 220 |}
    (Some {| left := 10; top := 20 |})
    (handleCardMouseDown {| clientX := 70; clientY := 75 |}
       {| left := 60; top := 70 |} (Some {| left := 10; top := 20 |})
       sample_node at_rest).

End EditorSpec.

(** ** The rest of the gateway ([src/services/geminiService.ts]) *)

Module GeminiImage.
Import GeminiService.

(** The part of a response of the image model the code reads:
    [candidates[0].content.parts[k].inlineData.data], where every level
    but the list entries may be missing. *)
Record InlineData : Type := {
  data : option string
}.

Record Part : Type := {
  inlineData : option InlineData
}.

Record Content : Type := {
  parts : option (list Part)
}.

Record Candidate : Type := {
  content : option Content
}.

Record Response : Type := {
  candidates : option (list Candidate)
}.

Inductive ImageReply : Type :=
| ImageThrows (err : string)
| ImageReplies (response : Response).

(** The loop of lines 278-283 and 481-485: the data of the first part
    whose [inlineData.data] is truthy. *)
Fixpoint firstInlineData (ps : list Part) : option string :=
  match ps with
  | [] => None
  | part :: rest =>
      match inlineData part with
      | Some inline =>
          match data inline with
          | Some d => if truthy d then Some d else firstInlineData rest
          | None => firstInlineData rest
          end
      | None => firstInlineData rest
      end
  end.

(** The guard [r.candidates && r.candidates[0].content.parts] and the
    loop under it.  An empty list of candidates, or a first candidate
    without content, makes the property access throw. *)
Definition imageData (r : Response) : Promise (option string) :=
  match candidates r with
  | None => Resolved None
  | Some [] => Rejected "TypeError"
  | Some (candidate :: _) =>
      match content candidate with
      | None => Rejected "TypeError"
      | Some c =>
          match parts c with
          | None => Resolved None
          | Some ps => Resolved (firstInlineData ps)
          end
      end
  end.

(** [refineBackground] (lines 459-493).  The [catch] rethrows. *)
Definition refineBackground (g : t) (previousImageBase64 instruction : string)
    (reply : ImageReply) : Promise string :=
  if negb (ai g) then Rejected "Gemini API not initialized"
  else
    match reply with
    | ImageThrows err => Rejected err
    | ImageReplies response =>
        match imageData response with
        | Rejected err => Rejected err
        | Resolved (Some d) => Resolved d
        | Resolved None => Rejected "No image data found in response"
        end
    end.

(** A node of the generation response. *)
Record GeneratedNode : Type := {
  g_title : string;
  g_content : string
}.

Record GenerateJson : Type := {
  gen_nodes : option (list GeneratedNode)
}.

(** The callback of lines 263-269: the cards are laid out on a grid of
    three columns. *)
Definition layoutNode (entropy : nat -> Entropy) (i : nat) (n : GeneratedNode)
  : DiagramNode.t :=
  {| DiagramNode.id :=
       "node-" ++ Z_to_string (now (entropy i)) ++ "-" ++ Z_to_string (Z.of_nat i);
     DiagramNode.title := g_title n;
     DiagramNode.content := g_content n;
     DiagramNode.x := 50 + Z.of_nat (i mod 3) * 200;
     DiagramNode.y := 50 + Z.of_nat (i / 3) * 150 |}.

(** The card of line 272. *)
Definition errorNode : DiagramNode.t :=
  {| DiagramNode.id := "error";
     DiagramNode.title := "Error";
     DiagramNode.content := "Failed to generate nodes";
     DiagramNode.x := 100;
     DiagramNode.y := 100 |}.

(** [extractTextFromPages] (lines 150-177).  The [catch] rethrows. *)
Definition extractTextFromPages (g : t) (pages : list DocumentPage.t) (reply : Reply)
  : Promise string :=
  if negb (ai g) then Rejected "Gemini API not initialized"
  else
    match reply with
    | Throws err => Rejected err
    | Replies response_text => Resolved (or_else response_text "No text found.")
    end.

Section WithJSON.

Variable JSON_parse_GenerateJson : string -> option GenerateJson.

(** Lines 259-273: a text that does not parse gives the error card. *)
Definition generatedNodes (response_text : option string) (entropy : nat -> Entropy)
  : list DiagramNode.t :=
  match JSON_parse_GenerateJson (or_else response_text "{}") with
  | Some json =>
      mapi (layoutNode entropy) (match gen_nodes json with Some l => l | None => [] end)
  | None => [errorNode]
  end.

(** [generateDiagramFromContent] (lines 184-296).  Both requests are
    awaited together; when both reject, the reason here is that of the
    first. *)
Definition generateDiagramFromContent (g : t) (documentPages : list DocumentPage.t)
    (referencePage : DocumentPage.t) (userPrompt : string)
    (dataReply : Reply) (bgReply : ImageReply) (entropy : nat -> Entropy)
  : Promise GeneratedAsset.t :=
  if negb (ai g) then Rejected "Gemini API not initialized"
  else
    match dataReply, bgReply with
    | Throws err, _ => Rejected err
    | _, ImageThrows err => Rejected err
    | Replies response_text, ImageReplies bgResponse =>
        let nodes := generatedNodes response_text entropy in
        match imageData bgResponse with
        | Rejected err => Rejected err
        | Resolved bgBase64 =>
            Resolved {| GeneratedAsset.svg := None;
                        GeneratedAsset.background := bgBase64;
                        GeneratedAsset.nodes := Some nodes;
                        GeneratedAsset.connections := Some [] |}
        end
    end.

End WithJSON.

End GeminiImage.

(** ** The two analyses, which return what [JSON.parse] gives *)

Module GeminiJson.
Import GeminiService.

Section WithJSON.

(** [JSON.parse(text)] for the text of an analysis.  The code casts the
    value to the record type and does not look at it, so the value need
    not be a record: [None] when the parser throws, [Some None] for
    [null], which the state of the component can hold as well, and
    [Some (Some data)] for a record. *)
Variable JSON_parse_AgentDiagramData : string -> option (option AgentDiagramData.t).
Variable JSON_parse_HciAnalysisData : string -> option (option HciAnalysisData.t).

(** [analyzeForDiagram] (lines 84-145).  The guard on [ai] is outside the
    [try]; everything thrown inside it is caught and gives the fallback
    record; what the parser returns is returned as it is. *)
Definition analyzeForDiagram (g : t) (pages : list DocumentPage.t) (reply : Reply)
  : Promise (option AgentDiagramData.t) :=
  if negb (ai g) then Rejected "Gemini API not initialized"
  else
    match reply with
    | Throws _ => Resolved (Some fallbackDiagramData)
    | Replies response_text =>
        match response_text with
        | None => Resolved (Some fallbackDiagramData)
        | Some txt =>
            if negb (truthy txt) then Resolved (Some fallbackDiagramData)
            else
              match JSON_parse_AgentDiagramData txt with
              | Some data => Resolved data
              | None => Resolved (Some fallbackDiagramData)
              end
        end
    end.

(** [generateAppWorkflowAnalysis] (lines 301-388).  The [catch]
    rethrows. *)
Definition generateAppWorkflowAnalysis (g : t) (pages : list DocumentPage.t)
    (reply : Reply) : Promise (option HciAnalysisData.t) :=
  if negb (ai g) then Rejected "Gemini API not initialized"
  else
    match reply with
    | Throws err => Rejected err
    | Replies response_text =>
        match response_text with
        | None => Rejected "No response"
        | Some txt =>
            if negb (truthy txt) then Rejected "No response"
            else
              match JSON_parse_HciAnalysisData txt with
              | Some data => Resolved data
              | None => Rejected "SyntaxError"
              end
        end
    end.

End WithJSON.

End GeminiJson.

(** ** Handlers of the component run to their end against the gateway *)

Module AppRuns.
Import App.

(** [handleGenerateDiagram] (lines 216-230): what the gateway resolves
    to is stored as it is, [null] included. *)
Definition handleGenerateDiagram (parse : string -> option (option AgentDiagramData.t))
    (g : GeminiService.t) (reply : GeminiService.Reply) (s : State) : State :=
  match handleGenerateDiagram_begin s with
  | Returned s' => s'
  | Awaiting s' _ =>
      match GeminiJson.analyzeForDiagram parse g (pages s) reply with
      | Resolved data =>
          setIsGeneratingDiagram false (setShowDiagram true (setDiagramData data s'))
      | Rejected _ => setIsGeneratingDiagram false s'
      end
  end.

(** [handleGenerateWorkflow] (lines 232-245). *)
Definition handleGenerateWorkflow (parse : string -> option (option HciAnalysisData.t))
    (g : GeminiService.t) (reply : GeminiService.Reply) (s : State) : State :=
  match handleGenerateWorkflow_begin s with
  | Returned s' => s'
  | Awaiting s' _ =>
      match GeminiJson.generateAppWorkflowAnalysis parse g (pages s) reply with
      | Resolved data =>
          setIsAnalyzingWorkflow false (setShowWorkflow true (setWorkflowData data s'))
      | Rejected _ => setIsAnalyzingWorkflow false s'
      end
  end.

(** The overlays are rendered under [showDiagram && diagramData] (line
    538) and [showWorkflow && workflowData] (line 546). *)
Definition diagramOverlay (s : State) : bool :=
  showDiagram (tools s) && is_some (diagramData (tools s)).

Definition workflowOverlay (s : State) : bool :=
  showWorkflow (tools s) && is_some (workflowData (tools s)).

(** [handleExtractText] (lines 247-265). *)
Definition handleExtractText (g : GeminiService.t) (reply : GeminiService.Reply)
    (s : State) : State :=
  match handleExtractText_begin s with
  | Returned s' => s'
  | Awaiting s' _ =>
      handleExtractText_settle (GeminiImage.extractTextFromPages g (pages s) reply) s'
  end.

(** [startAnalysis] (lines 149-174); the gateway keeps the session. *)
Definition startAnalysis (g : GeminiService.t) (reply : GeminiService.Reply) (now : Z)
    (s : State) : State * GeminiService.t :=
  match startAnalysis_begin s with
  | Returned s' => (s', g)
  | Awaiting s' _ =>
      let (r, g') := GeminiService.initializeChat g (pages s) reply in
      (startAnalysis_settle r now s', g')
  end.

(** [handleImageGeneration] (lines 267-282). *)
Definition handleImageGeneration (parse : string -> option GeminiImage.GenerateJson)
    (g : GeminiService.t) (prompt : string) (dataReply : GeminiService.Reply)
    (bgReply : GeminiImage.ImageReply) (entropy : nat -> GeminiService.Entropy)
    (s : State) : State :=
  match referencePage s with
  | None => s
  | Some page =>
      handleImageGeneration_settle
        (GeminiImage.generateDiagramFromContent parse g (pages s) page prompt
           dataReply bgReply entropy)
        (setIsGeneratingImage true s)
  end.

(** [handleImageRefinement] (lines 284-314) for the content target. *)
Definition refineContent (parse : string -> option GeminiService.RefineJson)
    (g : GeminiService.t) (prompt : string) (reply : GeminiService.Reply)
    (entropy : nat -> GeminiService.Entropy) (s : State) : State :=
  match handleImageRefinement_begin target_svg s with
  | Returned s' => s'
  | Awaiting s' (TRefineNodes captured) =>
      refineNodes_settle captured
        (GeminiService.refineNodes parse g
           (match GeneratedAsset.nodes captured with Some l => l | None => [] end)
           prompt reply entropy) s'
  | Awaiting s' _ => s'
  end.

(** [handleImageRefinement] for the background target. *)
Definition refineArt (g : GeminiService.t) (prompt : string)
    (reply : GeminiImage.ImageReply) (s : State) : State :=
  match handleImageRefinement_begin target_background s with
  | Returned s' => s'
  | Awaiting s' (TRefineBackground captured) =>
      refineBackground_settle captured
        (GeminiImage.refineBackground g
           (match GeneratedAsset.background captured with
            | Some b => b | None => EmptyString end)
           prompt reply) s'
  | Awaiting s' _ => s'
  end.

End AppRuns.

(** ** Further properties and sample inputs *)

Module GeminiImageSpec.
Import GeminiService GeminiImage.

(** The response that echoes a node as it is. *)
Definition echo (c : DiagramNode.t) : ResponseNode :=
  {| r_id := Some (DiagramNode.id c);
     r_title := DiagramNode.title c;
     r_content := DiagramNode.content c |}.

(** The text has no minus sign. *)
Fixpoint no_dash (s : string) : bool :=
  match s with
  | EmptyString => true
  | String c s' => negb (Ascii.eqb c "-") && no_dash s'
  end.

(** The clock never reads below zero. *)
Definition clock_nonnegative (entropy : nat -> Entropy) : Prop :=
  forall i, 0 <= now (entropy i).

(** The truthy inline data of a part, if it has some. *)
Definition partData (p : Part) : option string :=
  match inlineData p with
  | Some inline =>
      match data inline with
      | Some d => if truthy d then Some d else None
      | None => None
      end
  | None => None
  end.

(** A text part, and an image part with the given data. *)
Definition textPart : Part := {| inlineData := None |}.

Definition imagePart (d : string) : Part :=
  {| inlineData := Some {| data := Some d |} |}.

Definition imageResponse (ps : list Part) : Response :=
  {| candidates := Some [ {| content := Some {| parts := Some ps |} |} ] |}.

(** A parser that finds two nodes, and one that always fails. *)
Definition two_nodes (_ : string) : option GenerateJson :=
  Some {| gen_nodes := Some [ {| g_title := "Model"; g_content := "Core" |};
                              {| g_title := "Tools"; g_content := "Actions" |} ] |}.

Definition no_parse (_ : string) : option GenerateJson := None.

(** What [JSON.parse] makes of the text of an empty object. *)
Definition parse_empty_object (s : string) : option RefineJson :=
  if (s =? "{}")%string then Some {| json_nodes := None |} else None.

End GeminiImageSpec.

Module AppRunsSpec.
Import App.

(** A state with one page, in the studio, holding an asset of one card
    and one connection. *)
Definition sample_page : DocumentPage.t :=
  Upload.imagePage (Upload.in_file UploadSpec.sample_image)
    "data:image/png;base64,iVBORw0KGgo=" "0.4fzyo82mvyr".

Definition sample_asset : GeneratedAsset.t :=
  {| GeneratedAsset.svg := None;
     GeneratedAsset.background := Some "iVBORw0KGgo=";
     GeneratedAsset.nodes := Some GeminiServiceSpec.sample_nodes;
     GeneratedAsset.connections :=
       Some [ {| DiagramConnection.id := "conn-1"; DiagramConnection.fromNodeId := "a";
                 DiagramConnection.toX := 300; DiagramConnection.toY := 200 |} ] |}.

Definition with_page : State := setPages [sample_page] initial.

Definition in_studio : State :=
  setGeneratedAsset (Some sample_asset)
    (setActiveReferencePageId (Some "82mvyr") (setAppState IMAGE_GEN with_page)).

End AppRunsSpec.

Module UploadMoreSpec.
Import Upload.

(** The conversion of the input is rejected: it is a PDF and the PDF
    library rejects for it. *)
Definition rejects (i : Input) : bool :=
  (File.type (in_file i) =? "application/pdf")%string
  && match processPdf (in_file i) (in_pdf i) with
     | Rejected _ => true
     | Resolved _ => false
     end.

(** The pages an input gives when its conversion is not rejected. *)
Definition contribution (i : Input) : list DocumentPage.t :=
  if (File.type (in_file i) =? "application/pdf")%string then
    match processPdf (in_file i) (in_pdf i) with
    | Resolved pdfPages => pdfPages
    | Rejected _ => []
    end
  else if startsWith "image/" (File.type (in_file i)) then
    match in_reader i with
    | ReaderLoads base64 rnd => [imagePage (in_file i) base64 rnd]
    | ReaderError => []
    end
  else [].

(** A PDF whose second page gets no context. *)
Definition gappy_pdf : Input :=
  {| in_file := {| File.name := "gappy.pdf"; File.type := "application/pdf" |};
     in_pdf := Loaded [ Rendered "data:image/jpeg;base64,/9j/4AAQ" "0.k3x9q2m7p1a";
                        NoContext;
                        Rendered "data:image/jpeg;base64,/9j/4CCS" "0.q1w2e3r4t5y" ];
     in_reader := ReaderError |}.

End UploadMoreSpec.

Module AppMoreSpec.
Import App.

(** The kinds of awaiting handlers. *)
Definition isUpload (t : Task) : bool :=
  match t with TProcessFiles _ _ => true | _ => false end.

Definition isAnalysis (t : Task) : bool :=
  match t with TStartAnalysis => true | _ => false end.

Definition isChat (t : Task) : bool :=
  match t with TStartAnalysis | TSendMessage => true | _ => false end.

Definition isDiagram (t : Task) : bool :=
  match t with TGenerateDiagram => true | _ => false end.

Definition isWorkflow (t : Task) : bool :=
  match t with TGenerateWorkflow => true | _ => false end.

Definition isExtract (t : Task) : bool :=
  match t with TExtractText => true | _ => false end.

Definition isImage (t : Task) : bool :=
  match t with
  | TImageGeneration | TRefineNodes _ | TRefineBackground _ => true
  | _ => false
  end.

(** A handler of the kind awaits. *)
Definition awaits (kind : Task -> bool) (sys : System) : bool :=
  existsb kind (pending sys).

(** Each busy indicator is on only while a handler that turns it off
    awaits. *)
Definition busy_while_awaiting (sys : System) : Prop :=
  (isConvertingPdf (app sys) = true -> awaits isUpload sys = true)
  /\ (isProcessing (app sys) = true -> awaits isChat sys = true)
  /\ (appState (app sys) = ANALYZING -> awaits isAnalysis sys = true)
  /\ (isGeneratingDiagram (tools (app sys)) = true -> awaits isDiagram sys = true)
  /\ (isAnalyzingWorkflow (tools (app sys)) = true -> awaits isWorkflow sys = true)
  /\ (isExtractingText (tools (app sys)) = true -> awaits isExtract sys = true)
  /\ (isGeneratingImage (app sys) = true -> awaits isImage sys = true).

(** No busy indicator is on. *)
Definition quiet (s : State) : Prop :=
  isConvertingPdf s = false
  /\ isProcessing s = false
  /\ appState s <> ANALYZING
  /\ isGeneratingDiagram (tools s) = false
  /\ isAnalyzingWorkflow (tools s) = false
  /\ isExtractingText (tools s) = false
  /\ isGeneratingImage s = false.

(** One page is uploaded, analysed and a question is asked and
    answered. *)
Definition one_turn : list Event :=
  [ FilesSelected [UploadSpec.sample_image];
    Settle 0 OConverted;
    StartAnalysis;
    Settle 0 (OText (Resolved "summary") 1);
    SendMessage "why?" 2;
    Settle 0 (OText (Resolved "because") 3) ].

End AppMoreSpec.

Module TranscriptSpec.
Import App.

Definition is_user (m : ChatMessage.t) : bool :=
  match ChatMessage.role m with user => true | model => false end.

Definition is_model (m : ChatMessage.t) : bool :=
  match ChatMessage.role m with model => true | user => false end.

(** Questions of the user, each followed by an answer of the model. *)
Fixpoint turns (l : list ChatMessage.t) : bool :=
  match l with
  | [] => true
  | u :: rest =>
      match rest with
      | m :: rest' => is_user u && is_model m && turns rest'
      | [] => false
      end
  end.

(** The summary of the model, then questions and answers. *)
Definition conversation (l : list ChatMessage.t) : bool :=
  match l with
  | [] => false
  | m :: rest => is_model m && turns rest
  end.

(** A conversation and a question that is not answered yet. *)
Definition asking (l : list ChatMessage.t) : Prop :=
  exists init u,
    l = (init ++ [u])%list /\ conversation init = true /\ is_user u = true.

(** The shape of the transcript in a run without overlap. *)
Definition seq_shape (sys : System) : Prop :=
  match pending sys with
  | [TSendMessage] => asking (messages (app sys))
  | _ => messages (app sys) = [] \/ conversation (messages (app sys)) = true
  end.

End TranscriptSpec.

Module EditorMoreSpec.
Import Editor.

(** The position of a mouse event in the container. *)
Definition relative (containerRect : Rect) (e : MouseEvent) : Point :=
  {| px := clientX e - left containerRect; py := clientY e - top containerRect |}.

(** The mouse moves over the mounted container. *)
Definition moveAll (containerRect : Rect) (moves : list MouseEvent) (r : State) : State :=
  fold_left (fun s e => handleContainerMouseMove e (Some containerRect) s) moves r.

(** A card keeps what a move may not change: its identifier, its title
    and its text, and everything when it is not the selected one. *)
Definition same_card (selected : option string) (n n' : DiagramNode.t) : Prop :=
  DiagramNode.id n' = DiagramNode.id n
  /\ DiagramNode.title n' = DiagramNode.title n
  /\ DiagramNode.content n' = DiagramNode.content n
  /\ (App.is_id selected (DiagramNode.id n) = false -> n' = n).

(** The card [n] has moved by [(dx, dy)], and the other cards not at
    all. *)
Definition moved_by (n : DiagramNode.t) (dx dy : Z) (m m' : DiagramNode.t) : Prop :=
  if (DiagramNode.id m =? DiagramNode.id n)%string
  then DiagramNode.id m' = DiagramNode.id m
       /\ DiagramNode.x m' = DiagramNode.x n + dx
       /\ DiagramNode.y m' = DiagramNode.y n + dy
  else m' = m.

(** An update of the title only, as the card editor sends it. *)
Definition titleUpdate (value : string) : PartialNode :=
  {| u_id := None; u_title := Some value; u_content := None; u_x := None; u_y := None |}.

End EditorMoreSpec.

(** * Theorems *)

(** ** The gateway *)

Module GeminiServiceFacts.
Import GeminiService GeminiServiceSpec.

Lemma or_else_truthy (v : option string) (d : string) :
  d <> EmptyString -> or_else v d <> EmptyString.
Proof.
  intros Hd. unfold or_else, truthy. destruct v as [s|]; [|exact Hd].
  destruct (String.eqb_spec s EmptyString); simpl; congruence.
Qed.

(** [find] gives the first element that passes the test. *)
Lemma find_first {A : Type} (f : A -> bool) (l : list A) (e : A) :
  find f l = Some e ->
  exists l1 l2, l = (l1 ++ e :: l2)%list /\ f e = true /\ forall c, In c l1 -> f c = false.
Proof.
  induction l as [|a l IH]; simpl; [discriminate|].
  destruct (f a) eqn:Hfa.
  - intros [= ->]. exists [], l. repeat split; [exact Hfa | intros c []].
  - intros Hfind. destruct (IH Hfind) as (l1 & l2 & -> & He & Hl1).
    exists (a :: l1), l2. repeat split; [exact He|].
    intros c [<- | Hc]; [exact Hfa | exact (Hl1 c Hc)].
Qed.

Lemma in_mapi_from {A B : Type} (f : nat -> A -> B) (l : list A) (i : nat) (b : B) :
  In b (mapi_from i f l) -> exists j a, In a l /\ b = f j a.
Proof.
  revert i. induction l as [|a l IH]; simpl; intros i; [intros []|].
  intros [<- | Hb].
  - exists i, a. split; [left; reflexivity | reflexivity].
  - destruct (IH _ Hb) as (j & a' & Ha' & ->). exists j, a'. split; [right; exact Ha' | reflexivity].
Qed.

Lemma mapi_from_length {A B : Type} (f : nat -> A -> B) (l : list A) (i : nat) :
  length (mapi_from i f l) = length l.
Proof. revert i. induction l as [|a l IH]; simpl; intros i; [reflexivity | now rewrite IH]. Qed.

(** What the merge does, keyed by the identifier of the response node: the
    position of the first current node with that identifier, and the
    default position when there is none or the response node has no
    identifier. *)
Lemma mergeNode_position (currentNodes : list DiagramNode.t) (entropy : nat -> Entropy)
    (i : nat) (n : ResponseNode) :
  let r := mergeNode currentNodes entropy i n in
  (forall nid, r_id n = Some nid ->
     (exists l1 e l2,
         currentNodes = (l1 ++ e :: l2)%list /\ DiagramNode.id e = nid /\
         (forall c, In c l1 -> DiagramNode.id c <> nid) /\
         DiagramNode.x r = DiagramNode.x e /\ DiagramNode.y r = DiagramNode.y e)
     \/ ((forall c, In c currentNodes -> DiagramNode.id c <> nid) /\
         DiagramNode.x r = 50 /\ DiagramNode.y r = 50))
  /\ (r_id n = None -> DiagramNode.x r = 50 /\ DiagramNode.y r = 50).
Proof.
  unfold mergeNode. split.
  - intros nid ->. simpl.
    destruct (find _ currentNodes) as [e|] eqn:Hfind.
    + left. destruct (find_first _ _ _ Hfind) as (l1 & l2 & Hl & He & Hl1).
      exists l1, e, l2. apply String.eqb_eq in He. repeat split; try assumption.
      intros c Hc Heq. specialize (Hl1 c Hc). apply String.eqb_neq in Hl1. contradiction.
    + right. repeat split. intros c Hc Heq.
      pose proof (find_none _ _ Hfind c Hc) as Hn. apply String.eqb_neq in Hn. contradiction.
  - intros ->. simpl. split; reflexivity.
Qed.

Lemma mergeNode_positions_kept (currentNodes : list DiagramNode.t)
    (entropy : nat -> Entropy) (i : nat) (n : ResponseNode) :
  ids_nonempty currentNodes ->
  positions_agree currentNodes ->
  generated_fresh currentNodes entropy ->
  positions_kept currentNodes [mergeNode currentNodes entropy i n].
Proof.
  intros Hne Hagree Hfresh r [<- | []].
  assert (Hgen : find (fun cn => (DiagramNode.id cn =? EmptyString)%string) currentNodes = None).
  { destruct (find _ currentNodes) as [e|] eqn:Hfind; [|reflexivity].
    apply find_some in Hfind. destruct Hfind as [He Heq].
    apply String.eqb_eq in Heq. elim (Hne e He Heq). }
  unfold mergeNode. destruct (r_id n) as [nid|] eqn:Hid; simpl.
  - unfold truthy. destruct (String.eqb_spec nid EmptyString) as [-> | Hnid]; simpl.
    + rewrite Hgen. split.
      * intros c Hc Heq. elim (Hfresh i c Hc Heq).
      * intros _. split; reflexivity.
    + clear Hgen. destruct (find _ currentNodes) as [e|] eqn:Hfind.
      * apply find_some in Hfind. destruct Hfind as [He Heq].
        apply String.eqb_eq in Heq. split.
        -- intros c Hc Hcid. apply (Hagree e c He Hc). congruence.
        -- intros Hnone. elim (Hnone e He Heq).
      * split.
        -- intros c Hc Hcid.
           pose proof (find_none _ _ Hfind c Hc) as Hn. apply String.eqb_neq in Hn.
           contradiction.
        -- intros _. split; reflexivity.
  - split.
    + intros c Hc Heq. elim (Hfresh i c Hc Heq).
    + intros _. split; reflexivity.
Qed.

(** C9. When the client is initialised, [analyzeForDiagram] always
    resolves, whatever the request does; when the request throws, the
    response has no text (missing or empty) or the text does not parse, it
    resolves to the fallback record of five fixed strings. *)
Theorem analyzeForDiagram_total
    (parse : string -> option AgentDiagramData.t) (g : t)
    (pages : list DocumentPage.t) (reply : Reply) :
  ai g = true ->
  (exists data, analyzeForDiagram parse g pages reply = Resolved data)
  /\ (forall err, reply = Throws err ->
        analyzeForDiagram parse g pages reply = Resolved fallbackDiagramData)
  /\ (reply = Replies None \/ reply = Replies (Some EmptyString) ->
        analyzeForDiagram parse g pages reply = Resolved fallbackDiagramData)
  /\ (forall txt, reply = Replies (Some txt) -> parse txt = None ->
        analyzeForDiagram parse g pages reply = Resolved fallbackDiagramData)
  /\ fallbackDiagramData =
       {| AgentDiagramData.model_core := "Could not extract Model info";
          AgentDiagramData.nervous_system := "Could not extract System info";
          AgentDiagramData.human_collaboration := "Could not extract Human info";
          AgentDiagramData.tools_rag := "Could not extract Tools info";
          AgentDiagramData.deployment := "Could not extract Deployment info" |}.
Proof.
  intros Hai. unfold analyzeForDiagram. rewrite Hai. simpl.
  repeat split.
  - destruct reply as [err | [txt|]]; try (eexists; reflexivity).
    destruct (truthy txt); simpl; [|eexists; reflexivity].
    destruct (parse txt); eexists; reflexivity.
  - intros err ->. reflexivity.
  - intros [-> | ->]; reflexivity.
  - intros txt -> Hparse. rewrite Hparse. destruct (truthy txt); reflexivity.
Qed.

Lemma analyzeForDiagram_total_witness :
  let parse := fun _ : string => @None AgentDiagramData.t in
  let g := {| ai := true; chatSession := false |} in
  (exists data, analyzeForDiagram parse g [] (Replies (Some "{")) = Resolved data)
  /\ analyzeForDiagram parse g [] (Replies (Some "{")) = Resolved fallbackDiagramData.
Proof.
  intros parse g.
  destruct (analyzeForDiagram_total parse g [] (Replies (Some "{")) eq_refl)
    as (Hres & _ & _ & Hparse & _).
  split; [exact Hres | exact (Hparse "{" eq_refl eq_refl)].
Defined.

(** Without a client the guard before the [try] rejects. *)
Lemma analyzeForDiagram_uninitialised
    (parse : string -> option AgentDiagramData.t) (g : t)
    (pages : list DocumentPage.t) (reply : Reply) :
  ai g = false ->
  analyzeForDiagram parse g pages reply = Rejected "Gemini API not initialized".
Proof. intros Hai. unfold analyzeForDiagram. now rewrite Hai. Qed.

(** Once [initializeChat] has run with a client, a chat turn is rejected
    only when its request throws. *)
Lemma sendMessage_after_initializeChat (g : t) (pages : list DocumentPage.t)
    (reply0 : Reply) (message : string) (response_text : option string) :
  ai g = true ->
  exists responseText,
    sendMessage (snd (initializeChat g pages reply0)) message (Replies response_text)
    = Resolved responseText
    /\ responseText <> EmptyString.
Proof.
  intros Hai. unfold initializeChat. rewrite Hai. simpl.
  destruct reply0; simpl; eexists; (split; [reflexivity|]);
    apply or_else_truthy; discriminate.
Qed.

(** [refineNodes] returns one node for each node of the response. *)
Lemma refineNodes_resolves
    (parse : string -> option RefineJson) (g : t) (currentNodes : list DiagramNode.t)
    (instruction : string) (response_text : option string) (entropy : nat -> Entropy)
    (json : RefineJson) :
  ai g = true ->
  parse (or_else response_text "{}") = Some json ->
  exists out,
    refineNodes parse g currentNodes instruction (Replies response_text) entropy
      = Resolved out
    /\ length out = length (match json_nodes json with Some l => l | None => [] end).
Proof.
  intros Hai Hparse. unfold refineNodes. rewrite Hai, Hparse. simpl.
  eexists. split; [reflexivity|]. apply mapi_from_length.
Qed.

(** C1, amended. When the identifiers of the current nodes are not empty,
    current nodes with one identifier are at one position and no generated
    identifier is that of a current node, every returned node whose
    identifier is that of a current node has the position of that node,
    and every other returned node is at x = 50, y = 50. *)
Theorem refineNodes_positions
    (parse : string -> option RefineJson) (g : t) (currentNodes : list DiagramNode.t)
    (instruction : string) (reply : Reply) (entropy : nat -> Entropy)
    (out : list DiagramNode.t) :
  ids_nonempty currentNodes ->
  positions_agree currentNodes ->
  generated_fresh currentNodes entropy ->
  refineNodes parse g currentNodes instruction reply entropy = Resolved out ->
  positions_kept currentNodes out.
Proof.
  intros Hne Hagree Hfresh. unfold refineNodes.
  destruct (negb (ai g)); [discriminate|].
  destruct reply as [err | response_text]; [discriminate|].
  destruct (parse _) as [json|]; [|discriminate].
  intros [= <-] r Hr. unfold mapi in Hr.
  apply in_mapi_from in Hr. destruct Hr as (j & n & _ & ->).
  apply (mergeNode_positions_kept currentNodes entropy j n Hne Hagree Hfresh).
  left. reflexivity.
Qed.

Lemma refineNodes_positions_witness :
  positions_kept sample_nodes
    [ {| DiagramNode.id := "a"; DiagramNode.title := "kept"; DiagramNode.content := EmptyString;
         DiagramNode.x := 10; DiagramNode.y := 20 |};
      {| DiagramNode.id := "node-1700000000000-0.5"; DiagramNode.title := "added";
         DiagramNode.content := EmptyString; DiagramNode.x := 50; DiagramNode.y := 50 |} ].
Proof.
  apply (refineNodes_positions sample_parse ready sample_nodes "add a node"
           (Replies (Some "{}")) sample_entropy).
  - intros c [<- | []]. simpl. discriminate.
  - intros c1 c2 [<- | []] [<- | []] _. split; reflexivity.
  - intros i c [<- | []]. vm_compute. discriminate.
  - vm_compute. reflexivity.
Defined.

(** C1 as stated fails: a current node with the empty identifier is found
    by the lookup, while the returned node gets a generated identifier, one
    that no current node has, and yet the position of the node found. *)
Lemma empty_id_breaks_positions :
  exists out,
    refineNodes empty_id_parse ready empty_id_nodes "rename" (Replies (Some "{}"))
      sample_entropy = Resolved out
    /\ out = [ {| DiagramNode.id := "node-1700000000000-0.5"; DiagramNode.title := "new";
                  DiagramNode.content := EmptyString; DiagramNode.x := 10; DiagramNode.y := 20 |} ]
    /\ ~ positions_kept empty_id_nodes out.
Proof.
  eexists. split; [vm_compute; reflexivity|]. split; [reflexivity|].
  intros Hkept. destruct (Hkept _ (or_introl eq_refl)) as [_ Hdefault].
  assert (Hx : 10 = 50).
  { apply Hdefault. intros c [<- | []]. simpl. discriminate. }
  discriminate Hx.
Qed.

(** The other two conditions are needed as well: of two current nodes
    with one identifier the first gives the position, and a generated
    identifier that a current node has comes with the default position. *)
Example refineNodes_first_of_duplicates :
  exists out,
    refineNodes sample_parse ready duplicate_nodes "edit" (Replies None) sample_entropy
      = Resolved out
    /\ ~ positions_kept duplicate_nodes out.
Proof.
  eexists. split; [vm_compute; reflexivity|].
  intros Hkept. destruct (Hkept _ (or_introl eq_refl)) as [Hsame _].
  destruct (Hsame _ (or_intror (or_introl eq_refl)) eq_refl) as [Hx _].
  discriminate Hx.
Qed.

Example refineNodes_generated_collision :
  exists out,
    refineNodes sample_parse ready colliding_nodes "edit" (Replies None) sample_entropy
      = Resolved out
    /\ ~ positions_kept colliding_nodes out.
Proof.
  eexists. split; [vm_compute; reflexivity|].
  intros Hkept. destruct (Hkept _ (or_intror (or_introl eq_refl))) as [Hsame _].
  destruct (Hsame _ (or_introl eq_refl) eq_refl) as [Hx _].
  discriminate Hx.
Qed.

End GeminiServiceFacts.

(** ** Upload and convert *)

Module UploadFacts.
Import Upload UploadSpec.

Lemma append_assoc (a b c : string) : ((a ++ b) ++ c = a ++ (b ++ c))%string.
Proof. induction a as [|ch a IH]; simpl; [reflexivity | now rewrite IH]. Qed.

Lemma no_comma_app (a b : string) :
  no_comma (a ++ b) = (no_comma a && no_comma b)%bool.
Proof.
  induction a as [|c a IH]; simpl; [reflexivity|].
  rewrite IH. now rewrite andb_assoc.
Qed.

Lemma base64_char_not_comma (c : ascii) :
  base64_char c = true -> Ascii.eqb c "," = false.
Proof.
  intros Hc. destruct (Ascii.eqb_spec c ",") as [-> | _]; [|reflexivity].
  vm_compute in Hc. discriminate Hc.
Qed.

Lemma base64_text_no_comma (s : string) : base64_text s = true -> no_comma s = true.
Proof.
  induction s as [|c s IH]; simpl; [reflexivity|].
  intros H. apply andb_prop in H. destruct H as [Hc Hs].
  rewrite (base64_char_not_comma c Hc). simpl. exact (IH Hs).
Qed.

(** Splitting a text without comma gives the text. *)
Lemma split_no_comma (s : string) : no_comma s = true -> split "," s = [s].
Proof.
  induction s as [|c s IH]; simpl; [reflexivity|].
  intros H. apply andb_prop in H. destruct H as [Hc Hs].
  apply negb_true_iff in Hc. rewrite Hc. now rewrite (IH Hs).
Qed.

(** Splitting at the first comma. *)
Lemma split_first_comma (pre post : string) :
  no_comma pre = true ->
  split "," (pre ++ String "," post) = pre :: split "," post.
Proof.
  induction pre as [|c pre IH]; simpl.
  - reflexivity.
  - intros H. apply andb_prop in H. destruct H as [Hc Hs].
    apply negb_true_iff in Hc. rewrite Hc. now rewrite (IH Hs).
Qed.

Lemma after_first_comma (pre post : string) :
  no_comma pre = true ->
  after_first "," (pre ++ String "," post) = Some post.
Proof.
  induction pre as [|c pre IH]; simpl.
  - reflexivity.
  - intros H. apply andb_prop in H. destruct H as [Hc Hs].
    apply negb_true_iff in Hc. rewrite Hc. exact (IH Hs).
Qed.

Lemma data_url_split (mime payload : string) :
  data_url mime payload = (("data:" ++ mime ++ ";base64") ++ String "," payload)%string.
Proof.
  unfold data_url. rewrite !append_assoc. reflexivity.
Qed.

(** The second piece of the split of a base64 data URL is its payload,
    which is also all that follows the first comma. *)
Lemma payload_of_data_url (mime text : string) :
  no_comma mime = true -> base64_text text = true ->
  payload (data_url mime text) = Some text
  /\ after_first "," (data_url mime text) = Some text.
Proof.
  intros Hmime Htext.
  assert (Hpre : no_comma ("data:" ++ mime ++ ";base64") = true).
  { rewrite !no_comma_app, Hmime. reflexivity. }
  rewrite data_url_split. split.
  - unfold payload. rewrite (split_first_comma _ _ Hpre).
    rewrite (split_no_comma _ (base64_text_no_comma _ Htext)). reflexivity.
  - exact (after_first_comma _ _ Hpre).
Qed.

(** Where the pages of a conversion come from. *)
Lemma processPdf_from_origin (file : File.t) (renders : list PageRender)
    (acc ps : list DocumentPage.t) :
  processPdf_from file renders acc = Resolved ps ->
  forall p, In p ps ->
    In p acc \/ exists u rnd, In u (rendered_urls renders) /\ p = pdfPage file u rnd.
Proof.
  revert acc. induction renders as [|r renders IH]; simpl; intros acc.
  - intros [= <-] p Hp. left. exact Hp.
  - destruct r as [err | | err | u rnd]; try discriminate.
    + intros Hres p Hp. exact (IH _ Hres p Hp).
    + intros Hres p Hp. destruct (IH _ Hres p Hp) as [Hacc | (u' & rnd' & Hu & ->)].
      * apply in_app_or in Hacc. destruct Hacc as [Hacc | [<- | []]].
        -- left. exact Hacc.
        -- right. exists u, rnd. split; [left; reflexivity | reflexivity].
      * right. exists u', rnd'. split; [right; exact Hu | reflexivity].
Qed.

Lemma convert_from_origin (inputs : list Input) (acc ps : list DocumentPage.t) :
  convert_from inputs acc = Resolved ps ->
  forall p, In p ps ->
    In p acc
    \/ exists i u rnd,
         In i inputs /\ In u (platform_urls i)
         /\ (p = pdfPage (in_file i) u rnd \/ p = imagePage (in_file i) u rnd).
Proof.
  revert acc. induction inputs as [|i inputs IH]; simpl; intros acc.
  - intros [= <-] p Hp. left. exact Hp.
  - assert (Hlift : forall acc',
              convert_from inputs acc' = Resolved ps ->
              (forall q, In q acc' ->
                 In q acc \/ exists u rnd, In u (platform_urls i)
                   /\ (q = pdfPage (in_file i) u rnd \/ q = imagePage (in_file i) u rnd)) ->
              forall p, In p ps ->
                In p acc
                \/ exists i0 u rnd,
                     (i = i0 \/ In i0 inputs) /\ In u (platform_urls i0)
                     /\ (p = pdfPage (in_file i0) u rnd \/ p = imagePage (in_file i0) u rnd)).
    { intros acc' Hres Hacc' p Hp.
      destruct (IH _ Hres p Hp) as [Hin | (i0 & u & rnd & Hi0 & Hu & Hpage)].
      - destruct (Hacc' p Hin) as [Ha | (u & rnd & Hu & Hpage)].
        + left. exact Ha.
        + right. exists i, u, rnd. split; [left; reflexivity | split; assumption].
      - right. exists i0, u, rnd. split; [right; exact Hi0 | split; assumption]. }
    destruct (File.type (in_file i) =? "application/pdf")%string.
    + destruct (processPdf (in_file i) (in_pdf i)) as [pdfPages | err] eqn:Hpdf;
        [|discriminate].
      intros Hres. apply (Hlift _ Hres). intros q Hq.
      apply in_app_or in Hq. destruct Hq as [Hq | Hq]; [left; exact Hq|].
      right. unfold processPdf in Hpdf.
      destruct (in_pdf i) as [err | renders] eqn:Hdoc; [discriminate|].
      destruct (processPdf_from_origin _ _ _ _ Hpdf q Hq) as [[] | (u & rnd & Hu & ->)].
      exists u, rnd. split; [|left; reflexivity].
      unfold platform_urls. rewrite Hdoc. apply in_or_app. right. exact Hu.
    + destruct (startsWith "image/" (File.type (in_file i))).
      * destruct (in_reader i) as [| u rnd] eqn:Hread.
        -- intros Hres. apply (Hlift _ Hres). intros q Hq. left. exact Hq.
        -- intros Hres. apply (Hlift _ Hres). intros q Hq.
           apply in_app_or in Hq. destruct Hq as [Hq | [<- | []]]; [left; exact Hq|].
           right. exists u, rnd. split; [|right; reflexivity].
           unfold platform_urls. rewrite Hread. left. reflexivity.
      * intros Hres. apply (Hlift _ Hres). intros q Hq. left. exact Hq.
Qed.

(** C6. Every page an upload creates, from an image file or from a page
    of a PDF, has for display the URL the platform handed out for its
    file, and for transfer the part of that URL between its first comma
    and the next; whenever the display URL is a base64 data URL, the
    transfer payload is what follows the first comma of that URL: the URL
    without its prefix. *)
Theorem pages_carry_consistent_encodings (inputs : list Input) (s : App.State)
    (p : DocumentPage.t) :
  In p (snd (App.processFiles inputs s)) ->
  (exists i, In i inputs /\ In (DocumentPage.url p) (platform_urls i))
  /\ DocumentPage.base64 p = payload (DocumentPage.url p)
  /\ (forall mime text,
        DocumentPage.url p = data_url mime text ->
        no_comma mime = true ->
        base64_text text = true ->
        DocumentPage.base64 p = Some text
        /\ DocumentPage.base64 p = after_first "," (DocumentPage.url p)).
Proof.
  intros Hp. unfold App.processFiles, App.processFiles_settle in Hp.
  destruct (convert inputs) as [newPages | reason] eqn:Hconv; simpl in Hp; [|destruct Hp].
  destruct (convert_from_origin inputs [] newPages Hconv p Hp)
    as [[] | (i & u & rnd & Hi & Hu & Hpage)].
  assert (Hurl : DocumentPage.url p = u) by (destruct Hpage as [-> | ->]; reflexivity).
  assert (Hpay : DocumentPage.base64 p = payload u)
    by (destruct Hpage as [-> | ->]; reflexivity).
  rewrite Hurl. split; [exists i; split; assumption|]. split; [exact Hpay|].
  intros mime text -> Hmime Htext.
  destruct (payload_of_data_url mime text Hmime Htext) as [Hsplit Hafter].
  rewrite Hpay, Hsplit, Hafter. split; reflexivity.
Qed.

Lemma pages_carry_consistent_encodings_witness :
  DocumentPage.base64
    (imagePage (in_file sample_image) "data:image/png;base64,iVBORw0KGgo=" "0.4fzyo82mvyr")
  = Some "iVBORw0KGgo="
  /\ DocumentPage.base64
       (pdfPage (in_file sample_pdf) "data:image/jpeg;base64,/9j/4BBR" "0.z8w4n6b5c2d")
     = after_first "," "data:image/jpeg;base64,/9j/4BBR".
Proof.
  split.
  - refine (proj1 (proj2 (proj2
      (pages_carry_consistent_encodings [sample_image; sample_pdf] App.initial
         (imagePage (in_file sample_image) "data:image/png;base64,iVBORw0KGgo="
            "0.4fzyo82mvyr") _)) "image/png" "iVBORw0KGgo=" _ _ _)).
    + vm_compute. left. reflexivity.
    + reflexivity.
    + reflexivity.
    + reflexivity.
  - refine (proj2 (proj2 (proj2
      (pages_carry_consistent_encodings [sample_image; sample_pdf] App.initial
         (pdfPage (in_file sample_pdf) "data:image/jpeg;base64,/9j/4BBR" "0.z8w4n6b5c2d")
         _)) "image/jpeg" "/9j/4BBR" _ _ _)).
    + vm_compute. right. right. left. reflexivity.
    + reflexivity.
    + reflexivity.
    + reflexivity.
Defined.

(** C6 as stated fails: the display URL is whatever the platform hands
    out.  For a canvas without pixels [toDataURL] gives [data:,]; the
    page is created all the same, its display URL is no base64 data URL
    and its payload is the empty text. *)
Lemma blank_canvas_page_not_data_url :
  exists p,
    snd (App.processFiles [blank_pdf] App.initial) = [p]
    /\ DocumentPage.url p = "data:,"
    /\ DocumentPage.base64 p = Some EmptyString
    /\ ~ consistent_encodings p.
Proof.
  eexists. split; [vm_compute; reflexivity|]. split; [reflexivity|].
  split; [reflexivity|].
  intros (mime & text & Hurl & Hmime & _). cbn [DocumentPage.url pdfPage] in Hurl.
  unfold data_url in Hurl. simpl in Hurl. injection Hurl as Hurl.
  destruct mime as [|c mime]; simpl in Hurl; [discriminate Hurl|].
  injection Hurl as <- Hrest. simpl in Hmime. discriminate Hmime.
Qed.

(** The split keeps only what lies between the first two commas: for a
    URL with a second comma the payload is not all that follows the
    first. *)
Example payload_stops_at_second_comma :
  payload "data:text/plain;charset=a,b;base64,aGk=" = Some "b;base64"
  /\ after_first "," "data:text/plain;charset=a,b;base64,aGk=" = Some "b;base64,aGk=".
Proof. split; reflexivity. Qed.

(** A document whose pages all render gives one page for each, in the
    order of the document. *)
Lemma processPdf_from_all (file : File.t) (renders : list PageRender)
    (acc : list DocumentPage.t) :
  forallb has_context renders = true ->
  forallb completes renders = true ->
  exists ps,
    processPdf_from file renders acc = Resolved (acc ++ ps)%list
    /\ Forall2 (page_of_render file) renders ps.
Proof.
  revert acc. induction renders as [|r renders IH]; simpl; intros acc Hctx Hcompl.
  - exists []. rewrite app_nil_r. split; [reflexivity | constructor].
  - apply andb_prop in Hctx. destruct Hctx as [Hr Hctx].
    apply andb_prop in Hcompl. destruct Hcompl as [Hr' Hcompl].
    destruct r as [err | | err | u rnd]; try discriminate.
    destruct (IH (acc ++ [pdfPage file u rnd])%list Hctx Hcompl) as (ps & Hres & Hall).
    exists (pdfPage file u rnd :: ps). split.
    + rewrite Hres. rewrite <- app_assoc. reflexivity.
    + constructor; [|exact Hall]. exists u, rnd. repeat split; reflexivity.
Qed.

(** The loop of [processFiles] adds to what it has collected. *)
Lemma convert_from_acc (inputs : list Input) (acc : list DocumentPage.t) :
  convert_from inputs acc
  = match convert inputs with
    | Resolved ps => Resolved (acc ++ ps)%list
    | Rejected err => Rejected err
    end.
Proof.
  unfold convert. revert acc.
  induction inputs as [|i inputs IH]; intros acc; simpl.
  - now rewrite app_nil_r.
  - destruct (File.type (in_file i) =? "application/pdf")%string.
    + destruct (processPdf (in_file i) (in_pdf i)) as [pdfPages | err]; [|reflexivity].
      rewrite (IH (acc ++ pdfPages)%list), (IH pdfPages).
      destruct (convert_from inputs []); [|reflexivity]. now rewrite app_assoc.
    + destruct (startsWith "image/" (File.type (in_file i))); [|apply IH].
      destruct (in_reader i) as [| u rnd]; [apply IH|].
      rewrite (IH (acc ++ [imagePage (in_file i) u rnd])%list),
        (IH [imagePage (in_file i) u rnd]).
      destruct (convert_from inputs []); [|reflexivity]. now rewrite <- app_assoc.
Qed.

(** The loop over two lists of files, one after the other. *)
Lemma convert_from_app (before after : list Input) (acc : list DocumentPage.t) :
  convert_from (before ++ after) acc
  = match convert_from before acc with
    | Resolved ps => convert_from after ps
    | Rejected err => Rejected err
    end.
Proof.
  revert acc. induction before as [|i before IH]; intros acc; simpl; [reflexivity|].
  destruct (File.type (in_file i) =? "application/pdf")%string.
  - destruct (processPdf (in_file i) (in_pdf i)); [apply IH | reflexivity].
  - destruct (startsWith "image/" (File.type (in_file i))); [|apply IH].
    destruct (in_reader i); apply IH.
Qed.

(** C7. When the PDF library rejects nothing, neither for the PDF nor for
    the other files of the upload, a PDF whose pages all get a 2D context
    gives exactly one page for each page of the document, in the order of
    the document, each with media type image/jpeg, appended between the
    pages of the files before it and those of the files after it; a file
    that is neither a PDF nor an image gives no page in any upload. *)
Theorem processFiles_pdf_pages (before after : list Input) (i : Input) (s : App.State) :
  (forall renders ps0 ps1,
     File.type (in_file i) = "application/pdf" ->
     in_pdf i = Loaded renders ->
     forallb has_context renders = true ->
     forallb completes renders = true ->
     convert before = Resolved ps0 ->
     convert after = Resolved ps1 ->
     exists ps,
       snd (App.processFiles (before ++ i :: after) s) = (ps0 ++ ps ++ ps1)%list
       /\ App.pages (fst (App.processFiles (before ++ i :: after) s))
          = (App.pages s ++ ps0 ++ ps ++ ps1)%list
       /\ length ps = length renders
       /\ Forall2 (page_of_render (in_file i)) renders ps)
  /\ (File.type (in_file i) <> "application/pdf" ->
      startsWith "image/" (File.type (in_file i)) = false ->
      App.processFiles (before ++ i :: after) s = App.processFiles (before ++ after) s).
Proof.
  split.
  - intros renders ps0 ps1 Htype Hdoc Hctx Hcompl Hbefore Hafter.
    destruct (processPdf_from_all (in_file i) renders [] Hctx Hcompl) as (ps & Hres & Hall).
    exists ps.
    assert (Hconv : convert (before ++ i :: after) = Resolved (ps0 ++ ps ++ ps1)%list).
    { unfold convert. rewrite convert_from_app. fold (convert before). rewrite Hbefore.
      simpl. rewrite Htype. simpl. unfold processPdf. rewrite Hdoc, Hres. simpl.
      rewrite convert_from_acc, Hafter. now rewrite <- app_assoc. }
    unfold App.processFiles, App.processFiles_settle. rewrite Hconv. simpl.
    repeat split; try reflexivity; [|exact Hall].
    symmetry. exact (Forall2_length Hall).
  - intros Htype Himage.
    assert (Hconv : convert (before ++ i :: after) = convert (before ++ after)).
    { unfold convert. rewrite !convert_from_app.
      destruct (convert_from before []) as [ps0 | err]; [|reflexivity].
      simpl. apply String.eqb_neq in Htype. rewrite Htype, Himage. reflexivity. }
    unfold App.processFiles. rewrite Hconv. reflexivity.
Qed.

Lemma processFiles_pdf_pages_witness :
  (exists ps,
      snd (App.processFiles [sample_image; sample_pdf; sample_text] App.initial)
      = ([imagePage (in_file sample_image) "data:image/png;base64,iVBORw0KGgo="
            "0.4fzyo82mvyr"] ++ ps ++ [])%list
      /\ App.pages (fst (App.processFiles [sample_image; sample_pdf; sample_text]
                           App.initial))
         = (App.pages App.initial
            ++ [imagePage (in_file sample_image) "data:image/png;base64,iVBORw0KGgo="
                  "0.4fzyo82mvyr"] ++ ps ++ [])%list
      /\ length ps = 2%nat
      /\ Forall2 (page_of_render (in_file sample_pdf))
           [ Rendered "data:image/jpeg;base64,/9j/4AAQ" "0.k3x9q2m7p1a";
             Rendered "data:image/jpeg;base64,/9j/4BBR" "0.z8w4n6b5c2d" ] ps)
  /\ App.processFiles [sample_pdf; sample_text] App.initial
     = App.processFiles [sample_pdf] App.initial.
Proof.
  split.
  - apply (proj1 (processFiles_pdf_pages [sample_image] [sample_text] sample_pdf
                    App.initial)
             [ Rendered "data:image/jpeg;base64,/9j/4AAQ" "0.k3x9q2m7p1a";
               Rendered "data:image/jpeg;base64,/9j/4BBR" "0.z8w4n6b5c2d" ]);
      reflexivity.
  - apply (proj2 (processFiles_pdf_pages [sample_pdf] [] sample_text App.initial)).
    + simpl. discriminate.
    + reflexivity.
Defined.

(** C7 as stated fails: both pages of the document get a 2D context, the
    library fails to render the second, and the upload gives no page at
    all, not even the first. *)
Lemma render_rejection_gives_no_page :
  in_pdf broken_pdf
  = Loaded [ Rendered "data:image/jpeg;base64,/9j/4AAQ" "0.k3x9q2m7p1a";
             RenderThrows "render failed" ]
  /\ forallb has_context [ Rendered "data:image/jpeg;base64,/9j/4AAQ" "0.k3x9q2m7p1a";
                           RenderThrows "render failed" ] = true
  /\ snd (App.processFiles [broken_pdf] App.initial) = []
  /\ App.pages (fst (App.processFiles [broken_pdf] App.initial)) = []
  /\ ~ one_page_per_pdf_page broken_pdf App.initial.
Proof.
  repeat split; try reflexivity.
  intros Hclaim.
  destruct (Hclaim _ eq_refl eq_refl eq_refl) as (ps & Hpages & Hlen & _).
  vm_compute in Hpages. subst ps. discriminate Hlen.
Qed.

(** A rejection of the PDF library for one file loses the pages of the
    whole upload. *)
Lemma convert_rejected_appends_nothing (inputs : list Input) (s : App.State)
    (reason : string) :
  convert inputs = Rejected reason ->
  App.pages (fst (App.processFiles inputs s)) = App.pages s
  /\ snd (App.processFiles inputs s) = [].
Proof.
  intros Hrej. unfold App.processFiles, App.processFiles_settle. rewrite Hrej.
  split; reflexivity.
Qed.

End UploadFacts.

(** ** The session state *)

Module AppFacts.
Import App AppSpec.

Ltac break_match H :=
  repeat match type of H with
         | context [match ?x with _ => _ end] => destruct x eqn:?; try discriminate H
         end.

Ltac break_hyps :=
  repeat match goal with
         | H : context [match ?x with _ => _ end] |- _ =>
             destruct x eqn:?; try discriminate
         end.

Ltac inj_all :=
  repeat match goal with
         | H : Returned _ = Returned _ |- _ => injection H; clear H; intros; subst
         | H : Awaiting _ _ = Awaiting _ _ |- _ => injection H; clear H; intros; subst
         | H : Some _ = Some _ |- _ => injection H; clear H; intros; subst
         | H : (_, _) = (_, _) |- _ => injection H; clear H; intros; subst
         end.

Ltac unfold_handlers H :=
  unfold handle, settle, handleSketchUpload_settle, processFiles_begin,
    processFiles_settle, handleRemovePage, startAnalysis_begin,
    startAnalysis_settle, handleSendMessage_begin, handleSendMessage_settle,
    handleGenerateDiagram_begin, handleGenerateDiagram_settle,
    handleGenerateWorkflow_begin, handleGenerateWorkflow_settle,
    handleExtractText_begin, handleExtractText_settle,
    handleImageGeneration_begin, handleImageGeneration_settle,
    handleImageRefinement_begin, refineNodes_settle, refineBackground_settle,
    handleAssetUpdate, handleResetImage, toggleImageMode, onSelectReference in H.

(** Reduces a transition to the cases of its handler. *)
Ltac step_cases H :=
  unfold step in H;
  match type of H with
  | context [enabled ?e ?sys] => destruct (enabled e sys) eqn:?; [|discriminate H]
  end;
  try match type of H with
      | context [match ?e with FilesSelected _ => _ | _ => _ end] => is_var e; destruct e
      end;
  cbv iota beta in H; unfold_handlers H; break_match H; break_hyps; inj_all; simpl.

Lemma run_reachable (trace : list Event) (sys sys' : System) :
  reachable sys -> run trace sys = Some sys' -> reachable sys'.
Proof.
  revert sys. induction trace as [|e trace IH]; simpl; intros sys Hsys.
  - intros [= <-]. exact Hsys.
  - destruct (step e sys) as [sys1|] eqn:Hstep; [|discriminate].
    apply IH. exact (reachable_step e sys sys1 Hsys Hstep).
Qed.

(** What a transition does to the list of pages. *)
Lemma step_pages (e : Event) (sys sys' : System) :
  step e sys = Some sys' ->
  (exists newPages, pages (app sys') = (pages (app sys) ++ newPages)%list)
  \/ (exists id, e = RemovePage id
        /\ pages (app sys')
           = filter (fun p => negb (DocumentPage.id p =? id)%string) (pages (app sys))).
Proof.
  intros Hstep. step_cases Hstep.
  all: try (left; exists []; rewrite app_nil_r; reflexivity).
  all: try (right; eexists; split; reflexivity).
  all: try (left; eexists; reflexivity).
  all: try (left; exists []; rewrite app_nil_r; congruence).
Qed.

(** [processFiles] only appends: the pages it returns are added at the end
    of the list. *)
Lemma processFiles_appends (inputs : list Upload.Input) (s : State) :
  pages (fst (processFiles inputs s)) = (pages s ++ snd (processFiles inputs s))%list.
Proof.
  unfold processFiles, processFiles_settle, processFiles_begin.
  destruct (Upload.convert inputs) as [newPages | reason]; simpl.
  - reflexivity.
  - now rewrite app_nil_r.
Qed.

(** C5. Over every transition of the component, a page of the list is
    still in the list afterwards, unchanged, unless the transition is
    [handleRemovePage] called with its identifier; every transition other
    than [handleRemovePage], upload included, only adds pages at the end. *)
Theorem pages_immutable (e : Event) (sys sys' : System) :
  step e sys = Some sys' ->
  (forall p, In p (pages (app sys)) ->
     In p (pages (app sys')) \/ e = RemovePage (DocumentPage.id p))
  /\ ((forall id, e <> RemovePage id) ->
      exists newPages, pages (app sys') = (pages (app sys) ++ newPages)%list).
Proof.
  intros Hstep. destruct (step_pages e sys sys' Hstep) as [[newPages Heq] | (id & -> & Heq)].
  - split.
    + intros p Hp. left. rewrite Heq. apply in_or_app. left. exact Hp.
    + intros _. exists newPages. exact Heq.
  - split.
    + intros p Hp. destruct (String.eqb_spec (DocumentPage.id p) id) as [<- | Hne].
      * right. reflexivity.
      * left. rewrite Heq. apply filter_In. split; [exact Hp|].
        apply String.eqb_neq in Hne. now rewrite Hne.
    + intros Hno. elim (Hno id). reflexivity.
Qed.

(** What a transition does to the reference selection, together with the
    list of pages. *)
Lemma step_reference (e : Event) (sys sys' : System) :
  step e sys = Some sys' ->
  (exists newPages,
      pages (app sys') = (pages (app sys) ++ newPages)%list
      /\ (activeReferencePageId (app sys') = activeReferencePageId (app sys)
          \/ exists p, In p (pages (app sys'))
                /\ activeReferencePageId (app sys') = Some (DocumentPage.id p)))
  \/ (exists id,
        e = RemovePage id
        /\ pages (app sys')
           = filter (fun p => negb (DocumentPage.id p =? id)%string) (pages (app sys))
        /\ activeReferencePageId (app sys')
           = if is_id (activeReferencePageId (app sys)) id then None
             else activeReferencePageId (app sys)).
Proof.
  intros Hstep. step_cases Hstep.
  all: try (left; exists []; rewrite app_nil_r; split; [congruence | left; congruence]).
  all: try (left; eexists; split; [reflexivity | left; reflexivity]).
  all: try (right; eexists; split; [reflexivity|]; split; [reflexivity|];
            match goal with H : is_id _ _ = _ |- _ => now rewrite H end).
  - left. exists []. rewrite app_nil_r. split; [assumption|].
    right. exists t. split; [|reflexivity].
    match goal with H : pages _ = _ |- _ => rewrite H end. left. reflexivity.
  - left. exists []. rewrite app_nil_r. split; [reflexivity|].
    right. exists t. split; [|reflexivity].
    eapply nth_error_In. eassumption.
  - left. eexists. split; [reflexivity|].
    right. eexists. split; [|reflexivity].
    apply in_or_app. right. left. reflexivity.
Qed.

Lemma pages_immutable_witness :
  let e := RemovePage "82mvyr" in
  (forall p, In p (pages (app (after one_page))) ->
     In p (pages (app (after (one_page ++ [e])))) \/ e = RemovePage (DocumentPage.id p))
  /\ pages (app (after (one_page ++ [e]))) = [].
Proof.
  intros e. split.
  - apply (pages_immutable e (after one_page) (after (one_page ++ [e]))).
    vm_compute. reflexivity.
  - vm_compute. reflexivity.
Defined.

Lemma step_valid_reference (e : Event) (sys sys' : System) :
  step e sys = Some sys' ->
  valid_reference (app sys) -> valid_reference (app sys').
Proof.
  intros Hstep Hvalid. unfold valid_reference in *.
  destruct (step_reference e sys sys' Hstep)
    as [(newPages & Hpages & [Href | (p & Hp & Href)]) | (id & _ & Hpages & Href)];
    rewrite Href.
  - destruct (activeReferencePageId (app sys)) as [a|]; [|exact I].
    destruct Hvalid as (p & Hp & Hid). exists p. split; [|exact Hid].
    rewrite Hpages. apply in_or_app. left. exact Hp.
  - exists p. split; [exact Hp | reflexivity].
  - destruct (is_id (activeReferencePageId (app sys)) id) eqn:His; [exact I|].
    destruct (activeReferencePageId (app sys)) as [a|]; [|exact I].
    destruct Hvalid as (p & Hp & Hid). exists p. split; [|exact Hid].
    rewrite Hpages. apply filter_In. split; [exact Hp|].
    simpl in His. rewrite Hid. now rewrite His.
Qed.

(** C10. In every reachable state of the component the reference
    selection is null or the identifier of a page of the list. *)
Theorem reference_always_valid (sys : System) :
  reachable sys -> valid_reference (app sys).
Proof.
  induction 1 as [| e sys sys' _ IH Hstep].
  - exact I.
  - exact (step_valid_reference e sys sys' Hstep IH).
Qed.

Lemma AppState_eqb_eq (a b : AppState) : AppState_eqb a b = true <-> a = b.
Proof. destruct a, b; simpl; split; intros H; try reflexivity; discriminate H. Qed.

Lemma after_reachable (trace : list Event) : reachable (after trace).
Proof.
  unfold after. destruct (run trace start) as [sys|] eqn:Hrun.
  - exact (run_reachable trace start sys reachable_start Hrun).
  - exact reachable_start.
Qed.

Lemma reference_always_valid_witness :
  valid_reference (app (after open_studio))
  /\ activeReferencePageId (app (after open_studio)) = Some "82mvyr".
Proof.
  split.
  - apply (reference_always_valid (after open_studio)). apply after_reachable.
  - vm_compute. reflexivity.
Defined.

(** Removing the referenced page resets the selection. *)
Lemma handleRemovePage_resets (id : string) (s : State) :
  activeReferencePageId s = Some id ->
  activeReferencePageId (handleRemovePage id s) = None.
Proof.
  intros Href. unfold handleRemovePage. rewrite Href. simpl.
  now rewrite String.eqb_refl.
Qed.

(** What a transition does to the transcript: it adds at the end, or it
    is a resolved analysis, which replaces the transcript by the summary. *)
Lemma step_messages (e : Event) (sys sys' : System) :
  step e sys = Some sys' ->
  extends (messages (app sys)) (messages (app sys'))
  \/ replaced_by_summary e sys sys'.
Proof.
  intros Hstep. unfold replaced_by_summary. step_cases Hstep.
  all: try (left; exists []; rewrite app_nil_r; reflexivity).
  all: try (left; eexists; reflexivity).
  - left. exists []. rewrite app_nil_r. assumption.
  - right. exists k, a, now. split; [reflexivity|]. split; [assumption | reflexivity].
Qed.

(** Uploads leave the mode and the transcript alone. *)
Lemma processFiles_settle_session (r : Promise (list DocumentPage.t)) (s : State) :
  messages (fst (processFiles_settle r s)) = messages s
  /\ appState (fst (processFiles_settle r s)) = appState s.
Proof. destruct r; split; reflexivity. Qed.

Lemma handleSketchUpload_settle_session (r : Promise (list DocumentPage.t)) (s : State) :
  messages (handleSketchUpload_settle r s) = messages s
  /\ appState (handleSketchUpload_settle r s) = appState s.
Proof. destruct r as [[|p l] | reason]; split; reflexivity. Qed.

(** What a transition does to the mode, to the transcript and to the
    awaiting handlers, for each kind of event that touches them. *)
Lemma seq_step_inv (e : Event) (sys sys' : System) :
  seq_inv sys -> seq_step e sys = Some sys' ->
  seq_inv sys' /\ extends (messages (app sys)) (messages (app sys')).
Proof.
  intros (Hlen & Hidle & Hstart & Hsend) Hstep. unfold seq_step in Hstep.
  destruct e.
  all: try (destruct (pending sys) eqn:Hpend; [|discriminate Hstep];
            step_cases Hstep; unfold seq_inv; simpl; rewrite ?Hpend; simpl;
            try (repeat split;
                 [ lia
                 | intros; try discriminate; auto
                 | intros [Habs | []]; discriminate Habs
                 | intros [Habs | []]; discriminate Habs
                 | exists []; rewrite app_nil_r; reflexivity ]);
            try (repeat split;
                 [ lia
                 | intros; try discriminate; auto
                 | intros []
                 | intros []
                 | exists []; rewrite app_nil_r; reflexivity ])).
  - (* StartAnalysis: enabled in the idle mode only *)
    simpl in Heqb. repeat (apply andb_prop in Heqb; destruct Heqb as [Heqb ?]).
    apply Hidle. apply AppState_eqb_eq. assumption.
  - simpl in Heqb. repeat (apply andb_prop in Heqb; destruct Heqb as [Heqb ?]).
    apply Hidle. apply AppState_eqb_eq. assumption.
  - discriminate.
  - discriminate.
  - (* SendMessage: enabled in the modes that show the chat *)
    simpl in Heqb.
    assert (Hmode : appState (app sys) <> IDLE).
    { intros Hi. rewrite Hi in Heqb. discriminate Heqb. }
    repeat split.
    + lia.
    + intros Hi. contradiction.
    + intros [Habs | []]. discriminate Habs.
    + intros _. exact Hmode.
    + eexists. reflexivity.
  - (* ToggleImageMode, leaving the studio with an empty transcript *)
    split; [split; [lia | split; [intros _; assumption | split; intros []]]|].
    exists []. assumption.
  - split; [split; [lia | split; [discriminate | split; intros []]]|].
    exists []. rewrite app_nil_r. assumption.
  - (* Settle: the one awaiting handler *)
    destruct (pending sys) as [|t [|t2 rest]] eqn:Hpend; simpl in Hlen; try lia.
    + unfold step in Hstep. simpl in Hstep. rewrite Hpend in Hstep.
      destruct k; discriminate Hstep.
    + destruct k as [|k].
      2:{ unfold step in Hstep. simpl in Hstep. rewrite Hpend in Hstep.
          destruct k; discriminate Hstep. }
      unfold step in Hstep. simpl in Hstep. rewrite Hpend in Hstep. simpl in Hstep.
      destruct (settle t o (app sys)) as [s'|] eqn:Hsettle; [|discriminate Hstep].
      injection Hstep as <-. unfold seq_inv. simpl.
      unfold settle in Hsettle.
      destruct t as [sketch inputs| | | | | | | captured | captured]; destruct o;
        try (destruct sketch); try discriminate Hsettle; injection Hsettle as <-;
        try (destruct (processFiles_settle_session (Upload.convert inputs) (app sys))
               as [-> ->]);
        try (destruct (handleSketchUpload_settle_session (Upload.convert inputs) (app sys))
               as [-> ->]);
        unfold startAnalysis_settle,
          handleSendMessage_settle, handleGenerateDiagram_settle,
          handleGenerateWorkflow_settle, handleExtractText_settle,
          handleImageGeneration_settle, refineNodes_settle, refineBackground_settle;
        repeat match goal with
               | |- context [match ?x with _ => _ end] => destruct x
               end;
        simpl;
        (split; [split; [lia | split; [| split; intros []]]|]);
        try assumption;
        try (exists []; rewrite app_nil_r; reflexivity);
        try discriminate.
      * exists [modelMsg a now]. rewrite Hstart; [reflexivity | left; reflexivity].
      * intros _. apply Hstart. left. reflexivity.
      * intros Hi. elim (Hsend (or_introl eq_refl) Hi).
      * eexists. reflexivity.
      * intros Hi. elim (Hsend (or_introl eq_refl) Hi).
      * eexists. reflexivity.
Qed.

Lemma seq_inv_start : seq_inv start.
Proof.
  unfold seq_inv. simpl. repeat split; try lia; try (intros []); auto.
Qed.

Lemma seq_reachable_inv (sys : System) : seq_reachable sys -> seq_inv sys.
Proof.
  induction 1 as [| e sys sys' _ IH Hstep].
  - exact seq_inv_start.
  - exact (proj1 (seq_step_inv e sys sys' IH Hstep)).
Qed.

Lemma seq_run_reachable (trace : list Event) (sys sys' : System) :
  seq_reachable sys -> seq_run trace sys = Some sys' -> seq_reachable sys'.
Proof.
  revert sys. induction trace as [|e trace IH]; simpl; intros sys Hsys.
  - intros [= <-]. exact Hsys.
  - destruct (seq_step e sys) as [sys1|] eqn:Hstep; [|discriminate].
    apply IH. exact (seq_reachable_step e sys sys1 Hsys Hstep).
Qed.

Lemma seq_after_reachable (trace : list Event) : seq_reachable (seq_after trace).
Proof.
  unfold seq_after. destruct (seq_run trace start) as [sys|] eqn:Hrun.
  - exact (seq_run_reachable trace start sys seq_reachable_start Hrun).
  - exact seq_reachable_start.
Qed.

(** C2, amended. A transition of the component adds to the end of the
    transcript (possibly nothing), unless it is a resolved analysis, which
    replaces the transcript by the one message of the summary; and in
    runs where no handler is started while another one awaits, every
    transition adds to the end of the transcript. *)
Theorem transcript_append_only_sequential (e : Event) (sys sys' : System) :
  step e sys = Some sys' ->
  (extends (messages (app sys)) (messages (app sys'))
   \/ replaced_by_summary e sys sys')
  /\ (seq_reachable sys -> seq_step e sys = Some sys' ->
      extends (messages (app sys)) (messages (app sys'))).
Proof.
  intros Hstep. split.
  - exact (step_messages e sys sys' Hstep).
  - intros Hreach Hseq.
    exact (proj2 (seq_step_inv e sys sys' (seq_reachable_inv sys Hreach) Hseq)).
Qed.

Lemma transcript_append_only_sequential_witness :
  let e := Settle 0 (OText (Resolved "summary") 1) in
  extends (messages (app (seq_after analysis_started)))
          (messages (app (seq_after (analysis_started ++ [e]))))
  /\ messages (app (seq_after (analysis_started ++ [e]))) = [modelMsg "summary" 1].
Proof.
  intros e. split.
  - apply (transcript_append_only_sequential e (seq_after analysis_started)
             (seq_after (analysis_started ++ [e]))).
    + vm_compute. reflexivity.
    + apply seq_after_reachable.
    + vm_compute. reflexivity.
  - vm_compute. reflexivity.
Defined.

(** C2 as stated fails: two analyses overlap, and when the second one
    resolves it replaces the summary of the first. *)
Lemma transcript_not_append_only : ~ transcript_append_only.
Proof.
  intros Hclaim.
  pose (e := Settle 0 (OText (Resolved "second summary") 2)).
  assert (Hstep : step e (after overlapping_analyses)
                  = Some (after (overlapping_analyses ++ [e]))).
  { vm_compute. reflexivity. }
  destruct (Hclaim _ _ _ (after_reachable overlapping_analyses) Hstep) as [ext Hext].
  vm_compute in Hext. discriminate Hext.
Qed.

(** The transcripts before and after that transition. *)
Example overlapping_analyses_transcripts :
  messages (app (after overlapping_analyses)) = [modelMsg "first summary" 1]
  /\ messages (app (after (overlapping_analyses
                             ++ [Settle 0 (OText (Resolved "second summary") 2)])))
     = [modelMsg "second summary" 2].
Proof. split; vm_compute; reflexivity. Qed.

(** The gateway rejects a chat turn when no session was started or when
    the request throws. *)
Lemma sendMessage_rejects (g : GeminiService.t) (text : string)
    (reply : GeminiService.Reply) :
  (exists reason, GeminiService.sendMessage g text reply = Rejected reason)
  <-> (GeminiService.chatSession g = false \/ exists err, reply = GeminiService.Throws err).
Proof.
  unfold GeminiService.sendMessage. destruct (GeminiService.chatSession g); simpl.
  - destruct reply as [err | response_text]; split.
    + intros _. right. exists err. reflexivity.
    + intros _. eexists. reflexivity.
    + intros [reason Hr]. discriminate Hr.
    + intros [Hf | [err He]]; discriminate.
  - split; [intros _; left; reflexivity | intros _; eexists; reflexivity].
Qed.

(** C8. When the chat turn fails, [handleSendMessage] has added exactly
    two messages to the transcript, the message of the user and then a
    message of the model with the error flag set, and the processing flag
    is off; when it succeeds the second message is a message of the model
    with the response and without the error flag. *)
Theorem handleSendMessage_two_messages (g : GeminiService.t) (text : string)
    (now0 : Z) (reply : GeminiService.Reply) (now1 : Z) (s : State) :
  let s' := handleSendMessage g text now0 reply now1 s in
  (forall reason, GeminiService.sendMessage g text reply = Rejected reason ->
     exists u m,
       messages s' = (messages s ++ [u; m])%list
       /\ ChatMessage.role u = user /\ ChatMessage.text u = text
       /\ ChatMessage.role m = model /\ ChatMessage.isError m = Some true
       /\ isProcessing s' = false)
  /\ (forall responseText, GeminiService.sendMessage g text reply = Resolved responseText ->
     exists u m,
       messages s' = (messages s ++ [u; m])%list
       /\ ChatMessage.role u = user /\ ChatMessage.text u = text
       /\ ChatMessage.role m = model /\ ChatMessage.text m = responseText
       /\ ChatMessage.isError m = None
       /\ isProcessing s' = false).
Proof.
  intros s'. subst s'. unfold handleSendMessage. split.
  - intros reason ->. exists (userMsg text now0), (errorMsg now1).
    unfold handleSendMessage_settle, handleSendMessage_begin. simpl.
    rewrite <- app_assoc. simpl. repeat split; reflexivity.
  - intros responseText ->. exists (userMsg text now0), (modelMsg responseText now1).
    unfold handleSendMessage_settle, handleSendMessage_begin. simpl.
    rewrite <- app_assoc. simpl. repeat split; reflexivity.
Qed.

Lemma handleSendMessage_two_messages_witness :
  let g := {| GeminiService.ai := true; GeminiService.chatSession := true |} in
  let s' := handleSendMessage g "hello" 1 (GeminiService.Throws "network") 2 initial in
  exists u m,
    messages s' = (messages initial ++ [u; m])%list
    /\ ChatMessage.role u = user /\ ChatMessage.text u = "hello"
    /\ ChatMessage.role m = model /\ ChatMessage.isError m = Some true
    /\ isProcessing s' = false.
Proof.
  intros g s'.
  exact (proj1 (handleSendMessage_two_messages g "hello" 1 (GeminiService.Throws "network")
                  2 initial) "network" eq_refl).
Defined.

End AppFacts.

(** ** The canvas editor *)

Module EditorFacts.
Import Editor EditorSpec.

(** A release that ends a drag, and no link, saves the cards and the
    connections of the editor as they are after the gesture. *)
Lemma drag_release_saved (now : Z) (props : Props) (r : State)
    (asset : GeneratedAsset.t) :
  isDragging r = true ->
  isDrawingLine r = false ->
  generatedAsset props = Some asset ->
  saved (fst (release now props r)) (snd (release now props r)).
Proof.
  intros Hdrag Hline Hasset. unfold release, handleContainerMouseUp, saveState.
  rewrite Hdrag, Hline, Hasset.
  destruct (lineStartNodeId r); simpl; eexists; repeat split; reflexivity.
Qed.

(** A release that ends a link-draw saves the connections of the render
    in which the handler was created: the list without the connection the
    handler has just added. *)
Lemma link_release_stale (now : Z) (props : Props) (r : State)
    (asset : GeneratedAsset.t) (start : string) :
  isDrawingLine r = true ->
  lineStartNodeId r = Some start ->
  start <> EmptyString ->
  generatedAsset props = Some asset ->
  connections (fst (release now props r))
  = (connections r ++ [newConnection now start r])%list
  /\ exists a,
       snd (release now props r) = Some a
       /\ GeneratedAsset.connections a = Some (connections r)
       /\ ~ saved (fst (release now props r)) (snd (release now props r)).
Proof.
  intros Hline Hstart Hne Hasset.
  assert (Htruthy : truthy start = true).
  { unfold truthy. apply String.eqb_neq in Hne. now rewrite Hne. }
  unfold release, handleContainerMouseUp, saveState.
  rewrite Hline, Hstart, Htruthy, Hasset.
  destruct (isDragging r); simpl.
  all: split; [reflexivity|]; eexists; split; [reflexivity|]; split; [reflexivity|].
  all: intros (a & Ha & _ & Hconn); injection Ha as <-; simpl in Hconn;
    injection Hconn as Hconn;
    apply (f_equal (@length _)) in Hconn; rewrite length_app in Hconn;
    simpl in Hconn; lia.
Qed.

(** C3 fails for the link-draw: on the release that completes a link the
    editor has one connection, the parent is given none, and the effect
    that follows the update of the parent takes the connection away from
    the editor again. *)
Theorem link_release_not_saved :
  connections (fst (release 1700000000000 sample_props drawing))
  = [ {| DiagramConnection.id := "conn-1700000000000";
         DiagramConnection.fromNodeId := "node-1-0";
         DiagramConnection.toX := 300;
         DiagramConnection.toY := 200 |} ]
  /\ snd (release 1700000000000 sample_props drawing)
     = Some {| GeneratedAsset.svg := None;
               GeneratedAsset.background := None;
               GeneratedAsset.nodes := Some [sample_node];
               GeneratedAsset.connections := Some [] |}
  /\ ~ saved (fst (release 1700000000000 sample_props drawing))
             (snd (release 1700000000000 sample_props drawing))
  /\ connections (afterRelease 1700000000000 sample_props drawing) = [].
Proof.
  repeat split; try (vm_compute; reflexivity).
  intros (a & Ha & _ & Hconn). vm_compute in Ha. injection Ha as <-.
  vm_compute in Hconn. discriminate Hconn.
Qed.

(** The same release after a drag saves the moved card. *)
Example drag_release_saves_moved_card :
  saved (fst (release 1700000000000 sample_props dragging))
        (snd (release 1700000000000 sample_props dragging))
  /\ nodes (fst (release 1700000000000 sample_props dragging))
     = [ {| DiagramNode.id := "node-1-0"; DiagramNode.title := "Model";
            DiagramNode.content := "Core"; DiagramNode.x := 290; DiagramNode.y := 195 |} ].
Proof.
  split.
  - apply (drag_release_saved 1700000000000 sample_props dragging
             {| GeneratedAsset.svg := None;
                GeneratedAsset.background := None;
                GeneratedAsset.nodes := Some [sample_node];
                GeneratedAsset.connections := Some [] |}); reflexivity.
  - vm_compute. reflexivity.
Qed.

(** The update the handler itself makes: a mouse-up while a link is
    drawn from a selected card sets the list to the one of its render with
    one connection added at the end, from that card to the position of the
    mouse, and resets the drawing state; after any other operation of the
    editor every connection of the list was in the list before, or, for
    the effect, in the asset the parent passes. *)
Lemma link_release_update (now : Z) (props : Props) (r : State)
    (start : string) :
  isDrawingLine r = true ->
  lineStartNodeId r = Some start ->
  start <> EmptyString ->
  (let s := fst (handleContainerMouseUp now props r) in
   exists c,
     connections s = (connections r ++ [c])%list
     /\ DiagramConnection.fromNodeId c = start
     /\ DiagramConnection.toX c = px (mousePos r)
     /\ DiagramConnection.toY c = py (mousePos r)
     /\ isDrawingLine s = false
     /\ lineStartNodeId s = None)
  /\ (forall op props' r',
        completesLink op r' = false ->
        forall c, In c (connections (fst (perform op props' r'))) ->
          In c (connections r')
          \/ (op = Sync
              /\ exists asset l,
                   generatedAsset props' = Some asset
                   /\ GeneratedAsset.connections asset = Some l /\ In c l)).
Proof.
  intros Hline Hstart Hne.
  assert (Htruthy : truthy start = true).
  { unfold truthy. apply String.eqb_neq in Hne. now rewrite Hne. }
  split.
  - unfold handleContainerMouseUp. rewrite Hline, Hstart, Htruthy.
    exists (newConnection now start r).
    destruct (isDragging r); simpl; repeat split; reflexivity.
  - clear. intros op props r Hnot c Hc.
    destruct op; simpl in Hc, Hnot.
    all: try (left; exact Hc).
    + unfold handleCardMouseDown in Hc.
      destruct (isDrawingLine r), containerRect; left; exact Hc.
    + unfold handleContainerMouseMove in Hc.
      destruct containerRect; [|left; exact Hc].
      destruct (isDragging r && App.truthy_opt (selectedNodeId r))%bool; left; exact Hc.
    + unfold handleContainerMouseUp in Hc.
      destruct (lineStartNodeId r) as [start|]; simpl in Hnot.
      * destruct (isDrawingLine r); simpl in Hnot, Hc.
        -- rewrite Hnot in Hc. destruct (isDragging r); left; exact Hc.
        -- destruct (isDragging r); left; exact Hc.
      * destruct (isDragging r); left; exact Hc.
    + unfold updateSelectedNode in Hc.
      destruct (negb (App.truthy_opt (selectedNodeId r))); left; exact Hc.
    + unfold startConnection in Hc. destruct containerRect; left; exact Hc.
    + left. apply filter_In in Hc. exact (proj1 Hc).
    + unfold syncEffect in Hc.
      destruct (generatedAsset props) as [asset|] eqn:Hasset; [|left; exact Hc].
      destruct (GeneratedAsset.connections asset) as [l|] eqn:Hl.
      * right. split; [reflexivity|]. exists asset, l.
        destruct (GeneratedAsset.nodes asset); repeat split; assumption.
      * destruct (GeneratedAsset.nodes asset); left; exact Hc.
Qed.

(** The render after the release of a link: the parent was handed the
    lists of before the gesture, and the effect puts them back. *)
Lemma link_release_restores (now : Z) (props : Props) (r : State)
    (asset : GeneratedAsset.t) (start : string) :
  isDrawingLine r = true ->
  lineStartNodeId r = Some start ->
  start <> EmptyString ->
  generatedAsset props = Some asset ->
  connections (afterRelease now props r) = connections r
  /\ nodes (afterRelease now props r) = nodes r
  /\ isDrawingLine (afterRelease now props r) = false
  /\ lineStartNodeId (afterRelease now props r) = None.
Proof.
  intros Hline Hstart Hne Hasset.
  assert (Htruthy : truthy start = true).
  { unfold truthy. apply String.eqb_neq in Hne. now rewrite Hne. }
  unfold afterRelease, handleContainerMouseUp, saveState.
  rewrite Hline, Hstart, Htruthy, Hasset.
  destruct (isDragging r); simpl; repeat split; reflexivity.
Qed.

(** C4 fails on the code: the release that completes the link drawn from
    the card to (300, 200) does add the connection in the handler, but
    the save it makes hands the parent the list of before, and in the
    render that follows the effect sets the list of the editor back: the
    gesture has appended no connection. *)
Theorem link_completion_lost :
  completesLink (ContainerMouseUp 1700000000000) drawing = true
  /\ connections drawing = []
  /\ connections (fst (perform (ContainerMouseUp 1700000000000) sample_props drawing))
     = [ {| DiagramConnection.id := "conn-1700000000000";
            DiagramConnection.fromNodeId := "node-1-0";
            DiagramConnection.toX := 300;
            DiagramConnection.toY := 200 |} ]
  /\ updatesAsset (snd (perform (ContainerMouseUp 1700000000000) sample_props drawing))
     = true
  /\ connections (afterRelease 1700000000000 sample_props drawing) = []
  /\ isDrawingLine (afterRelease 1700000000000 sample_props drawing) = false
  /\ lineStartNodeId (afterRelease 1700000000000 sample_props drawing) = None.
Proof. repeat split; vm_compute; reflexivity. Qed.

End EditorFacts.

(** ** More on the gateway *)

Module GeminiMoreFacts.
Import GeminiService GeminiServiceSpec GeminiImage GeminiImageSpec.

Lemma generatedNodeId_nonempty (e : Entropy) : generatedNodeId e <> EmptyString.
Proof. unfold generatedNodeId. simpl. discriminate. Qed.

(** X1. Every node [refineNodes] returns has an identifier that is not
    empty, whatever the current nodes and the response are. *)
Theorem refineNodes_ids_nonempty
    (parse : string -> option RefineJson) (g : t) (currentNodes : list DiagramNode.t)
    (instruction : string) (reply : Reply) (entropy : nat -> Entropy)
    (out : list DiagramNode.t) :
  refineNodes parse g currentNodes instruction reply entropy = Resolved out ->
  ids_nonempty out.
Proof.
  unfold refineNodes. destruct (negb (ai g)); [discriminate|].
  destruct reply as [err | response_text]; [discriminate|].
  destruct (parse _) as [json|]; [|discriminate].
  intros [= <-] r Hr. apply GeminiServiceFacts.in_mapi_from in Hr. destruct Hr as (j & n & _ & ->).
  unfold mergeNode. cbn [DiagramNode.id].
  unfold or_else. destruct (r_id n) as [nid|]; [|apply generatedNodeId_nonempty].
  unfold truthy. destruct (String.eqb_spec nid EmptyString) as [-> | Hne]; simpl.
  - apply generatedNodeId_nonempty.
  - exact Hne.
Qed.

Lemma refineNodes_ids_nonempty_witness :
  ids_nonempty
    [ {| DiagramNode.id := "node-1700000000000-0.5"; DiagramNode.title := "new";
         DiagramNode.content := EmptyString; DiagramNode.x := 10; DiagramNode.y := 20 |} ].
Proof.
  apply (refineNodes_ids_nonempty empty_id_parse ready empty_id_nodes "rename"
           (Replies (Some "{}")) sample_entropy).
  vm_compute. reflexivity.
Defined.

(** With identifiers that differ, the lookup of a current node by its own
    identifier finds that node. *)
Lemma find_own_id (l : list DiagramNode.t) (c : DiagramNode.t) :
  NoDup (map DiagramNode.id l) -> In c l ->
  find (fun cn => (DiagramNode.id cn =? DiagramNode.id c)%string) l = Some c.
Proof.
  induction l as [|a l IH]; simpl; [intros _ []|].
  intros Hnd Hin. inversion Hnd as [|? ? Hnotin Hnd']; subst.
  destruct Hin as [-> | Hin].
  - now rewrite String.eqb_refl.
  - destruct (String.eqb_spec (DiagramNode.id a) (DiagramNode.id c)) as [Heq | _].
    + elim Hnotin. rewrite Heq. apply in_map. exact Hin.
    + exact (IH Hnd' Hin).
Qed.

Lemma mapi_from_echo (currentNodes l : list DiagramNode.t) (entropy : nat -> Entropy)
    (i : nat) :
  NoDup (map DiagramNode.id currentNodes) ->
  ids_nonempty currentNodes ->
  incl l currentNodes ->
  mapi_from i (mergeNode currentNodes entropy) (map echo l) = l.
Proof.
  intros Hnd Hne. revert i. induction l as [|c l IH]; simpl; intros i Hincl;
    [reflexivity|].
  rewrite IH by (intros q Hq; apply Hincl; right; exact Hq).
  f_equal. unfold mergeNode, echo. cbn [r_id r_title r_content].
  assert (Hc : In c currentNodes) by (apply Hincl; left; reflexivity).
  rewrite (find_own_id currentNodes c Hnd Hc).
  unfold or_else, truthy.
  pose proof (Hne c Hc) as Hid. apply String.eqb_neq in Hid. rewrite Hid. simpl.
  destruct c; reflexivity.
Qed.

(** X2. A response that echoes the current nodes gives the current nodes
    back, positions included, when their identifiers differ and are not
    empty. *)
Theorem refineNodes_echo
    (parse : string -> option RefineJson) (g : t) (currentNodes : list DiagramNode.t)
    (instruction : string) (response_text : option string) (entropy : nat -> Entropy) :
  ai g = true ->
  parse (or_else response_text "{}")
  = Some {| json_nodes := Some (map echo currentNodes) |} ->
  NoDup (map DiagramNode.id currentNodes) ->
  ids_nonempty currentNodes ->
  refineNodes parse g currentNodes instruction (Replies response_text) entropy
  = Resolved currentNodes.
Proof.
  intros Hai Hparse Hnd Hne. unfold refineNodes. rewrite Hai, Hparse. simpl.
  unfold mapi. rewrite (mapi_from_echo currentNodes currentNodes entropy 0 Hnd Hne).
  - reflexivity.
  - apply incl_refl.
Qed.

Lemma refineNodes_echo_witness :
  refineNodes (fun _ => Some {| json_nodes := Some (map echo sample_nodes) |})
    ready sample_nodes "keep" (Replies None) sample_entropy
  = Resolved sample_nodes.
Proof.
  apply (refineNodes_echo (fun _ => Some {| json_nodes := Some (map echo sample_nodes) |})
           ready sample_nodes "keep" None sample_entropy).
  - reflexivity.
  - reflexivity.
  - simpl. constructor; [intros [] | constructor].
  - intros c [<- | []]. simpl. discriminate.
Defined.

(** *** Rendering of integers *)

Lemma uint_no_dash (d : Decimal.uint) : no_dash (NilEmpty.string_of_uint d) = true.
Proof. induction d; simpl; auto. Qed.

Lemma Z_to_string_no_dash (z : Z) : 0 <= z -> no_dash (Z_to_string z) = true.
Proof.
  intros Hz. destruct z as [|p|p]; [reflexivity| |lia].
  unfold Z_to_string. simpl. unfold NilZero.string_of_uint.
  destruct (Pos.to_uint p); try reflexivity; apply (uint_no_dash (_ _)).
Qed.

Lemma Z_to_string_inj (a b : Z) : Z_to_string a = Z_to_string b -> a = b.
Proof.
  unfold Z_to_string. intros H. apply DecimalZ.to_int_inj.
  assert (Hn : forall z, Z.to_int z <> Decimal.Pos Decimal.Nil
                         /\ Z.to_int z <> Decimal.Neg Decimal.Nil).
  { intros [|p|p]; simpl; split; try discriminate; intros [= Hp];
      exact (Unsigned.to_uint_nonnil p Hp). }
  apply (f_equal NilZero.int_of_string) in H.
  rewrite !NilZero.isi in H by apply Hn. now injection H.
Qed.

Lemma split_at_dash (s1 s2 t1 t2 : string) :
  no_dash s1 = true -> no_dash s2 = true ->
  (s1 ++ String "-" t1 = s2 ++ String "-" t2)%string -> s1 = s2 /\ t1 = t2.
Proof.
  revert s2. induction s1 as [|c s1 IH]; intros [|c2 s2]; simpl; intros H1 H2 Heq.
  - injection Heq as ->. split; reflexivity.
  - injection Heq as <- _. apply andb_prop in H2. destruct H2 as [H2 _]. discriminate H2.
  - injection Heq as -> _. apply andb_prop in H1. destruct H1 as [H1 _]. discriminate H1.
  - injection Heq as -> Heq. apply andb_prop in H1. apply andb_prop in H2.
    destruct (IH s2 (proj2 H1) (proj2 H2) Heq) as [-> ->]. split; reflexivity.
Qed.

(** *** Generation *)

Lemma nth_error_mapi_from {A B : Type} (f : nat -> A -> B) (l : list A) (i k : nat) (b : B) :
  nth_error (mapi_from i f l) k = Some b ->
  exists a, nth_error l k = Some a /\ b = f (i + k)%nat a.
Proof.
  revert i k. induction l as [|a l IH]; intros i [|k]; simpl; try discriminate.
  - intros [= <-]. exists a. split; [reflexivity|]. now rewrite Nat.add_0_r.
  - intros H. destruct (IH (S i) k H) as (a' & Ha' & ->).
    exists a'. split; [exact Ha'|]. f_equal. lia.
Qed.

(** The layout puts no two cards of a generation at one position: the
    column gives the index modulo 3 and the row the quotient. *)
Lemma layout_injective (entropy : nat -> Entropy) (i j : nat) (n m : GeneratedNode) :
  DiagramNode.x (layoutNode entropy i n) = DiagramNode.x (layoutNode entropy j m) ->
  DiagramNode.y (layoutNode entropy i n) = DiagramNode.y (layoutNode entropy j m) ->
  i = j.
Proof.
  unfold layoutNode. cbn [DiagramNode.x DiagramNode.y]. intros Hx Hy.
  assert (Hmod : (i mod 3 = j mod 3)%nat).
  { remember (i mod 3)%nat as a. remember (j mod 3)%nat as b. clear -Hx. lia. }
  assert (Hdiv : (i / 3 = j / 3)%nat).
  { remember (i / 3)%nat as a. remember (j / 3)%nat as b. clear -Hy. lia. }
  rewrite (Nat.div_mod_eq i 3), (Nat.div_mod_eq j 3). now rewrite Hmod, Hdiv.
Qed.

(** X3. The cards of a generation whose node text parses lie on a grid of
    three columns, 200 apart from x = 50, in rows 150 apart from y = 50,
    and no two of them lie at one position. *)
Theorem generated_cards_on_grid
    (parse : string -> option GenerateJson) (response_text : option string)
    (entropy : nat -> Entropy) (json : GenerateJson) :
  parse (or_else response_text "{}") = Some json ->
  let out := generatedNodes parse response_text entropy in
  (forall k c, nth_error out k = Some c ->
     DiagramNode.x c = 50 + 200 * Z.of_nat (k mod 3)
     /\ DiagramNode.y c = 50 + 150 * Z.of_nat (k / 3))
  /\ (forall k l c d, nth_error out k = Some c -> nth_error out l = Some d ->
        DiagramNode.x c = DiagramNode.x d -> DiagramNode.y c = DiagramNode.y d -> k = l).
Proof.
  intros Hparse out. subst out. unfold generatedNodes. rewrite Hparse. unfold mapi.
  split.
  - intros k c Hc. apply nth_error_mapi_from in Hc. destruct Hc as (n & _ & ->).
    unfold layoutNode. cbn [DiagramNode.x DiagramNode.y Nat.add].
    split; [generalize (Z.of_nat (k mod 3)) | generalize (Z.of_nat (k / 3))];
      intros; lia.
  - intros k l c d Hc Hd Hx Hy.
    apply nth_error_mapi_from in Hc. destruct Hc as (n & _ & ->).
    apply nth_error_mapi_from in Hd. destruct Hd as (m & _ & ->).
    exact (layout_injective entropy k l n m Hx Hy).
Qed.

Lemma generated_cards_on_grid_witness :
  let out := generatedNodes two_nodes None sample_entropy in
  (forall k c, nth_error out k = Some c ->
     DiagramNode.x c = 50 + 200 * Z.of_nat (k mod 3)
     /\ DiagramNode.y c = 50 + 150 * Z.of_nat (k / 3))
  /\ (forall k l c d, nth_error out k = Some c -> nth_error out l = Some d ->
        DiagramNode.x c = DiagramNode.x d -> DiagramNode.y c = DiagramNode.y d -> k = l).
Proof.
  exact (generated_cards_on_grid two_nodes None sample_entropy
           {| gen_nodes := Some [ {| g_title := "Model"; g_content := "Core" |};
                                  {| g_title := "Tools"; g_content := "Actions" |} ] |}
           eq_refl).
Defined.

Lemma layout_id_injective (entropy : nat -> Entropy) (i j : nat) (n m : GeneratedNode) :
  clock_nonnegative entropy ->
  DiagramNode.id (layoutNode entropy i n) = DiagramNode.id (layoutNode entropy j m) ->
  i = j.
Proof.
  intros Hclock. unfold layoutNode. cbn [DiagramNode.id]. simpl. intros Heq.
  injection Heq as Heq.
  apply split_at_dash in Heq; try (apply Z_to_string_no_dash; apply Hclock).
  destruct Heq as [_ Heq]. apply Z_to_string_inj in Heq. lia.
Qed.

Lemma NoDup_mapi_from_layout (entropy : nat -> Entropy) (l : list GeneratedNode) (i : nat) :
  clock_nonnegative entropy ->
  NoDup (map DiagramNode.id (mapi_from i (layoutNode entropy) l))
  /\ forall c, In c (mapi_from i (layoutNode entropy) l) ->
       exists j n, (i <= j)%nat /\ c = layoutNode entropy j n.
Proof.
  intros Hclock. revert i. induction l as [|a l IH]; simpl; intros i.
  - split; [constructor | intros c []].
  - destruct (IH (S i)) as [Hnd Hin]. split.
    + constructor; [|exact Hnd]. intros Hdup. apply in_map_iff in Hdup.
      destruct Hdup as (c & Hid & Hc). destruct (Hin c Hc) as (j & n & Hj & ->).
      apply (layout_id_injective entropy j i n a Hclock) in Hid. lia.
    + intros c [<- | Hc].
      * exists i, a. split; [lia | reflexivity].
      * destruct (Hin c Hc) as (j & n & Hj & ->). exists j, n. split; [lia | reflexivity].
Qed.

(** X4. With a clock that does not read below zero, the cards of a
    generation have identifiers that are not empty and that differ from
    one another, so they meet the conditions under which a refinement
    keeps positions. *)
Theorem generated_cards_identified
    (parse : string -> option GenerateJson) (response_text : option string)
    (entropy : nat -> Entropy) :
  clock_nonnegative entropy ->
  let out := generatedNodes parse response_text entropy in
  NoDup (map DiagramNode.id out) /\ ids_nonempty out /\ positions_agree out.
Proof.
  intros Hclock out.
  assert (Hnd : NoDup (map DiagramNode.id out)).
  { subst out. unfold generatedNodes. destruct (parse _) as [json|].
    - apply (NoDup_mapi_from_layout entropy _ 0 Hclock).
    - simpl. constructor; [intros [] | constructor]. }
  split; [exact Hnd|]. split.
  - subst out. unfold generatedNodes. destruct (parse _) as [json|].
    + intros c Hc. apply GeminiServiceFacts.in_mapi_from in Hc.
      destruct Hc as (j & n & _ & ->). simpl. discriminate.
    + intros c [<- | []]. simpl. discriminate.
  - intros c1 c2 H1 H2 Hid.
    assert (c1 = c2); [|subst; split; reflexivity].
    clear -Hnd H1 H2 Hid. induction out as [|a out IH]; [destruct H1|].
    simpl in Hnd. inversion Hnd as [|? ? Hnotin Hnd']; subst.
    destruct H1 as [-> | H1], H2 as [-> | H2].
    + reflexivity.
    + elim Hnotin. rewrite Hid. apply in_map. exact H2.
    + elim Hnotin. rewrite <- Hid. apply in_map. exact H1.
    + exact (IH Hnd' H1 H2).
Qed.

Lemma generated_cards_identified_witness :
  let out := generatedNodes two_nodes None sample_entropy in
  NoDup (map DiagramNode.id out) /\ ids_nonempty out /\ positions_agree out.
Proof.
  apply (generated_cards_identified two_nodes None sample_entropy).
  intros i. simpl. lia.
Defined.

End GeminiMoreFacts.

(** ** Handlers run against the gateway *)

Module AppRunsFacts.
Import App AppRuns AppRunsSpec.

Lemma firstInlineData_cons (p : GeminiImage.Part) (ps : list GeminiImage.Part) :
  GeminiImage.firstInlineData (p :: ps)
  = match GeminiImageSpec.partData p with
    | Some d => Some d
    | None => GeminiImage.firstInlineData ps
    end.
Proof.
  unfold GeminiImageSpec.partData. simpl.
  destruct (GeminiImage.inlineData p) as [inline|]; [|reflexivity].
  destruct (GeminiImage.data inline) as [d|]; [|reflexivity].
  destruct (truthy d); reflexivity.
Qed.

Lemma partData_nonempty (p : GeminiImage.Part) (d : string) :
  GeminiImageSpec.partData p = Some d -> d <> EmptyString.
Proof.
  unfold GeminiImageSpec.partData.
  destruct (GeminiImage.inlineData p) as [inline|]; [|discriminate].
  destruct (GeminiImage.data inline) as [d'|]; [|discriminate].
  destruct (truthy d') eqn:Ht; [|discriminate]. intros [= <-].
  unfold truthy in Ht. apply negb_true_iff in Ht. now apply String.eqb_neq.
Qed.

(** The first truthy inline data of the parts. *)
Lemma firstInlineData_first (ps : list GeminiImage.Part) (d : string) :
  GeminiImage.firstInlineData ps = Some d ->
  d <> EmptyString
  /\ exists l1 p l2,
       ps = (l1 ++ p :: l2)%list
       /\ GeminiImageSpec.partData p = Some d
       /\ forall q, In q l1 -> GeminiImageSpec.partData q = None.
Proof.
  induction ps as [|p ps IH]; [discriminate|].
  rewrite firstInlineData_cons.
  destruct (GeminiImageSpec.partData p) as [d'|] eqn:Hp.
  - intros [= <-]. split; [exact (partData_nonempty p d' Hp)|].
    exists [], p, ps. repeat split; [exact Hp | intros q []].
  - intros H. destruct (IH H) as (Hd & l1 & p' & l2 & -> & Hp' & Hl1).
    split; [exact Hd|]. exists (p :: l1), p', l2. repeat split; [exact Hp'|].
    intros q [<- | Hq]; [exact Hp | exact (Hl1 q Hq)].
Qed.

Lemma firstInlineData_none (ps : list GeminiImage.Part) :
  GeminiImage.firstInlineData ps = None <->
  forall q, In q ps -> GeminiImageSpec.partData q = None.
Proof.
  induction ps as [|p ps IH].
  - split; [intros _ q [] | reflexivity].
  - rewrite firstInlineData_cons.
    destruct (GeminiImageSpec.partData p) as [d|] eqn:Hp.
    + split; [discriminate|]. intros H. rewrite (H p (or_introl eq_refl)) in Hp.
      discriminate Hp.
    + rewrite IH. split.
      * intros H q [<- | Hq]; [exact Hp | exact (H q Hq)].
      * intros H q Hq. exact (H q (or_intror Hq)).
Qed.

(** X5. When [refineBackground] resolves, its result is not empty and is the
    inline data of the first part of the first candidate that has some;
    when the parts have none it rejects with its own message. *)
Theorem refineBackground_first_image (g : GeminiService.t)
    (previousImageBase64 instruction : string) (ps : list GeminiImage.Part) :
  GeminiService.ai g = true ->
  let r := GeminiImage.refineBackground g previousImageBase64 instruction
             (GeminiImage.ImageReplies (GeminiImageSpec.imageResponse ps)) in
  (forall d, r = Resolved d ->
     d <> EmptyString
     /\ exists l1 p l2,
          ps = (l1 ++ p :: l2)%list
          /\ GeminiImageSpec.partData p = Some d
          /\ forall q, In q l1 -> GeminiImageSpec.partData q = None)
  /\ ((forall q, In q ps -> GeminiImageSpec.partData q = None) ->
      r = Rejected "No image data found in response").
Proof.
  intros Hai r. subst r. unfold GeminiImage.refineBackground. rewrite Hai. simpl.
  split.
  - intros d. destruct (GeminiImage.firstInlineData ps) as [d'|] eqn:Hfirst;
      [|discriminate].
    intros [= <-]. exact (firstInlineData_first ps d' Hfirst).
  - intros Hnone. apply firstInlineData_none in Hnone. now rewrite Hnone.
Qed.

Lemma refineBackground_first_image_witness :
  let ps := [GeminiImageSpec.textPart; GeminiImageSpec.imagePart "AAAA";
             GeminiImageSpec.imagePart "BBBB"] in
  GeminiImage.refineBackground GeminiServiceSpec.ready "old" "bluer"
    (GeminiImage.ImageReplies (GeminiImageSpec.imageResponse ps)) = Resolved "AAAA"
  /\ "AAAA" <> EmptyString.
Proof.
  intros ps. split; [reflexivity|].
  exact (proj1 (proj1 (refineBackground_first_image GeminiServiceSpec.ready "old" "bluer"
                         ps eq_refl) "AAAA" eq_refl)).
Defined.

(** The texts the gateway resolves to are never empty: a response
    without text is replaced by a placeholder. *)
Lemma resolved_texts_nonempty (g : GeminiService.t) (pages : list DocumentPage.t)
    (message : string) (reply : GeminiService.Reply) (t : string) :
  (GeminiService.sendMessage g message reply = Resolved t -> t <> EmptyString)
  /\ (fst (GeminiService.initializeChat g pages reply) = Resolved t -> t <> EmptyString)
  /\ (GeminiImage.extractTextFromPages g pages reply = Resolved t -> t <> EmptyString).
Proof.
  unfold GeminiService.sendMessage, GeminiService.initializeChat,
    GeminiImage.extractTextFromPages.
  repeat split.
  - destruct (negb (GeminiService.chatSession g)); [discriminate|].
    destruct reply; [discriminate|]. intros [= <-].
    apply GeminiServiceFacts.or_else_truthy. discriminate.
  - destruct (negb (GeminiService.ai g)); [discriminate|].
    destruct reply; [discriminate|]. simpl. intros [= <-].
    apply GeminiServiceFacts.or_else_truthy. discriminate.
  - destruct (negb (GeminiService.ai g)); [discriminate|].
    destruct reply; [discriminate|]. intros [= <-].
    apply GeminiServiceFacts.or_else_truthy. discriminate.
Qed.

(** X6. A chat turn run to its end appends the message of the user, with
    the text as it was given, and after it one message of the model whose
    text is not empty: when the response has no text it is the
    placeholder of the gateway.  Every message an analysis puts in the
    transcript is a message of the model with a text that is not empty. *)
Theorem model_messages_have_text (g : GeminiService.t) (text : string) (now0 : Z)
    (reply : GeminiService.Reply) (now1 : Z) (s : State) :
  (exists m,
      messages (handleSendMessage g text now0 reply now1 s)
      = (messages s ++ [userMsg text now0; m])%list
      /\ ChatMessage.role m = model
      /\ ChatMessage.text m <> EmptyString
      /\ ChatMessage.timestamp m = now1
      /\ (GeminiService.chatSession g = true ->
          reply = GeminiService.Replies None ->
          ChatMessage.text m = "I couldn't generate a response."))
  /\ (forall m, In m (messages (fst (startAnalysis g reply now1 s))) ->
        In m (messages s)
        \/ (ChatMessage.role m = model /\ ChatMessage.text m <> EmptyString)).
Proof.
  split.
  - unfold handleSendMessage, handleSendMessage_settle, handleSendMessage_begin.
    destruct (GeminiService.sendMessage g text reply) as [t | reason] eqn:Hsend; simpl;
      rewrite <- app_assoc; simpl; eexists; (split; [reflexivity|]).
    + split; [reflexivity|]. simpl. split; [|split; [reflexivity|]].
      * exact (proj1 (resolved_texts_nonempty g [] text reply t) Hsend).
      * intros Hsession ->. unfold GeminiService.sendMessage in Hsend.
        rewrite Hsession in Hsend. simpl in Hsend. injection Hsend as <-. reflexivity.
    + split; [reflexivity|]. simpl. split; [discriminate|]. split; [reflexivity|].
      intros Hsession ->. unfold GeminiService.sendMessage in Hsend.
      rewrite Hsession in Hsend. discriminate Hsend.
  - intros m. unfold startAnalysis, startAnalysis_begin.
    destruct (pages s) as [|p ps] eqn:Hpages; simpl; [intros Hm; left; exact Hm|].
    destruct (GeminiService.initializeChat g (p :: ps) reply) as [r g'] eqn:Hinit.
    destruct r as [t | reason]; simpl.
    + intros [<- | []]. right. split; [reflexivity|]. simpl.
      apply (proj1 (proj2 (resolved_texts_nonempty g (p :: ps) text reply t))).
      now rewrite Hinit.
    + intros Hm. left. exact Hm.
Qed.

Lemma model_messages_have_text_witness :
  exists m,
    In m (messages (fst (startAnalysis GeminiServiceSpec.ready
                           (GeminiService.Replies (Some "summary")) 5 with_page)))
    /\ (In m (messages with_page)
        \/ (ChatMessage.role m = model /\ ChatMessage.text m <> EmptyString)).
Proof.
  eexists. split; [left; reflexivity|].
  apply (proj2 (model_messages_have_text GeminiServiceSpec.ready EmptyString 0
                  (GeminiService.Replies (Some "summary")) 5 with_page)).
  left. reflexivity.
Defined.


(** On records the analysis is the one of the gateway: when the parser
    never returns [null], what it resolves to is the record. *)
Lemma analyzeForDiagram_records (parse : string -> option AgentDiagramData.t)
    (g : GeminiService.t) (pages : list DocumentPage.t) (reply : GeminiService.Reply) :
  GeminiJson.analyzeForDiagram (fun txt => option_map Some (parse txt)) g pages reply
  = match GeminiService.analyzeForDiagram parse g pages reply with
    | Resolved data => Resolved (Some data)
    | Rejected err => Rejected err
    end.
Proof.
  unfold GeminiJson.analyzeForDiagram, GeminiService.analyzeForDiagram.
  destruct (negb (GeminiService.ai g)); [reflexivity|].
  destruct reply as [err | [txt|]]; try reflexivity.
  destruct (negb (truthy txt)); [reflexivity|].
  destruct (parse txt); reflexivity.
Qed.

(** X7. With a client and at least one page, [handleGenerateDiagram] always
    ends with the flag of the overlay on and its busy flag off.  When the
    request throws, the response has no text or the text does not parse,
    it stores the fallback record and the overlay is rendered; otherwise
    it stores what the parser returned, so for [null] it stores [null]
    and the overlay is not rendered.  Without pages it does nothing. *)
Theorem handleGenerateDiagram_stores_parsed
    (parse : string -> option (option AgentDiagramData.t)) (g : GeminiService.t)
    (reply : GeminiService.Reply) (s : State) :
  (GeminiService.ai g = true -> pages s <> [] ->
   let s' := handleGenerateDiagram parse g reply s in
   showDiagram (tools s') = true
   /\ isGeneratingDiagram (tools s') = false
   /\ ((exists err, reply = GeminiService.Throws err)
       \/ reply = GeminiService.Replies None
       \/ reply = GeminiService.Replies (Some EmptyString)
       \/ (exists txt, reply = GeminiService.Replies (Some txt) /\ parse txt = None) ->
       diagramData (tools s') = Some GeminiService.fallbackDiagramData
       /\ diagramOverlay s' = true)
   /\ (forall txt v,
         reply = GeminiService.Replies (Some txt) -> txt <> EmptyString ->
         parse txt = Some v ->
         diagramData (tools s') = v /\ diagramOverlay s' = is_some v))
  /\ (pages s = [] -> handleGenerateDiagram parse g reply s = s).
Proof.
  split.
  - intros Hai Hpages s'. subst s'.
    unfold handleGenerateDiagram, handleGenerateDiagram_begin, diagramOverlay.
    destruct (pages s) as [|p ps] eqn:Hp; [elim Hpages; reflexivity|].
    unfold GeminiJson.analyzeForDiagram. rewrite Hai. cbn [negb].
    split; [|split; [|split]].
    + destruct reply as [err | [txt|]]; try reflexivity.
      destruct (negb (truthy txt)); [reflexivity|].
      destruct (parse txt); reflexivity.
    + destruct reply as [err | [txt|]]; try reflexivity.
      destruct (negb (truthy txt)); [reflexivity|].
      destruct (parse txt); reflexivity.
    + intros [[err ->] | [-> | [-> | (txt & -> & Hparse)]]]; try (split; reflexivity).
      rewrite Hparse. destruct (negb (truthy txt)); split; reflexivity.
    + intros txt v -> Hne Hparse.
      assert (Ht : truthy txt = true).
      { unfold truthy. apply String.eqb_neq in Hne. now rewrite Hne. }
      rewrite Ht, Hparse. cbn [negb]. split; reflexivity.
  - intros Hpages. unfold handleGenerateDiagram, handleGenerateDiagram_begin.
    rewrite Hpages. reflexivity.
Qed.

Lemma handleGenerateDiagram_stores_parsed_witness :
  let s' := handleGenerateDiagram (fun _ => Some None) GeminiServiceSpec.ready
              (GeminiService.Replies (Some "null")) with_page in
  showDiagram (tools s') = true
  /\ diagramData (tools s') = None
  /\ diagramOverlay s' = false.
Proof.
  intros s'.
  destruct (proj1 (handleGenerateDiagram_stores_parsed (fun _ => Some None)
                     GeminiServiceSpec.ready (GeminiService.Replies (Some "null"))
                     with_page) eq_refl ltac:(simpl; discriminate))
    as (Hshow & _ & _ & Hstored).
  destruct (Hstored "null" None eq_refl ltac:(discriminate) eq_refl) as [Hdata Hoverlay].
  split; [exact Hshow|]. split; [exact Hdata | exact Hoverlay].
Defined.

(** X9. After [handleExtractText] with a client and at least one page, the
    busy flag is off; when the request answers, the text stored is truthy,
    so the text panel opens even if the response had no text; when the
    request throws, the text stored before is kept. *)
Theorem handleExtractText_opens_panel (g : GeminiService.t)
    (reply : GeminiService.Reply) (s : State) :
  GeminiService.ai g = true -> pages s <> [] ->
  let s' := handleExtractText g reply s in
  isExtractingText (tools s') = false
  /\ (forall response_text, reply = GeminiService.Replies response_text ->
        truthy_opt (extractedText (tools s')) = true)
  /\ (forall err, reply = GeminiService.Throws err ->
        extractedText (tools s') = extractedText (tools s)).
Proof.
  intros Hai Hpages s'. subst s'. unfold handleExtractText, handleExtractText_begin.
  destruct (pages s) as [|p ps] eqn:Hp; [elim Hpages; reflexivity|].
  unfold GeminiImage.extractTextFromPages. rewrite Hai. simpl.
  destruct reply as [err | response_text]; simpl; repeat split; try discriminate.
  intros t [= <-]. unfold truthy.
  pose proof (GeminiServiceFacts.or_else_truthy response_text "No text found.") as Hne.
  apply negb_true_iff. apply String.eqb_neq. apply Hne. discriminate.
Qed.

Lemma handleExtractText_opens_panel_witness :
  let s' := handleExtractText GeminiServiceSpec.ready (GeminiService.Replies None)
              with_page in
  isExtractingText (tools s') = false
  /\ extractedText (tools s') = Some "No text found.".
Proof.
  split.
  - exact (proj1 (handleExtractText_opens_panel GeminiServiceSpec.ready
                    (GeminiService.Replies None) with_page eq_refl
                    ltac:(simpl; discriminate))).
  - reflexivity.
Defined.

(** X10. A refinement of the content replaces the cards of the asset and
    keeps its background and its connections; when the gateway rejects,
    the asset stays as it was; and when the response has no text, which
    is read as an empty object, the asset is left without any card. *)
Theorem refineContent_replaces_cards
    (parse : string -> option GeminiService.RefineJson) (g : GeminiService.t)
    (prompt : string) (reply : GeminiService.Reply)
    (entropy : nat -> GeminiService.Entropy) (s : State)
    (asset : GeneratedAsset.t) (cards : list DiagramNode.t) :
  generatedAsset s = Some asset ->
  GeneratedAsset.nodes asset = Some cards ->
  let s' := refineContent parse g prompt reply entropy s in
  isGeneratingImage s' = false
  /\ (forall out,
        GeminiService.refineNodes parse g cards prompt reply entropy = Resolved out ->
        exists asset',
          generatedAsset s' = Some asset'
          /\ GeneratedAsset.nodes asset' = Some out
          /\ GeneratedAsset.connections asset' = GeneratedAsset.connections asset
          /\ GeneratedAsset.background asset' = GeneratedAsset.background asset)
  /\ (forall reason,
        GeminiService.refineNodes parse g cards prompt reply entropy = Rejected reason ->
        generatedAsset s' = Some asset)
  /\ (GeminiService.ai g = true ->
      reply = GeminiService.Replies None ->
      parse "{}" = Some {| GeminiService.json_nodes := None |} ->
      exists asset',
        generatedAsset s' = Some asset' /\ GeneratedAsset.nodes asset' = Some []).
Proof.
  intros Hasset Hcards s'. subst s'.
  unfold refineContent, handleImageRefinement_begin. rewrite Hasset, Hcards.
  cbv iota beta. rewrite Hcards. unfold refineNodes_settle. repeat split.
  - destruct (GeminiService.refineNodes parse g cards prompt reply entropy); reflexivity.
  - intros out ->. eexists. split; [reflexivity|]. repeat split.
  - intros reason ->. simpl. exact Hasset.
  - intros Hai -> Hparse. unfold GeminiService.refineNodes. rewrite Hai. simpl.
    rewrite Hparse. simpl. eexists. split; reflexivity.
Qed.

Lemma refineContent_replaces_cards_witness :
  let s' := refineContent GeminiImageSpec.parse_empty_object GeminiServiceSpec.ready
              "shorter" (GeminiService.Replies None) GeminiServiceSpec.sample_entropy
              in_studio in
  exists asset',
    generatedAsset s' = Some asset'
    /\ GeneratedAsset.nodes asset' = Some []
    /\ GeneratedAsset.connections asset' = GeneratedAsset.connections sample_asset.
Proof.
  intros s'.
  destruct (refineContent_replaces_cards GeminiImageSpec.parse_empty_object
              GeminiServiceSpec.ready "shorter" (GeminiService.Replies None)
              GeminiServiceSpec.sample_entropy in_studio sample_asset
              GeminiServiceSpec.sample_nodes eq_refl eq_refl)
    as (_ & Hok & _ & _).
  destruct (Hok [] eq_refl) as (asset' & Ha & Hn & Hc & _).
  exists asset'. repeat split; assumption.
Defined.

(** X11. Whenever [handleImageGeneration] stores an asset, the asset has a
    list of cards and an empty list of connections; a node text that does
    not parse does not make the generation fail: the asset then has the
    one error card. *)
Theorem handleImageGeneration_asset
    (parse : string -> option GeminiImage.GenerateJson) (g : GeminiService.t)
    (prompt : string) (dataReply : GeminiService.Reply)
    (bgReply : GeminiImage.ImageReply) (entropy : nat -> GeminiService.Entropy)
    (s : State) :
  let s' := handleImageGeneration parse g prompt dataReply bgReply entropy s in
  (generatedAsset s' = generatedAsset s
   \/ exists asset cards,
        generatedAsset s' = Some asset
        /\ GeneratedAsset.nodes asset = Some cards
        /\ GeneratedAsset.connections asset = Some [])
  /\ (forall page response_text bgResponse bg,
        referencePage s = Some page ->
        GeminiService.ai g = true ->
        dataReply = GeminiService.Replies response_text ->
        bgReply = GeminiImage.ImageReplies bgResponse ->
        GeminiImage.imageData bgResponse = Resolved bg ->
        parse (or_else response_text "{}") = None ->
        generatedAsset s'
        = Some {| GeneratedAsset.svg := None;
                  GeneratedAsset.background := bg;
                  GeneratedAsset.nodes := Some [GeminiImage.errorNode];
                  GeneratedAsset.connections := Some [] |}).
Proof.
  intros s'. subst s'. unfold handleImageGeneration, handleImageGeneration_settle. split.
  - destruct (referencePage s) as [page|]; [|left; reflexivity].
    unfold GeminiImage.generateDiagramFromContent.
    destruct (negb (GeminiService.ai g)); [left; reflexivity|].
    destruct dataReply as [err | response_text]; [left; reflexivity|].
    destruct bgReply as [err | bgResponse]; [left; reflexivity|].
    destruct (GeminiImage.imageData bgResponse) as [bg | err]; [|left; reflexivity].
    right. eexists. eexists. simpl. repeat split.
  - intros page response_text bgResponse bg Hpage Hai -> -> Hbg Hparse.
    rewrite Hpage. unfold GeminiImage.generateDiagramFromContent, GeminiImage.generatedNodes.
    rewrite Hai, Hbg, Hparse. reflexivity.
Qed.

Lemma handleImageGeneration_asset_witness :
  generatedAsset
    (handleImageGeneration GeminiImageSpec.no_parse GeminiServiceSpec.ready "draw"
       (GeminiService.Replies (Some "not json"))
       (GeminiImage.ImageReplies
          (GeminiImageSpec.imageResponse [GeminiImageSpec.imagePart "AAAA"]))
       GeminiServiceSpec.sample_entropy
       (setActiveReferencePageId (Some "82mvyr") with_page))
  = Some {| GeneratedAsset.svg := None;
            GeneratedAsset.background := Some "AAAA";
            GeneratedAsset.nodes := Some [GeminiImage.errorNode];
            GeneratedAsset.connections := Some [] |}.
Proof.
  apply (proj2 (handleImageGeneration_asset GeminiImageSpec.no_parse GeminiServiceSpec.ready
                  "draw" (GeminiService.Replies (Some "not json"))
                  (GeminiImage.ImageReplies
                     (GeminiImageSpec.imageResponse [GeminiImageSpec.imagePart "AAAA"]))
                  GeminiServiceSpec.sample_entropy
                  (setActiveReferencePageId (Some "82mvyr") with_page))
           sample_page (Some "not json")
           (GeminiImageSpec.imageResponse [GeminiImageSpec.imagePart "AAAA"])
           (Some "AAAA")); reflexivity.
Defined.

(** X8. With at least one page, [handleGenerateWorkflow] ends with its
    busy flag off.  Unlike the diagram, it shows nothing on failure:
    without a client, when the request throws, when the response has no
    text or when the text does not parse, it leaves the flag of the
    overlay and the data as they were.  Otherwise it turns the flag on and
    stores what the parser returned, so for [null] it stores [null] and
    the overlay is not rendered. *)
Theorem handleGenerateWorkflow_failure_keeps
    (parse : string -> option (option HciAnalysisData.t)) (g : GeminiService.t)
    (reply : GeminiService.Reply) (s : State) :
  pages s <> [] ->
  let s' := handleGenerateWorkflow parse g reply s in
  isAnalyzingWorkflow (tools s') = false
  /\ (GeminiService.ai g = false
      \/ (exists err, reply = GeminiService.Throws err)
      \/ reply = GeminiService.Replies None
      \/ reply = GeminiService.Replies (Some EmptyString)
      \/ (exists txt, reply = GeminiService.Replies (Some txt) /\ parse txt = None) ->
      showWorkflow (tools s') = showWorkflow (tools s)
      /\ workflowData (tools s') = workflowData (tools s))
  /\ (forall txt v,
        GeminiService.ai g = true ->
        reply = GeminiService.Replies (Some txt) -> txt <> EmptyString ->
        parse txt = Some v ->
        showWorkflow (tools s') = true
        /\ workflowData (tools s') = v
        /\ workflowOverlay s' = is_some v).
Proof.
  intros Hpages s'. subst s'.
  unfold handleGenerateWorkflow, handleGenerateWorkflow_begin, workflowOverlay.
  destruct (pages s) as [|p ps] eqn:Hp; [elim Hpages; reflexivity|].
  unfold GeminiJson.generateAppWorkflowAnalysis.
  split; [|split].
  - destruct (negb (GeminiService.ai g)); [reflexivity|].
    destruct reply as [err | [txt|]]; try reflexivity.
    destruct (negb (truthy txt)); [reflexivity|].
    destruct (parse txt); reflexivity.
  - intros [Hai | [[err ->] | [-> | [-> | (txt & -> & Hparse)]]]].
    + rewrite Hai. split; reflexivity.
    + destruct (negb (GeminiService.ai g)); split; reflexivity.
    + destruct (negb (GeminiService.ai g)); split; reflexivity.
    + destruct (negb (GeminiService.ai g)); split; reflexivity.
    + rewrite Hparse.
      destruct (negb (GeminiService.ai g)), (negb (truthy txt)); split; reflexivity.
  - intros txt v Hai -> Hne Hparse.
    assert (Ht : truthy txt = true).
    { unfold truthy. apply String.eqb_neq in Hne. now rewrite Hne. }
    rewrite Hai, Ht, Hparse. cbn [negb]. repeat split; reflexivity.
Qed.

Lemma handleGenerateWorkflow_failure_keeps_witness :
  let s' := handleGenerateWorkflow (fun _ => None) GeminiServiceSpec.ready
              (GeminiService.Replies (Some "{")) with_page in
  isAnalyzingWorkflow (tools s') = false
  /\ showWorkflow (tools s') = false
  /\ workflowData (tools s') = None.
Proof.
  intros s'.
  destruct (handleGenerateWorkflow_failure_keeps (fun _ => None) GeminiServiceSpec.ready
              (GeminiService.Replies (Some "{")) with_page ltac:(simpl; discriminate))
    as (Hflag & Hkeep & _).
  split; [exact Hflag|].
  apply Hkeep. right. right. right. right. exists "{". split; reflexivity.
Defined.

End AppRunsFacts.

(** ** More on upload and convert *)

Module UploadMoreFacts.
Import Upload UploadSpec UploadMoreSpec.

Lemma convert_from_contributions (inputs : list Input) (acc : list DocumentPage.t) :
  (forall i, In i inputs -> rejects i = false) ->
  convert_from inputs acc = Resolved (acc ++ flat_map contribution inputs)%list.
Proof.
  revert acc. induction inputs as [|i inputs IH]; simpl; intros acc Hok.
  - now rewrite app_nil_r.
  - pose proof (Hok i (or_introl eq_refl)) as Hi.
    assert (Hrest : forall j, In j inputs -> rejects j = false)
      by (intros j Hj; apply Hok; right; exact Hj).
    unfold rejects in Hi. unfold contribution.
    destruct (File.type (in_file i) =? "application/pdf")%string; simpl in Hi.
    + destruct (processPdf (in_file i) (in_pdf i)) as [pdfPages | err]; [|discriminate].
      rewrite (IH _ Hrest). now rewrite app_assoc.
    + destruct (startsWith "image/" (File.type (in_file i))).
      * destruct (in_reader i) as [| base64 rnd].
        -- exact (IH _ Hrest).
        -- rewrite (IH _ Hrest). now rewrite <- app_assoc.
      * exact (IH _ Hrest).
Qed.

(** X12. When the PDF library rejects for no file of an upload, the upload
    resolves to the pages of its files in the order of the files; a file
    the reader fails on and a file of another type give no page.  An
    upload without PDF always resolves. *)
Theorem convert_in_file_order (inputs : list Input) :
  ((forall i, In i inputs -> rejects i = false) ->
   convert inputs = Resolved (flat_map contribution inputs))
  /\ ((forall i, In i inputs -> File.type (in_file i) <> "application/pdf") ->
      convert inputs = Resolved (flat_map contribution inputs)).
Proof.
  split.
  - intros Hok. exact (convert_from_contributions inputs [] Hok).
  - intros Hnopdf. apply (convert_from_contributions inputs []).
    intros i Hi. unfold rejects.
    pose proof (Hnopdf i Hi) as Hne. apply String.eqb_neq in Hne. now rewrite Hne.
Qed.

Lemma convert_in_file_order_witness :
  convert [sample_text; sample_image; sample_pdf]
  = Resolved (flat_map contribution [sample_text; sample_image; sample_pdf])
  /\ length (flat_map contribution [sample_text; sample_image; sample_pdf]) = 3%nat.
Proof.
  split; [|reflexivity].
  apply (proj1 (convert_in_file_order [sample_text; sample_image; sample_pdf])).
  intros i [<- | [<- | [<- | []]]]; reflexivity.
Defined.

Lemma convert_from_rejected (inputs : list Input) (acc : list DocumentPage.t) (i : Input) :
  In i inputs -> rejects i = true ->
  exists reason, convert_from inputs acc = Rejected reason.
Proof.
  revert acc. induction inputs as [|j inputs IH]; simpl; intros acc Hin Hrej; [destruct Hin|].
  destruct (File.type (in_file j) =? "application/pdf")%string eqn:Htype.
  - destruct (processPdf (in_file j) (in_pdf j)) as [pdfPages | err] eqn:Hpdf.
    + destruct Hin as [-> | Hin].
      * unfold rejects in Hrej. rewrite Htype, Hpdf in Hrej. discriminate Hrej.
      * exact (IH _ Hin Hrej).
    + exists err. reflexivity.
  - assert (Hin' : In i inputs).
    { destruct Hin as [-> | Hin]; [|exact Hin].
      unfold rejects in Hrej. rewrite Htype in Hrej. discriminate Hrej. }
    destruct (startsWith "image/" (File.type (in_file j))).
    + destruct (in_reader j); exact (IH _ Hin' Hrej).
    + exact (IH _ Hin' Hrej).
Qed.

(** X13. When the PDF library rejects for one file of an upload, no page of
    the upload is added, those of the files converted before it
    included: the list of pages is as before, nothing is returned, the
    error message is set and the converting flag is off. *)
Theorem rejected_pdf_discards_upload (inputs : list Input) (i : Input) (s : App.State) :
  In i inputs -> rejects i = true ->
  App.pages (fst (App.processFiles inputs s)) = App.pages s
  /\ snd (App.processFiles inputs s) = []
  /\ App.error (fst (App.processFiles inputs s))
     = Some "Failed to process files. Please try again."
  /\ App.isConvertingPdf (fst (App.processFiles inputs s)) = false.
Proof.
  intros Hin Hrej. unfold App.processFiles, convert.
  destruct (convert_from_rejected inputs [] i Hin Hrej) as [reason ->].
  repeat split.
Qed.

Lemma rejected_pdf_discards_upload_witness :
  App.pages (fst (App.processFiles [sample_image; broken_pdf] App.initial)) = []
  /\ snd (App.processFiles [sample_image; broken_pdf] App.initial) = []
  /\ App.error (fst (App.processFiles [sample_image; broken_pdf] App.initial))
     = Some "Failed to process files. Please try again."
  /\ App.isConvertingPdf (fst (App.processFiles [sample_image; broken_pdf] App.initial))
     = false.
Proof.
  apply (rejected_pdf_discards_upload [sample_image; broken_pdf] broken_pdf App.initial).
  - right. left. reflexivity.
  - reflexivity.
Defined.

Lemma processPdf_from_urls (file : File.t) (renders : list PageRender)
    (acc ps : list DocumentPage.t) :
  processPdf_from file renders acc = Resolved ps ->
  map DocumentPage.url ps = (map DocumentPage.url acc ++ rendered_urls renders)%list
  /\ ((forall p, In p acc -> DocumentPage.mimeType p = "image/jpeg") ->
      forall p, In p ps -> DocumentPage.mimeType p = "image/jpeg").
Proof.
  revert acc. induction renders as [|r renders IH]; simpl; intros acc.
  - intros [= <-]. rewrite app_nil_r. split; [reflexivity | auto].
  - destruct r as [err | | err | u rnd]; try discriminate.
    + exact (IH acc).
    + intros Hres. destruct (IH _ Hres) as [Hurls Hmime]. split.
      * rewrite Hurls, map_app. simpl. now rewrite <- app_assoc.
      * intros Hacc. apply Hmime. intros p Hp. apply in_app_or in Hp.
        destruct Hp as [Hp | [<- | []]]; [exact (Hacc p Hp) | reflexivity].
Qed.

Lemma rendered_urls_length (renders : list PageRender) :
  (length (rendered_urls renders) <= length renders)%nat.
Proof.
  induction renders as [|r renders IH]; simpl; [lia|].
  destruct r; simpl; lia.
Qed.

(** X14. A conversion that resolves gives the pages of the document that got a
    2D context, in the order of the document, and skips the others: the
    display URLs are those the canvases gave, there are at most as many
    pages as the document has, and all have media type image/jpeg. *)
Theorem processPdf_skips_without_context (file : File.t) (renders : list PageRender)
    (ps : list DocumentPage.t) :
  processPdf file (Loaded renders) = Resolved ps ->
  map DocumentPage.url ps = rendered_urls renders
  /\ (length ps <= length renders)%nat
  /\ forall p, In p ps -> DocumentPage.mimeType p = "image/jpeg".
Proof.
  unfold processPdf. intros Hres.
  destruct (processPdf_from_urls file renders [] ps Hres) as [Hurls Hmime].
  simpl in Hurls. repeat split.
  - exact Hurls.
  - rewrite <- (length_map DocumentPage.url), Hurls. apply rendered_urls_length.
  - apply Hmime. intros p [].
Qed.

Lemma processPdf_skips_without_context_witness :
  let ps := [ pdfPage (in_file gappy_pdf) "data:image/jpeg;base64,/9j/4AAQ" "0.k3x9q2m7p1a";
              pdfPage (in_file gappy_pdf) "data:image/jpeg;base64,/9j/4CCS" "0.q1w2e3r4t5y" ] in
  map DocumentPage.url ps
  = [ "data:image/jpeg;base64,/9j/4AAQ"; "data:image/jpeg;base64,/9j/4CCS" ]
  /\ (length ps <= 3)%nat
  /\ forall p, In p ps -> DocumentPage.mimeType p = "image/jpeg".
Proof.
  intros ps.
  exact (processPdf_skips_without_context (in_file gappy_pdf)
           [ Rendered "data:image/jpeg;base64,/9j/4AAQ" "0.k3x9q2m7p1a";
             NoContext;
             Rendered "data:image/jpeg;base64,/9j/4CCS" "0.q1w2e3r4t5y" ] ps eq_refl).
Defined.

End UploadMoreFacts.

(** ** More on the session state *)

Module AppMoreFacts.
Import App AppSpec AppMoreSpec.

Lemma existsb_remove_nth {A : Type} (kind : A -> bool) (l : list A) (k : nat) (t : A) :
  nth_error l k = Some t -> kind t = false ->
  existsb kind (remove_nth k l) = existsb kind l.
Proof.
  unfold remove_nth. revert k. induction l as [|a l IH]; intros [|k];
    try discriminate.
  - intros [= ->] Ht. simpl. now rewrite Ht.
  - intros Hk Ht. change (existsb kind (a :: (firstn k l ++ skipn (S k) l))
                          = existsb kind (a :: l)).
    simpl existsb. f_equal. exact (IH k Hk Ht).
Qed.

(** Closes one clause of the invariant after the cases of a transition. *)
Ltac busy_goal Hinv Hflag :=
  simpl in Hflag; simpl;
  first
    [ discriminate Hflag
    | exact (Hinv Hflag)
    | rewrite existsb_app;
      first [ rewrite (Hinv Hflag); reflexivity
            | simpl; rewrite orb_true_r; reflexivity ]
    | erewrite existsb_remove_nth by (eassumption || reflexivity);
      exact (Hinv Hflag) ].

Ltac busy_clause :=
  intros Hstep Hinv Hflag; unfold awaits in *;
  AppFacts.step_cases Hstep; busy_goal Hinv Hflag.

Lemma step_busy_upload (e : Event) (sys sys' : System) :
  step e sys = Some sys' ->
  (isConvertingPdf (app sys) = true -> awaits isUpload sys = true) ->
  (isConvertingPdf (app sys') = true -> awaits isUpload sys' = true).
Proof. busy_clause. Qed.

Lemma step_busy_chat (e : Event) (sys sys' : System) :
  step e sys = Some sys' ->
  (isProcessing (app sys) = true -> awaits isChat sys = true) ->
  (isProcessing (app sys') = true -> awaits isChat sys' = true).
Proof. busy_clause. Qed.

Lemma step_busy_analysis (e : Event) (sys sys' : System) :
  step e sys = Some sys' ->
  (appState (app sys) = ANALYZING -> awaits isAnalysis sys = true) ->
  (appState (app sys') = ANALYZING -> awaits isAnalysis sys' = true).
Proof. busy_clause. Qed.

Lemma step_busy_diagram (e : Event) (sys sys' : System) :
  step e sys = Some sys' ->
  (isGeneratingDiagram (tools (app sys)) = true -> awaits isDiagram sys = true) ->
  (isGeneratingDiagram (tools (app sys')) = true -> awaits isDiagram sys' = true).
Proof. busy_clause. Qed.

Lemma step_busy_workflow (e : Event) (sys sys' : System) :
  step e sys = Some sys' ->
  (isAnalyzingWorkflow (tools (app sys)) = true -> awaits isWorkflow sys = true) ->
  (isAnalyzingWorkflow (tools (app sys')) = true -> awaits isWorkflow sys' = true).
Proof. busy_clause. Qed.

Lemma step_busy_extract (e : Event) (sys sys' : System) :
  step e sys = Some sys' ->
  (isExtractingText (tools (app sys)) = true -> awaits isExtract sys = true) ->
  (isExtractingText (tools (app sys')) = true -> awaits isExtract sys' = true).
Proof. busy_clause. Qed.

Lemma step_busy_image (e : Event) (sys sys' : System) :
  step e sys = Some sys' ->
  (isGeneratingImage (app sys) = true -> awaits isImage sys = true) ->
  (isGeneratingImage (app sys') = true -> awaits isImage sys' = true).
Proof. busy_clause. Qed.

Lemma step_busy (e : Event) (sys sys' : System) :
  step e sys = Some sys' -> busy_while_awaiting sys -> busy_while_awaiting sys'.
Proof.
  intros Hstep (H1 & H2 & H3 & H4 & H5 & H6 & H7).
  repeat split.
  - exact (step_busy_upload e sys sys' Hstep H1).
  - exact (step_busy_chat e sys sys' Hstep H2).
  - exact (step_busy_analysis e sys sys' Hstep H3).
  - exact (step_busy_diagram e sys sys' Hstep H4).
  - exact (step_busy_workflow e sys sys' Hstep H5).
  - exact (step_busy_extract e sys sys' Hstep H6).
  - exact (step_busy_image e sys sys' Hstep H7).
Qed.

(** X15. In every reachable state, overlapping handlers included, each busy
    indicator (converting, processing, the analysing mode, generating the
    diagram, analysing the workflow, extracting text, generating the
    image) is on only while a handler that turns it off awaits; so once
    every request has settled no indicator is on. *)
Theorem busy_only_while_awaiting (sys : System) :
  reachable sys ->
  busy_while_awaiting sys /\ (pending sys = [] -> quiet (app sys)).
Proof.
  intros Hreach.
  assert (Hbusy : busy_while_awaiting sys).
  { induction Hreach as [| e sys sys' _ IH Hstep].
    - unfold busy_while_awaiting. simpl. repeat split; discriminate.
    - exact (step_busy e sys sys' Hstep IH). }
  split; [exact Hbusy|].
  intros Hpending. destruct Hbusy as (H1 & H2 & H3 & H4 & H5 & H6 & H7).
  unfold awaits in *. rewrite Hpending in *. simpl in *.
  unfold quiet. repeat split.
  - destruct (isConvertingPdf (app sys)); [discriminate (H1 eq_refl) | reflexivity].
  - destruct (isProcessing (app sys)); [discriminate (H2 eq_refl) | reflexivity].
  - intros Ha. discriminate (H3 Ha).
  - destruct (isGeneratingDiagram (tools (app sys))); [discriminate (H4 eq_refl) | reflexivity].
  - destruct (isAnalyzingWorkflow (tools (app sys))); [discriminate (H5 eq_refl) | reflexivity].
  - destruct (isExtractingText (tools (app sys))); [discriminate (H6 eq_refl) | reflexivity].
  - destruct (isGeneratingImage (app sys)); [discriminate (H7 eq_refl) | reflexivity].
Qed.

Lemma busy_only_while_awaiting_witness :
  quiet (app (after (overlapping_analyses
                       ++ [Settle 0 (OText (Rejected "quota") 2)]))).
Proof.
  apply (busy_only_while_awaiting
           (after (overlapping_analyses ++ [Settle 0 (OText (Rejected "quota") 2)]))).
  - apply AppFacts.after_reachable.
  - vm_compute. reflexivity.
Defined.

Lemma step_keeps_transcript_nonempty (e : Event) (sys sys' : System) :
  step e sys = Some sys' ->
  messages (app sys) <> [] -> messages (app sys') <> [].
Proof.
  intros Hstep Hne.
  destruct (AppFacts.step_messages e sys sys' Hstep)
    as [[ext Hext] | (k & txt & now & _ & _ & Hmsg)].
  - rewrite Hext. destruct (messages (app sys)); [elim Hne; reflexivity | discriminate].
  - rewrite Hmsg. discriminate.
Qed.

Lemma step_ready_transcript (e : Event) (sys sys' : System) :
  step e sys = Some sys' ->
  (appState (app sys) = READY -> messages (app sys) <> []) ->
  (appState (app sys') = READY -> messages (app sys') <> []).
Proof.
  intros Hstep Hinv Hready.
  AppFacts.step_cases Hstep; simpl in Hready; simpl;
    first
      [ discriminate Hready
      | exact (Hinv Hready)
      | discriminate
      | intros Habs; apply app_eq_nil in Habs; destruct Habs as [_ Habs];
        discriminate Habs
      | congruence ].
Qed.

(** X16. In every reachable state in the ready mode the transcript is not
    empty, and no transition makes a transcript that is not empty
    empty. *)
Theorem ready_has_transcript (sys : System) :
  reachable sys ->
  (appState (app sys) = READY -> messages (app sys) <> [])
  /\ (forall e sys', step e sys = Some sys' ->
        messages (app sys) <> [] -> messages (app sys') <> []).
Proof.
  intros Hreach. split.
  - induction Hreach as [| e sys sys' _ IH Hstep].
    + simpl. discriminate.
    + exact (step_ready_transcript e sys sys' Hstep IH).
  - intros e sys'. apply step_keeps_transcript_nonempty.
Qed.

Lemma ready_has_transcript_witness :
  appState (app (after one_turn)) = READY
  /\ length (messages (app (after one_turn))) = 3%nat
  /\ messages (app (after one_turn)) <> [].
Proof.
  split; [vm_compute; reflexivity|]. split; [vm_compute; reflexivity|].
  apply (proj1 (ready_has_transcript (after one_turn) (AppFacts.after_reachable one_turn))).
  vm_compute. reflexivity.
Defined.

Lemma ready_transcript (sys : System) :
  reachable sys -> appState (app sys) = READY -> messages (app sys) <> [].
Proof.
  intros Hreach. induction Hreach as [| e sys sys' _ IH Hstep].
  - simpl. discriminate.
  - exact (step_ready_transcript e sys sys' Hstep IH).
Qed.

Lemma toggleImageMode_frame (s : State) :
  pages (toggleImageMode s) = pages s
  /\ messages (toggleImageMode s) = messages s
  /\ generatedAsset (toggleImageMode s) = generatedAsset s.
Proof.
  unfold toggleImageMode.
  destruct (AppState_eqb (appState s) IMAGE_GEN); [repeat split|].
  destruct (negb (truthy_opt (activeReferencePageId s))); [|repeat split].
  destruct (pages s) eqn:Hp; simpl; rewrite ?Hp; repeat split.
Qed.

(** X17. Opening the studio and leaving it again restores the ready mode in
    every reachable state, and the idle mode in every state of a
    sequential run; the pages, the transcript and the asset are as
    before. *)
Theorem studio_round_trip (sys : System) :
  let s := app sys in
  let s2 := toggleImageMode (toggleImageMode s) in
  (reachable sys -> appState s = READY -> appState s2 = READY)
  /\ (seq_reachable sys -> appState s = IDLE -> appState s2 = IDLE)
  /\ pages s2 = pages s /\ messages s2 = messages s
  /\ generatedAsset s2 = generatedAsset s.
Proof.
  intros s s2. subst s s2.
  assert (Hmode : forall s,
            appState (toggleImageMode s)
            = if AppState_eqb (appState s) IMAGE_GEN
              then match messages s with [] => IDLE | _ :: _ => READY end
              else IMAGE_GEN).
  { intros s. unfold toggleImageMode.
    destruct (AppState_eqb (appState s) IMAGE_GEN); [reflexivity|].
    destruct (negb (truthy_opt (activeReferencePageId s))); [|reflexivity].
    destruct (pages s); reflexivity. }
  repeat split.
  - intros Hreach Hready. pose proof (ready_transcript sys Hreach Hready) as Hne.
    rewrite Hmode, Hmode, Hready. simpl.
    rewrite (proj1 (proj2 (toggleImageMode_frame _))).
    destruct (messages (app sys)); [elim Hne; reflexivity | reflexivity].
  - intros Hseq Hidle.
    destruct (AppFacts.seq_reachable_inv sys Hseq) as (_ & Hempty & _).
    rewrite Hmode, Hmode, Hidle. simpl.
    rewrite (proj1 (proj2 (toggleImageMode_frame _))). now rewrite (Hempty Hidle).
  - now rewrite !(proj1 (toggleImageMode_frame _)).
  - now rewrite !(proj1 (proj2 (toggleImageMode_frame _))).
  - now rewrite !(proj2 (proj2 (toggleImageMode_frame _))).
Qed.

Lemma studio_round_trip_witness :
  appState (toggleImageMode (toggleImageMode (app (after one_turn)))) = READY.
Proof.
  apply (proj1 (studio_round_trip (after one_turn))).
  - apply AppFacts.after_reachable.
  - vm_compute. reflexivity.
Defined.

Lemma find_app_none {A : Type} (f : A -> bool) (l1 l2 : list A) :
  (forall a, In a l1 -> f a = false) -> find f (l1 ++ l2) = find f l2.
Proof.
  induction l1 as [|a l1 IH]; simpl; intros H; [reflexivity|].
  rewrite (H a (or_introl eq_refl)). apply IH. intros b Hb. apply H. right. exact Hb.
Qed.

(** X18. After an upload from the studio that gives at least one page, the
    reference of the studio resolves to a page with the identifier of the
    first new page, and to that page itself when no page had its
    identifier before. *)
Theorem sketch_upload_selects_reference (p : DocumentPage.t) (rest : list DocumentPage.t)
    (s : State) :
  let s' := handleSketchUpload_settle (Resolved (p :: rest)) s in
  (exists q, referencePage s' = Some q /\ DocumentPage.id q = DocumentPage.id p)
  /\ ((forall old, In old (pages s) -> DocumentPage.id old <> DocumentPage.id p) ->
      referencePage s' = Some p).
Proof.
  intros s'. subst s'. unfold handleSketchUpload_settle, processFiles_settle, referencePage.
  simpl.
  assert (Hp : (DocumentPage.id p =? DocumentPage.id p)%string = true)
    by apply String.eqb_refl.
  split.
  - destruct (find (fun q => (DocumentPage.id p =? DocumentPage.id q)%string)
                (pages s ++ p :: rest)) as [q|] eqn:Hfind.
    + exists q. split; [reflexivity|].
      apply find_some in Hfind. destruct Hfind as [_ Hq].
      apply String.eqb_eq in Hq. now symmetry.
    + exfalso.
      assert (Hin : In p (pages s ++ p :: rest)).
      { apply in_or_app. right. left. reflexivity. }
      pose proof (find_none _ _ Hfind p Hin) as Hnone.
      simpl in Hnone. rewrite Hp in Hnone. discriminate Hnone.
  - intros Hfresh. rewrite find_app_none.
    + simpl. now rewrite Hp.
    + intros old Hold. apply String.eqb_neq. intros Heq. exact (Hfresh old Hold (eq_sym Heq)).
Qed.

Lemma sketch_upload_selects_reference_witness :
  referencePage (handleSketchUpload_settle (Resolved [AppRunsSpec.sample_page]) initial)
  = Some AppRunsSpec.sample_page.
Proof.
  apply (proj2 (sketch_upload_selects_reference AppRunsSpec.sample_page [] initial)).
  intros old [].
Defined.

End AppMoreFacts.

(** ** The shape of the transcript *)

Module TranscriptFacts.
Import App AppSpec AppMoreSpec TranscriptSpec.

Lemma seq_step_step (e : Event) (sys sys' : System) :
  seq_step e sys = Some sys' -> step e sys = Some sys'.
Proof.
  unfold seq_step. destruct e; try exact (fun H => H);
    destruct (pending sys); (exact (fun H => H) || discriminate).
Qed.

Lemma seq_reachable_reachable (sys : System) : seq_reachable sys -> reachable sys.
Proof.
  induction 1 as [| e sys sys' _ IH Hstep].
  - exact reachable_start.
  - exact (reachable_step e sys sys' IH (seq_step_step e sys sys' Hstep)).
Qed.

Lemma turns_app (l1 l2 : list ChatMessage.t) :
  turns l1 = true -> turns (l1 ++ l2) = turns l2.
Proof.
  revert l1. fix IH 1. intros [|u [|m rest]]; simpl; intros H.
  - reflexivity.
  - discriminate H.
  - apply andb_prop in H. destruct H as [Hum Hrest].
    rewrite Hum. simpl. exact (IH rest Hrest).
Qed.

Lemma conversation_answered (init : list ChatMessage.t) (u m : ChatMessage.t) :
  conversation init = true -> is_user u = true -> is_model m = true ->
  conversation ((init ++ [u]) ++ [m]) = true.
Proof.
  destruct init as [|m0 rest]; simpl; [discriminate|].
  intros H Hu Hm. apply andb_prop in H. destruct H as [Hm0 Hrest].
  rewrite Hm0. simpl. rewrite <- app_assoc. rewrite (turns_app rest _ Hrest).
  simpl. now rewrite Hu, Hm.
Qed.

Lemma analysing_awaits (sys : System) :
  reachable sys -> appState (app sys) = ANALYZING -> awaits isAnalysis sys = true.
Proof.
  induction 1 as [| e sys sys' _ IH Hstep].
  - simpl. discriminate.
  - exact (AppMoreFacts.step_busy_analysis e sys sys' Hstep IH).
Qed.

Lemma seq_step_shape (e : Event) (sys sys' : System) :
  reachable sys -> seq_inv sys -> seq_shape sys ->
  seq_step e sys = Some sys' -> seq_shape sys'.
Proof.
  intros Hreach (Hlen & _ & _ & _) Hshape Hstep. unfold seq_step in Hstep.
  unfold seq_shape in Hshape.
  destruct e.
  all: try (destruct (pending sys) eqn:Hpend; [|discriminate Hstep];
            AppFacts.step_cases Hstep; unfold seq_shape; simpl; rewrite ?Hpend; simpl;
            try exact Hshape).
  - (* SendMessage: the chat is shown in the ready mode, after the summary *)
    assert (Hne : messages (app sys) <> []).
    { simpl in Heqb. apply orb_prop in Heqb. destruct Heqb as [Hr | Ha].
      - apply (AppMoreFacts.ready_transcript sys Hreach).
        now apply AppFacts.AppState_eqb_eq.
      - apply AppFacts.AppState_eqb_eq in Ha.
        pose proof (analysing_awaits sys Hreach Ha) as Haw.
        unfold awaits in Haw. rewrite Hpend in Haw. discriminate Haw. }
    destruct Hshape as [Hempty | Hconv]; [contradiction|].
    exists (messages (app sys)), (userMsg text now). repeat split. exact Hconv.
  - left. assumption.
  - match goal with H : messages (app sys) = _ |- _ => rewrite H end. exact Hshape.
  - (* Settle: the one awaiting handler *)
    destruct (pending sys) as [|t [|t2 rest]] eqn:Hpend; simpl in Hlen; try lia.
    + unfold step in Hstep. simpl in Hstep. rewrite Hpend in Hstep.
      destruct k; discriminate Hstep.
    + destruct k as [|k].
      2:{ unfold step in Hstep. simpl in Hstep. rewrite Hpend in Hstep.
          destruct k; discriminate Hstep. }
      unfold step in Hstep. simpl in Hstep. rewrite Hpend in Hstep. simpl in Hstep.
      destruct (settle t o (app sys)) as [s'|] eqn:Hsettle; [|discriminate Hstep].
      injection Hstep as <-. unfold seq_shape. simpl.
      unfold settle in Hsettle.
      destruct t as [sketch inputs| | | | | | | captured | captured]; destruct o;
        try (destruct sketch); try discriminate Hsettle; injection Hsettle as <-;
        try (destruct (AppFacts.processFiles_settle_session (Upload.convert inputs)
                         (app sys)) as [-> _]);
        try (destruct (AppFacts.handleSketchUpload_settle_session (Upload.convert inputs)
                         (app sys)) as [-> _]);
        unfold startAnalysis_settle,
          handleSendMessage_settle, handleGenerateDiagram_settle,
          handleGenerateWorkflow_settle, handleExtractText_settle,
          handleImageGeneration_settle, refineNodes_settle, refineBackground_settle;
        repeat match goal with
               | |- context [match ?x with _ => _ end] => destruct x
               end;
        simpl; try exact Hshape.
      * right. reflexivity.
      * right. destruct Hshape as (init & u & -> & Hconv & Hu).
        apply conversation_answered; [exact Hconv | exact Hu | reflexivity].
      * right. destruct Hshape as (init & u & -> & Hconv & Hu).
        apply conversation_answered; [exact Hconv | exact Hu | reflexivity].
Qed.

(** X19. In a run without overlap the transcript is empty or is the summary
    of the model followed by questions of the user, each with the answer
    of the model after it (an error message counts as an answer); while a
    chat turn is awaited the last question has no answer yet. *)
Theorem transcript_alternates (sys : System) :
  seq_reachable sys -> seq_shape sys.
Proof.
  intros Hseq.
  induction Hseq as [| e sys sys' Hseq IH Hstep].
  - left. reflexivity.
  - exact (seq_step_shape e sys sys' (seq_reachable_reachable sys Hseq)
             (AppFacts.seq_reachable_inv sys Hseq) IH Hstep).
Qed.

Lemma transcript_alternates_witness :
  seq_shape (seq_after one_turn)
  /\ map ChatMessage.role (messages (app (seq_after one_turn))) = [model; user; model].
Proof.
  split.
  - apply (transcript_alternates (seq_after one_turn)). apply AppFacts.seq_after_reachable.
  - vm_compute. reflexivity.
Defined.

End TranscriptFacts.

(** ** More on the canvas editor *)

Module EditorMoreFacts.
Import Editor EditorSpec EditorMoreSpec GeminiServiceSpec.

Lemma Forall2_map_same {A : Type} (R : A -> A -> Prop) (f : A -> A) (l : list A) :
  (forall a, In a l -> R a (f a)) -> Forall2 R l (map f l).
Proof.
  induction l as [|a l IH]; simpl; intros H; constructor.
  - apply H. left. reflexivity.
  - apply IH. intros b Hb. apply H. right. exact Hb.
Qed.

Lemma Forall2_refl_same {A : Type} (R : A -> A -> Prop) (l : list A) :
  (forall a, R a a) -> Forall2 R l l.
Proof. intros H. induction l; constructor; auto. Qed.

(** The cards after a mouse move, whatever the state. *)
Lemma mouseMove_nodes (e : MouseEvent) (containerRect : option Rect) (r : State) :
  nodes (handleContainerMouseMove e containerRect r) = nodes r
  \/ exists rect sel,
       containerRect = Some rect /\ isDragging r = true
       /\ selectedNodeId r = Some sel /\ sel <> EmptyString
       /\ nodes (handleContainerMouseMove e containerRect r)
          = map (fun n =>
                   if (sel =? DiagramNode.id n)%string then
                     {| DiagramNode.id := DiagramNode.id n;
                        DiagramNode.title := DiagramNode.title n;
                        DiagramNode.content := DiagramNode.content n;
                        DiagramNode.x := clientX e - left rect - px (dragOffset r);
                        DiagramNode.y := clientY e - top rect - py (dragOffset r) |}
                   else n) (nodes r).
Proof.
  unfold handleContainerMouseMove. destruct containerRect as [rect|]; [|left; reflexivity].
  destruct (isDragging r) eqn:Hdrag; simpl; [|left; reflexivity].
  destruct (selectedNodeId r) as [sel|] eqn:Hsel; simpl; [|left; reflexivity].
  destruct (truthy sel) eqn:Ht; simpl; [|left; reflexivity].
  right. exists rect, sel. repeat split.
  unfold truthy in Ht. apply negb_true_iff in Ht. now apply String.eqb_neq.
Qed.

(** X20. A mouse move changes no connection, keeps the number and the order
    of the cards and, of every card, the identifier, the title and the
    text; a card that is not the selected one is not changed at all. *)
Theorem mouseMove_keeps_cards (e : MouseEvent) (containerRect : option Rect) (r : State) :
  let s := handleContainerMouseMove e containerRect r in
  connections s = connections r
  /\ Forall2 (same_card (selectedNodeId r)) (nodes r) (nodes s).
Proof.
  intros s. subst s. split.
  - unfold handleContainerMouseMove. destruct containerRect; [|reflexivity].
    destruct (isDragging r && App.truthy_opt (selectedNodeId r))%bool; reflexivity.
  - destruct (mouseMove_nodes e containerRect r)
      as [-> | (rect & sel & _ & _ & Hsel & _ & ->)].
    + apply Forall2_refl_same. intros a. repeat split.
    + apply Forall2_map_same. intros n _. unfold same_card. rewrite Hsel.
      unfold App.is_id.
      destruct (sel =? DiagramNode.id n)%string; repeat split;
        intros Habs; (discriminate Habs || reflexivity).
Qed.

(** X21. Dragging keeps the two conditions on the cards under which a
    refinement keeps positions: identifiers that are not empty, and one
    position for cards with one identifier. *)
Theorem mouseMove_keeps_conditions (e : MouseEvent) (containerRect : option Rect)
    (r : State) :
  ids_nonempty (nodes r) -> positions_agree (nodes r) ->
  ids_nonempty (nodes (handleContainerMouseMove e containerRect r))
  /\ positions_agree (nodes (handleContainerMouseMove e containerRect r)).
Proof.
  intros Hne Hagree.
  destruct (mouseMove_nodes e containerRect r)
    as [-> | (rect & sel & _ & _ & _ & _ & ->)]; [split; assumption|].
  split.
  - intros c Hc. apply in_map_iff in Hc. destruct Hc as (n & <- & Hn).
    destruct (sel =? DiagramNode.id n)%string; simpl; exact (Hne n Hn).
  - intros c1 c2 H1 H2 Hid.
    apply in_map_iff in H1. destruct H1 as (n1 & <- & Hn1).
    apply in_map_iff in H2. destruct H2 as (n2 & <- & Hn2).
    destruct (String.eqb_spec sel (DiagramNode.id n1)) as [E1 | E1];
      destruct (String.eqb_spec sel (DiagramNode.id n2)) as [E2 | E2];
      simpl in Hid |- *.
    + split; reflexivity.
    + congruence.
    + congruence.
    + exact (Hagree n1 n2 Hn1 Hn2 Hid).
Qed.

Lemma mouseMove_keeps_conditions_witness :
  ids_nonempty (nodes dragging) /\ positions_agree (nodes dragging).
Proof.
  apply (mouseMove_keeps_conditions {| clientX := 310; clientY := 220 |}
           (Some {| left := 10; top := 20 |})
           (handleCardMouseDown {| clientX := 70; clientY := 75 |}
              {| left := 60; top := 70 |} (Some {| left := 10; top := 20 |})
              sample_node at_rest)).
  - intros c [<- | []]. simpl. discriminate.
  - intros c1 c2 [<- | []] [<- | []] _. split; reflexivity.
Defined.

(** X22. While a card is dragged it follows the mouse: when the rectangle of
    the card lies in the container where the card is positioned, pressing
    the mouse on the card and moving it moves the card by as much as the
    mouse has moved (and with it every card that has its identifier);
    the other cards stay. *)
Theorem card_follows_mouse (e0 e1 : MouseEvent) (rect containerRect : Rect)
    (n : DiagramNode.t) (r : State) :
  isDrawingLine r = false ->
  DiagramNode.id n <> EmptyString ->
  left rect = left containerRect + DiagramNode.x n ->
  top rect = top containerRect + DiagramNode.y n ->
  let r2 := handleContainerMouseMove e1 (Some containerRect)
              (handleCardMouseDown e0 rect (Some containerRect) n r) in
  Forall2 (moved_by n (clientX e1 - clientX e0) (clientY e1 - clientY e0))
    (nodes r) (nodes r2)
  /\ selectedNodeId r2 = Some (DiagramNode.id n)
  /\ isDragging r2 = true.
Proof.
  intros Hline Hid Hleft Htop r2. subst r2.
  assert (Ht : truthy (DiagramNode.id n) = true).
  { unfold truthy. apply String.eqb_neq in Hid. now rewrite Hid. }
  unfold handleContainerMouseMove, handleCardMouseDown. rewrite Hline. simpl.
  rewrite Ht. simpl. repeat split.
  apply Forall2_map_same. intros m _. unfold moved_by.
  rewrite (String.eqb_sym (DiagramNode.id m) (DiagramNode.id n)).
  destruct (DiagramNode.id n =? DiagramNode.id m)%string; [|reflexivity].
  unfold spread. simpl. repeat split; lia.
Qed.

Lemma card_follows_mouse_witness :
  let r2 := handleContainerMouseMove {| clientX := 310; clientY := 220 |}
              (Some {| left := 10; top := 20 |})
              (handleCardMouseDown {| clientX := 70; clientY := 75 |}
                 {| left := 60; top := 70 |} (Some {| left := 10; top := 20 |})
                 sample_node at_rest) in
  Forall2 (moved_by sample_node 240 145) (nodes at_rest) (nodes r2)
  /\ selectedNodeId r2 = Some "node-1-0"
  /\ isDragging r2 = true.
Proof.
  apply (card_follows_mouse {| clientX := 70; clientY := 75 |}
           {| clientX := 310; clientY := 220 |} {| left := 60; top := 70 |}
           {| left := 10; top := 20 |} sample_node at_rest).
  - reflexivity.
  - simpl. discriminate.
  - reflexivity.
  - reflexivity.
Defined.

(** X23. After the release that ends a drag the effect that follows the
    update of the parent changes nothing: the editor is as the handler
    left it, with the cards where they were dragged. *)
Theorem drag_release_settles (now : Z) (props : Props) (r : State)
    (asset : GeneratedAsset.t) :
  isDragging r = true ->
  isDrawingLine r = false ->
  generatedAsset props = Some asset ->
  afterRelease now props r = fst (release now props r)
  /\ nodes (afterRelease now props r) = nodes r
  /\ connections (afterRelease now props r) = connections r
  /\ isDragging (afterRelease now props r) = false.
Proof.
  intros Hdrag Hline Hasset.
  unfold afterRelease, release, handleContainerMouseUp, saveState.
  rewrite Hdrag, Hline, Hasset.
  destruct r as [p t ns cs sel drag off line start pos]. simpl in *.
  destruct start; simpl; repeat split.
Qed.

Lemma drag_release_settles_witness :
  afterRelease 1700000000000 sample_props dragging
  = fst (release 1700000000000 sample_props dragging)
  /\ nodes (afterRelease 1700000000000 sample_props dragging) = nodes dragging.
Proof.
  destruct (drag_release_settles 1700000000000 sample_props dragging
              {| GeneratedAsset.svg := None;
                 GeneratedAsset.background := None;
                 GeneratedAsset.nodes := Some [sample_node];
                 GeneratedAsset.connections := Some [] |} eq_refl eq_refl eq_refl)
    as (Hsame & Hnodes & _).
  split; assumption.
Defined.

(** X24. An edit of the title or of the text of the selected card changes no
    connection and no position, identifier, number or order of the cards,
    and no card other than the selected one; without a selection it
    changes nothing. *)
Theorem updateSelectedNode_keeps_layout (updates : PartialNode) (r : State) :
  (u_id updates = None -> u_x updates = None -> u_y updates = None ->
   let s := updateSelectedNode updates r in
   connections s = connections r
   /\ Forall2 (fun n n' =>
                 DiagramNode.id n' = DiagramNode.id n
                 /\ DiagramNode.x n' = DiagramNode.x n
                 /\ DiagramNode.y n' = DiagramNode.y n
                 /\ (App.is_id (selectedNodeId r) (DiagramNode.id n) = false -> n' = n))
        (nodes r) (nodes s))
  /\ (selectedNodeId r = None -> updateSelectedNode updates r = r).
Proof.
  split.
  - intros Hid Hx Hy s. subst s. unfold updateSelectedNode.
    destruct (negb (App.truthy_opt (selectedNodeId r))).
    + split; [reflexivity|]. apply Forall2_refl_same. intros a. repeat split.
    + split; [reflexivity|]. simpl. apply Forall2_map_same. intros n _.
      destruct (App.is_id (selectedNodeId r) (DiagramNode.id n)).
      * unfold spread. rewrite Hid, Hx, Hy. simpl. repeat split.
        intros Habs. discriminate Habs.
      * repeat split.
  - intros Hsel. unfold updateSelectedNode. now rewrite Hsel.
Qed.

Lemma updateSelectedNode_keeps_layout_witness :
  let s := updateSelectedNode (titleUpdate "Brain") dragging in
  connections s = connections dragging
  /\ map DiagramNode.title (nodes s) = ["Brain"]
  /\ map DiagramNode.x (nodes s) = map DiagramNode.x (nodes dragging).
Proof.
  intros s. split; [|split; reflexivity].
  exact (proj1 (proj1 (updateSelectedNode_keeps_layout (titleUpdate "Brain") dragging)
                  eq_refl eq_refl eq_refl)).
Defined.

Lemma last_any_default {A : Type} (a : A) (l : list A) (d1 d2 : A) :
  List.last (a :: l) d1 = List.last (a :: l) d2.
Proof.
  revert a. induction l as [|b l IH]; intros a; [reflexivity|].
  change (List.last (b :: l) d1 = List.last (b :: l) d2). apply IH.
Qed.

Lemma last_cons_default {A : Type} (a : A) (l : list A) (d : A) :
  List.last (a :: l) d = List.last l a.
Proof.
  destruct l as [|b l]; [reflexivity|].
  change (List.last (b :: l) d = List.last (b :: l) a). apply last_any_default.
Qed.

Lemma moveAll_tracks (containerRect : Rect) (moves : list MouseEvent) (r : State)
    (last : Point) :
  isDragging r = false ->
  mousePos r = last ->
  let s := moveAll containerRect moves r in
  nodes s = nodes r /\ connections s = connections r
  /\ isDragging s = false /\ isDrawingLine s = isDrawingLine r
  /\ lineStartNodeId s = lineStartNodeId r
  /\ mousePos s = List.last (map (relative containerRect) moves) last.
Proof.
  revert r last. unfold moveAll.
  induction moves as [|e moves IH]; intros r last Hdrag Hpos; cbn [fold_left map].
  - repeat split; assumption.
  - assert (H1 : handleContainerMouseMove e (Some containerRect) r
                 = setMousePos (relative containerRect e) r).
    { unfold handleContainerMouseMove. now rewrite Hdrag. }
    rewrite H1.
    destruct (IH (setMousePos (relative containerRect e) r) (relative containerRect e)
                Hdrag eq_refl) as (Hn & Hc & Hd & Hl & Hs & Hp).
    rewrite Hn, Hc, Hd, Hl, Hs, Hp. repeat split.
    symmetry. apply last_cons_default.
Qed.

(** X25. The link gesture from its start to its end, on the canvas of an
    asset: pressing the link button of a card, moving the mouse over the
    container and releasing it.  The handler of the release adds one
    connection, from that card to the last position of the mouse in the
    container (the position of the press when the mouse did not move);
    the parent is handed the cards and the connections of before the
    gesture; and after the effect that follows, the editor has the cards
    and the connections of before the gesture, and no drawing state. *)
Theorem link_gesture (e0 : MouseEvent) (moves : list MouseEvent) (containerRect : Rect)
    (nodeId : string) (now : Z) (props : Props) (r : State) (asset : GeneratedAsset.t) :
  isDragging r = false ->
  nodeId <> EmptyString ->
  generatedAsset props = Some asset ->
  let r1 := moveAll containerRect moves
              (startConnection e0 (Some containerRect) nodeId r) in
  let target := List.last (map (relative containerRect) moves)
                  (relative containerRect e0) in
  connections (fst (handleContainerMouseUp now props r1))
  = (connections r
     ++ [ {| DiagramConnection.id := "conn-" ++ Z_to_string now;
             DiagramConnection.fromNodeId := nodeId;
             DiagramConnection.toX := px target;
             DiagramConnection.toY := py target |} ])%list
  /\ (exists a,
        snd (release now props r1) = Some a
        /\ GeneratedAsset.nodes a = Some (nodes r)
        /\ GeneratedAsset.connections a = Some (connections r))
  /\ connections (afterRelease now props r1) = connections r
  /\ nodes (afterRelease now props r1) = nodes r
  /\ isDrawingLine (afterRelease now props r1) = false
  /\ lineStartNodeId (afterRelease now props r1) = None.
Proof.
  intros Hdrag Hid Hasset r1 target.
  assert (Ht : truthy nodeId = true).
  { unfold truthy. apply String.eqb_neq in Hid. now rewrite Hid. }
  subst r1.
  destruct (moveAll_tracks containerRect moves
              (startConnection e0 (Some containerRect) nodeId r)
              (relative containerRect e0))
    as (Hn & Hc & Hd & Hl & Hs & Hp); [exact Hdrag | reflexivity |].
  set (r1 := moveAll containerRect moves
               (startConnection e0 (Some containerRect) nodeId r)) in *.
  assert (Hline : isDrawingLine r1 = true) by (rewrite Hl; reflexivity).
  assert (Hstart : lineStartNodeId r1 = Some nodeId) by (rewrite Hs; reflexivity).
  assert (Hn0 : nodes r1 = nodes r) by (rewrite Hn; reflexivity).
  assert (Hc0 : connections r1 = connections r) by (rewrite Hc; reflexivity).
  split; [|split].
  - subst target. unfold handleContainerMouseUp, newConnection.
    rewrite Hd, Hstart, Hline, Ht. simpl. rewrite Hc0, Hp. reflexivity.
  - unfold release, handleContainerMouseUp, saveState.
    rewrite Hd, Hstart, Hline, Ht, Hasset. simpl. rewrite Hn0, Hc0.
    eexists. repeat split; reflexivity.
  - destruct (EditorFacts.link_release_restores now props r1 asset nodeId
                Hline Hstart Hid Hasset) as (Hconn & Hnodes & Hflag & Hnone).
    rewrite Hconn, Hnodes, Hc0, Hn0. repeat split; assumption.
Qed.

Lemma link_gesture_witness :
  connections
    (fst (handleContainerMouseUp 1700000000000 sample_props
            (moveAll {| left := 10; top := 20 |} [ {| clientX := 310; clientY := 220 |} ]
               (startConnection {| clientX := 200; clientY := 80 |}
                  (Some {| left := 10; top := 20 |}) "node-1-0" at_rest))))
  = [ {| DiagramConnection.id := "conn-1700000000000";
         DiagramConnection.fromNodeId := "node-1-0";
         DiagramConnection.toX := 300;
         DiagramConnection.toY := 200 |} ]
  /\ connections
       (afterRelease 1700000000000 sample_props
          (moveAll {| left := 10; top := 20 |} [ {| clientX := 310; clientY := 220 |} ]
             (startConnection {| clientX := 200; clientY := 80 |}
                (Some {| left := 10; top := 20 |}) "node-1-0" at_rest)))
     = [].
Proof.
  destruct (link_gesture {| clientX := 200; clientY := 80 |}
              [ {| clientX := 310; clientY := 220 |} ] {| left := 10; top := 20 |}
              "node-1-0" 1700000000000 sample_props at_rest
              {| GeneratedAsset.svg := None;
                 GeneratedAsset.background := None;
                 GeneratedAsset.nodes := Some [sample_node];
                 GeneratedAsset.connections := Some [] |}
              eq_refl ltac:(discriminate) eq_refl)
    as (Hupdate & _ & Hafter & _).
  split; [exact Hupdate | exact Hafter].
Defined.

End EditorMoreFacts.
